(** * Stock financial dashboard (app.py): a shallow embedding and its properties

    The dashboard is one linear Streamlit script.  Each run of the script
    initialises the session state, possibly fetches a price history and a
    company-metadata dictionary from the provider, and renders metric
    tiles, a chart, two tables and two CSV downloads.

    Conventions of the embedding:
    - Python numbers (int and float alike) are exact rationals [Q]; the
      float NaN is a separate value.  Binary rounding of float arithmetic
      is not modelled.
    - Python exceptions are the [Raise] case of [Result].
    - the metadata dictionary [info] is a [gmap string PyVal];
    - a pandas DataFrame is an index plus an ordered list of named columns;
    - the script is a function from the widget inputs, the provider's
      answer and the session state to the new session state and the list
      of rendered elements. *)

From Stdlib Require Import ZArith QArith Qabs Qround List Lia.
From Stdlib Require Import Strings.Ascii Strings.String.
From Stdlib Require Import Lqa.
From stdpp Require Import base option list gmap strings.

Local Open Scope string_scope.
Local Open Scope Z_scope.

(** ** Python values and exceptions *)

Inductive PyVal : Type :=
| VNone
| VNum (x : Q)
| VNaN
| VStr (s : string).

Inductive PyErr : Type :=
| TypeError
| ValueError
| KeyError
| IndexError
| AttributeError
| ZeroDivisionError.

Inductive Result (A : Type) : Type :=
| Ok (a : A)
| Raise (e : PyErr).
Arguments Ok {A} a.
Arguments Raise {A} e.

#[global] Instance Result_ret : MRet Result := fun A a => Ok a.
#[global] Instance Result_bind : MBind Result := fun A B k r =>
  match r with
  | Ok a => k a
  | Raise e => Raise e
  end.

(** Evaluate the elements of a list display left to right; the first
    exception aborts the construction of the list. *)
Fixpoint sequence {A} (rs : list (Result A)) : Result (list A) :=
  match rs with
  | [] => Ok []
  | r :: rs' => a ← r; l ← sequence rs'; Ok (a :: l)
  end.

(** ** Decimal rendering of numbers (Python's format mini-language) *)

Definition digit_char (d : Z) : ascii := ascii_of_nat (48 + Z.to_nat d).

Fixpoint digits_go (fuel : nat) (n : Z) (acc : string) : string :=
  match fuel with
  | O => acc
  | S fuel' =>
      let acc' := String (digit_char (n mod 10)) acc in
      if n <? 10 then acc' else digits_go fuel' (n / 10) acc'
  end.

(** Decimal digits of a natural number [n >= 0]. *)
Definition Z_digits (n : Z) : string :=
  digits_go (S (Z.to_nat (Z.log2 n))) n "".

Fixpoint zeros (k : nat) : string :=
  match k with
  | O => ""
  | S k' => String "0" (zeros k')
  end.

(** Left-pad with zeros to width [w]. *)
Definition pad_left (w : nat) (s : string) : string :=
  zeros (w - String.length s) +:+ s.

Fixpoint rev_string_onto (s acc : string) : string :=
  match s with
  | "" => acc
  | String c s' => rev_string_onto s' (String c acc)
  end.

Definition rev_string (s : string) : string := rev_string_onto s "".

(** Groups of three, for the [,] option: works on the reversed digits. *)
Fixpoint group3 (s : string) : string :=
  match s with
  | String a (String b (String c ((String _ _) as rest))) =>
      String a (String b (String c (String "," (group3 rest))))
  | _ => s
  end.

Definition thousands (s : string) : string := rev_string (group3 (rev_string s)).

(** Round to the nearest integer, ties to the even one. *)
Definition round_half_even (q : Q) : Z :=
  let fl := Qfloor q in
  let r := Qnum q mod Zpos (Qden q) in
  match 2 * r ?= Zpos (Qden q) with
  | Lt => fl
  | Gt => fl + 1
  | Eq => if Z.even fl then fl else fl + 1
  end.

(** A format specification [[+][,].<prec>f]. *)
Record FormatSpec : Type := {
  fs_plus : bool;
  fs_comma : bool;
  fs_prec : nat
}.

Definition spec_2f : FormatSpec := {| fs_plus := false; fs_comma := false; fs_prec := 2 |}.
Definition spec_plus_2f : FormatSpec := {| fs_plus := true; fs_comma := false; fs_prec := 2 |}.
Definition spec_comma_0f : FormatSpec := {| fs_plus := false; fs_comma := true; fs_prec := 0 |}.

Definition Qlt_bool (a b : Q) : bool := negb (Qle_bool b a).

Definition sign_string (plus : bool) (x : Q) : string :=
  if Qlt_bool x 0 then "-" else if plus then "+" else "".

(** The digits of [|x|] in fixed notation with [prec] decimals. *)
Definition fixed_digits (comma : bool) (prec : nat) (x : Q) : string :=
  let scale := 10 ^ Z.of_nat prec in
  let m := round_half_even (Qabs x * inject_Z scale) in
  let ip := Z_digits (m / scale) in
  let ip' := if comma then thousands ip else ip in
  match prec with
  | O => ip'
  | S _ => ip' +:+ "." +:+ pad_left prec (Z_digits (m mod scale))
  end.

Definition format_float (fs : FormatSpec) (x : Q) : string :=
  sign_string (fs_plus fs) x +:+ fixed_digits (fs_comma fs) (fs_prec fs) x.

(** [format(v, spec)] for a float presentation type: [None] has no such
    format (TypeError) and a [str] rejects the code [f] (ValueError). *)
Definition py_format (fs : FormatSpec) (v : PyVal) : Result string :=
  match v with
  | VNum x => Ok (format_float fs x)
  | VNaN => Ok ((if fs_plus fs then "+" else "") +:+ "nan")
  | VNone => Raise TypeError
  | VStr _ => Raise ValueError
  end.

(** ** The magnitude formatter (app.py, format_large_number) *)

Definition is_None (v : PyVal) : bool :=
  match v with VNone => true | _ => false end.

Definition pd_isna (v : PyVal) : bool :=
  match v with VNone | VNaN => true | _ => false end.

Definition Q1e3 : Q := inject_Z 1000.
Definition Q1e6 : Q := inject_Z 1000000.
Definition Q1e9 : Q := inject_Z 1000000000.
Definition Q1e12 : Q := inject_Z 1000000000000.

Definition format_large_number (num : PyVal) : Result string :=
  if is_None num || pd_isna num then Ok "N/A"
  else match num with
       | VNum x =>
           if Qle_bool Q1e12 (Qabs x) then
             Ok ("$" +:+ format_float spec_2f (x / Q1e12) +:+ "T")
           else if Qle_bool Q1e9 (Qabs x) then
             Ok ("$" +:+ format_float spec_2f (x / Q1e9) +:+ "B")
           else if Qle_bool Q1e6 (Qabs x) then
             Ok ("$" +:+ format_float spec_2f (x / Q1e6) +:+ "M")
           else if Qle_bool Q1e3 (Qabs x) then
             Ok ("$" +:+ format_float spec_2f (x / Q1e3) +:+ "K")
           else
             Ok ("$" +:+ format_float spec_2f x)
       | _ => Raise TypeError
       end.

(** ** The metadata dictionary and Python's truthiness *)

Abbreviation Info := (gmap string PyVal).

(** [info.get(k)] and [info.get(k, d)]: the default is used only when
    the key is missing, not when it is bound to [None]. *)
Definition dict_get (info : Info) (k : string) : PyVal :=
  default VNone (info !! k).

Definition dict_get_or (info : Info) (k : string) (d : PyVal) : PyVal :=
  default d (info !! k).

Definition truthy (v : PyVal) : bool :=
  match v with
  | VNone => false
  | VNum x => negb (Qeq_bool x 0)
  | VNaN => true
  | VStr s => negb (String.eqb s "")
  end.

Definition py_or (a b : PyVal) : PyVal := if truthy a then a else b.
Definition py_and (a b : PyVal) : PyVal := if truthy a then b else a.

Definition py_sub (a b : PyVal) : Result PyVal :=
  match a, b with
  | VNum x, VNum y => Ok (VNum (x - y))
  | VNum _, VNaN | VNaN, VNum _ | VNaN, VNaN => Ok VNaN
  | _, _ => Raise TypeError
  end.

Definition py_div (a b : PyVal) : Result PyVal :=
  match a, b with
  | VNum x, VNum y =>
      if Qeq_bool y 0 then Raise ZeroDivisionError else Ok (VNum (x / y))
  | VNaN, VNum y =>
      if Qeq_bool y 0 then Raise ZeroDivisionError else Ok VNaN
  | VNum _, VNaN | VNaN, VNaN => Ok VNaN
  | _, _ => Raise TypeError
  end.

Fixpoint repeat_string (s : string) (n : nat) : string :=
  match n with
  | O => ""
  | S n' => s +:+ repeat_string s n'
  end.

(** [v * n] for an int literal [n]; a [str] is repeated. *)
Definition py_mul_int (v : PyVal) (n : Z) : Result PyVal :=
  match v with
  | VNum x => Ok (VNum (x * inject_Z n))
  | VNaN => Ok VNaN
  | VStr s => Ok (VStr (repeat_string s (Z.to_nat n)))
  | VNone => Raise TypeError
  end.

(** ** Price change (app.py, lines 97-100) *)

Definition current_price (info : Info) : PyVal :=
  py_or (dict_get info "currentPrice") (dict_get_or info "regularMarketPrice" (VNum 0)).

Definition previous_close (info : Info) : PyVal :=
  dict_get_or info "previousClose" (VNum 0).

Definition price_change (info : Info) : Result PyVal :=
  if truthy (py_and (current_price info) (previous_close info))
  then py_sub (current_price info) (previous_close info)
  else Ok (VNum 0).

Definition price_change_pct (info : Info) : Result PyVal :=
  change ← price_change info;
  if truthy (previous_close info)
  then r ← py_div change (previous_close info); py_mul_int r 100
  else Ok (VNum 0).

(** ** Metric tiles (app.py, lines 102-125) *)

Record Metric : Type := {
  m_label : string;
  m_value : string;
  m_delta : option string
}.

Definition price_tile (info : Info) : Result Metric :=
  change ← price_change info;
  pct ← price_change_pct info;
  value ← (if truthy (current_price info)
           then s ← py_format spec_2f (current_price info); Ok ("$" +:+ s)
           else Ok "N/A");
  delta ← (if truthy change
           then a ← py_format spec_plus_2f change;
                b ← py_format spec_plus_2f pct;
                Ok (Some (a +:+ " (" +:+ b +:+ "%)"))
           else Ok None);
  Ok {| m_label := "Current Price"; m_value := value; m_delta := delta |}.

Definition market_cap_tile (info : Info) : Result Metric :=
  value ← format_large_number (dict_get info "marketCap");
  Ok {| m_label := "Market Cap"; m_value := value; m_delta := None |}.

Definition pe_tile (info : Info) : Result Metric :=
  let pe_ratio := dict_get info "trailingPE" in
  value ← (if truthy pe_ratio then py_format spec_2f pe_ratio else Ok "N/A");
  Ok {| m_label := "P/E Ratio"; m_value := value; m_delta := None |}.

Definition dividend_tile (info : Info) : Result Metric :=
  let dividend_yield := dict_get info "dividendYield" in
  value ← (if truthy dividend_yield
           then v ← py_mul_int dividend_yield 100;
                s ← py_format spec_2f v; Ok (s +:+ "%")
           else Ok "N/A");
  Ok {| m_label := "Dividend Yield"; m_value := value; m_delta := None |}.

Definition volume_tile (info : Info) : Result Metric :=
  let volume := py_or (dict_get info "volume") (dict_get info "regularMarketVolume") in
  value ← (if truthy volume then py_format spec_comma_0f volume else Ok "N/A");
  Ok {| m_label := "Volume"; m_value := value; m_delta := None |}.

Definition metric_tiles (info : Info) : Result (list Metric) :=
  sequence [price_tile info; market_cap_tile info; pe_tile info;
            dividend_tile info; volume_tile info].

(** ** The financial metrics table (app.py, lines 214-265) *)

(** [f"<pre>{info.get(k, 'N/A'):<fs>}" if info.get(k) else "N/A"] *)
Definition guarded (fs : FormatSpec) (pre : string) (k : string) (info : Info)
  : Result string :=
  if truthy (dict_get info k)
  then s ← py_format fs (dict_get_or info k (VStr "N/A")); Ok (pre +:+ s)
  else Ok "N/A".

(** [f"<pre>{info.get(k1, info.get(k2, 'N/A')):<fs>}"
     if info.get(k1) or info.get(k2) else "N/A"] *)
Definition guarded2 (fs : FormatSpec) (pre : string) (k1 k2 : string) (info : Info)
  : Result string :=
  if truthy (py_or (dict_get info k1) (dict_get info k2))
  then s ← py_format fs (dict_get_or info k1 (dict_get_or info k2 (VStr "N/A")));
       Ok (pre +:+ s)
  else Ok "N/A".

(** [f"{info.get(k, 0)*100:.2f}%" if info.get(k) else "N/A"] *)
Definition guarded_pct (k : string) (info : Info) : Result string :=
  if truthy (dict_get info k)
  then v ← py_mul_int (dict_get_or info k (VNum 0)) 100;
       s ← py_format spec_2f v; Ok (s +:+ "%")
  else Ok "N/A".

(** The rows in table order: label and the expression of the Value cell. *)
Definition financial_rows (info : Info) : list (string * Result string) :=
  [ ("Current Price", guarded2 spec_2f "$" "currentPrice" "regularMarketPrice" info);
    ("Previous Close", guarded spec_2f "$" "previousClose" info);
    ("Open", guarded2 spec_2f "$" "open" "regularMarketOpen" info);
    ("Day High", guarded2 spec_2f "$" "dayHigh" "regularMarketDayHigh" info);
    ("Day Low", guarded2 spec_2f "$" "dayLow" "regularMarketDayLow" info);
    ("52 Week High", guarded spec_2f "$" "fiftyTwoWeekHigh" info);
    ("52 Week Low", guarded spec_2f "$" "fiftyTwoWeekLow" info);
    ("Market Cap", format_large_number (dict_get info "marketCap"));
    ("P/E Ratio (Trailing)", guarded spec_2f "" "trailingPE" info);
    ("P/E Ratio (Forward)", guarded spec_2f "" "forwardPE" info);
    ("PEG Ratio", guarded spec_2f "" "pegRatio" info);
    ("Price to Book", guarded spec_2f "" "priceToBook" info);
    ("EPS (TTM)", guarded spec_2f "$" "trailingEps" info);
    ("Dividend Yield", guarded_pct "dividendYield" info);
    ("Dividend Rate", guarded spec_2f "$" "dividendRate" info);
    ("Beta", guarded spec_2f "" "beta" info);
    ("Volume", guarded2 spec_comma_0f "" "volume" "regularMarketVolume" info);
    ("Avg Volume", guarded spec_comma_0f "" "averageVolume" info);
    ("Revenue", format_large_number (dict_get info "totalRevenue"));
    ("Profit Margin", guarded_pct "profitMargins" info);
    ("Operating Margin", guarded_pct "operatingMargins" info);
    ("ROE", guarded_pct "returnOnEquity" info);
    ("ROA", guarded_pct "returnOnAssets" info) ].

(** The dictionary literal [financial_data]: the two columns. *)
Definition financial_metric_column (info : Info) : list string :=
  (financial_rows info).*1.

Definition financial_value_column (info : Info) : Result (list string) :=
  sequence (financial_rows info).*2.

(** ** Price history as a pandas DataFrame *)

(** A row label of the provider's DatetimeIndex (named [Date]); only the
    calendar date is kept, which is all [strftime('%Y-%m-%d')] reads. *)
Record Timestamp : Type := {
  ts_year : Z;
  ts_month : Z;
  ts_day : Z
}.

Definition strftime_ymd (t : Timestamp) : string :=
  pad_left 4 (Z_digits (ts_year t)) +:+ "-" +:+
  pad_left 2 (Z_digits (ts_month t)) +:+ "-" +:+
  pad_left 2 (Z_digits (ts_day t)).

(** A float64 entry: [None] is NaN. *)
Abbreviation Float := (option Q).

Record DataFrame : Type := {
  index : list Timestamp;
  columns : list (string * list Float)
}.

(** Named columns in order (the column axis of a frame). *)
Fixpoint cols_get {A} (name : string) (cs : list (string * A)) : option A :=
  match cs with
  | [] => None
  | (n, c) :: cs' => if String.eqb n name then Some c else cols_get name cs'
  end.

(** Assignment to a column: in place when the name exists, else appended. *)
Fixpoint cols_set {A} (name : string) (v : A) (cs : list (string * A))
  : list (string * A) :=
  match cs with
  | [] => [(name, v)]
  | (n, c) :: cs' =>
      if String.eqb n name then (n, v) :: cs' else (n, c) :: cols_set name v cs'
  end.

Definition getitem {A} (cs : list (string * A)) (name : string) : Result A :=
  match cols_get name cs with
  | Some c => Ok c
  | None => Raise KeyError
  end.

(** [hist[name]], [hist[name] = series], [len(hist)], [hist.empty]. *)
Definition df_getitem (df : DataFrame) (name : string) : Result (list Float) :=
  getitem (columns df) name.

Definition df_setitem (df : DataFrame) (name : string) (series : list Float)
  : DataFrame :=
  {| index := index df; columns := cols_set name series (columns df) |}.

Definition df_len (df : DataFrame) : nat := length (index df).

Definition df_empty (df : DataFrame) : bool :=
  (length (index df) =? 0)%nat || (length (columns df) =? 0)%nat.

(** [series.iloc[i]] *)
Definition iloc {A} (series : list A) (i : nat) : Result A :=
  match series !! i with
  | Some x => Ok x
  | None => Raise IndexError
  end.

(** *** Rolling mean: [series.rolling(window=w).mean()] *)

Fixpoint float_sum (xs : list Float) : Float :=
  match xs with
  | [] => Some 0%Q
  | x :: xs' => a ← x; b ← float_sum xs'; Some (a + b)%Q
  end.

(** The mean of a window, NaN unless it holds [w] observations. *)
Definition window_mean (w : nat) (win : list Float) : Float :=
  if (length win =? w)%nat
  then s ← float_sum win; Some (s / inject_Z (Z.of_nat w))%Q
  else None.

(** The window that ends at position [i]. *)
Definition window_at (w : nat) (xs : list Float) (i : nat) : list Float :=
  drop (S i - w) (take (S i) xs).

Definition rolling_mean (w : nat) (xs : list Float) : list Float :=
  map (fun i => window_mean w (window_at w xs i)) (seq 0 (length xs)).

(** *** Chart traces (plotly graph objects) *)

Inductive Trace : Type :=
| Candlestick (x : list Timestamp) (open high low close : list Float) (name : string)
| Scatter (x : list Timestamp) (y : list Float) (name : string) (color : string)
| Bar (x : list Timestamp) (y : list Float) (name : string) (marker_color : list string).

(** A figure: the traces in the order added, each with its subplot row. *)
Abbreviation Figure := (list (Trace * nat)).

Definition trace_name (t : Trace) : string :=
  match t with
  | Candlestick _ _ _ _ _ n => n
  | Scatter _ _ n _ => n
  | Bar _ _ n _ => n
  end.

(** Float comparison [a < b]: false when either side is NaN. *)
Definition float_lt (a b : Float) : bool :=
  match a, b with
  | Some x, Some y => Qlt_bool x y
  | _, _ => false
  end.

(** ['red' if close < open else 'green'] *)
Definition bar_color (close open : Float) : string :=
  if float_lt close open then "red" else "green".

(** The list comprehension of lines 182-183. *)
Definition colors (hist : DataFrame) : Result (list string) :=
  sequence
    (map (fun i =>
            close ← df_getitem hist "Close";
            c ← iloc close i;
            open ← df_getitem hist "Open";
            o ← iloc open i;
            Ok (bar_color c o))
         (seq 0 (df_len hist))).

(** ** Tables shown on screen and exported *)

Inductive Cell : Type :=
| CNum (x : Q)
| CNaN
| CStr (s : string).

Abbreviation Table := (list (string * list Cell)).

Definition cell_of_float (x : Float) : Cell :=
  match x with
  | Some q => CNum q
  | None => CNaN
  end.

(** [df.reset_index()] followed by
    [df['Date'] = df['Date'].dt.strftime('%Y-%m-%d')]: the index becomes
    the first column, as text.  pandas refuses to insert the index when a
    column of that name exists. *)
Definition reset_index_strftime (df : DataFrame) : Result Table :=
  match cols_get "Date" (columns df) with
  | Some _ => Raise ValueError
  | None =>
      Ok (("Date", map (fun t => CStr (strftime_ymd t)) (index df))
            :: map (fun nc => (nc.1, map cell_of_float nc.2)) (columns df))
  end.

(** [df[names]]: the named columns, in the order asked. *)
Fixpoint select_columns (names : list string) (t : Table) : Result Table :=
  match names with
  | [] => Ok []
  | n :: names' =>
      c ← getitem t n; rest ← select_columns names' t; Ok ((n, c) :: rest)
  end.

Definition display_cols : list string :=
  ["Date"; "Open"; "High"; "Low"; "Close"; "Volume"].

(** [round(x, 2)] as numpy does it: scale, round half to even, unscale. *)
Definition round2 (x : Q) : Q :=
  (inject_Z (round_half_even (x * inject_Z 100)) / inject_Z 100)%Q.

Definition cell_round2 (c : Cell) : Result Cell :=
  match c with
  | CNum x => Ok (CNum (round2 x))
  | CNaN => Ok CNaN
  | CStr _ => Raise TypeError
  end.

(** [lambda x: f"{x:,.0f}"] *)
Definition cell_thousands (c : Cell) : Result Cell :=
  match c with
  | CNum x => Ok (CStr (format_float spec_comma_0f x))
  | CNaN => Ok (CStr "nan")
  | CStr _ => Raise ValueError
  end.

(** [t[col] = f(t[col])] for an elementwise [f]. *)
Definition update_column (f : Cell -> Result Cell) (col : string) (t : Table)
  : Result Table :=
  c ← getitem t col;
  c' ← sequence (map f c);
  Ok (cols_set col c' t).

Fixpoint round_columns (cols : list string) (t : Table) : Result Table :=
  match cols with
  | [] => Ok t
  | col :: cols' => t' ← update_column cell_round2 col t; round_columns cols' t'
  end.

(** [t.iloc[::-1].reset_index(drop=True)] *)
Definition reverse_rows (t : Table) : Table :=
  map (fun nc => (nc.1, rev nc.2)) t.

(** Lines 276-291. *)
Definition display_hist (hist : DataFrame) : Result Table :=
  t ← reset_index_strftime hist;
  t ← select_columns display_cols t;
  t ← round_columns ["Open"; "High"; "Low"; "Close"] t;
  t ← update_column cell_thousands "Volume" t;
  Ok (reverse_rows t).

(** Lines 302-305. *)
Definition csv_hist (hist : DataFrame) : Result Table :=
  t ← reset_index_strftime hist;
  select_columns ["Date"; "Open"; "High"; "Low"; "Close"; "Volume"] t.

(** ** CSV text: [DataFrame.to_csv(index=False)] and re-reading it *)

Definition comma : ascii := ascii_of_nat 44.
Definition dquote : ascii := ascii_of_nat 34.
Definition newline : ascii := ascii_of_nat 10.
Definition creturn : ascii := ascii_of_nat 13.

Definition special_char (c : ascii) : bool :=
  Ascii.eqb c comma || Ascii.eqb c dquote || Ascii.eqb c newline || Ascii.eqb c creturn.

Fixpoint needs_quote (s : string) : bool :=
  match s with
  | "" => false
  | String c s' => special_char c || needs_quote s'
  end.

Fixpoint double_quotes (s : string) : string :=
  match s with
  | "" => ""
  | String c s' =>
      if Ascii.eqb c dquote then String c (String c (double_quotes s'))
      else String c (double_quotes s')
  end.

(** Minimal quoting, the default of the csv writer. *)
Definition csv_field (s : string) : string :=
  if needs_quote s
  then String dquote (double_quotes s) +:+ String dquote ""
  else s.

Fixpoint join (sep : string) (fields : list string) : string :=
  match fields with
  | [] => ""
  | [f] => f
  | f :: fields' => f +:+ sep +:+ join sep fields'
  end.

Definition csv_line (fields : list string) : string :=
  join (String comma "") fields +:+ String newline "".

(** The records of a table: one list of cells per row. *)
Definition table_rows (t : Table) : list (list Cell) :=
  match t with
  | [] => []
  | (_, c) :: _ =>
      map (fun i => map (fun nc => default CNaN (nc.2 !! i)) t) (seq 0 (length c))
  end.

Fixpoint concat_strings (l : list string) : string :=
  match l with
  | [] => ""
  | s :: l' => s +:+ concat_strings l'
  end.

Fixpoint split_on (sep : ascii) (s : string) : list string :=
  match s with
  | "" => [""]
  | String c s' =>
      if Ascii.eqb c sep then "" :: split_on sep s'
      else match split_on sep s' with
           | f :: fs => String c f :: fs
           | [] => [String c ""]
           end
  end.

Fixpoint drop_last_empty (l : list string) : list string :=
  match l with
  | [] => []
  | x :: l' =>
      match l' with
      | [] => if String.eqb x "" then [] else [x]
      | _ :: _ => x :: drop_last_empty l'
      end
  end.

(** The records of a delimited text without quoted fields. *)
Definition read_csv (text : string) : list (list string) :=
  map (split_on comma) (drop_last_empty (split_on newline text)).

Fixpoint option_list {A} (l : list (option A)) : option (list A) :=
  match l with
  | [] => Some []
  | x :: l' => a ← x; r ← option_list l'; Some (a :: r)
  end.

Section Csv.
(** How pandas writes a number, and how a reader parses one. *)
Variable num_repr : Q -> string.
Variable num_parse : string -> option Q.

Definition cell_text (c : Cell) : string :=
  match c with
  | CStr s => csv_field s
  | CNum x => num_repr x
  | CNaN => ""
  end.

Definition to_csv (t : Table) : string :=
  csv_line (map csv_field t.*1)
  +:+ concat_strings (map (fun r => csv_line (map cell_text r)) (table_rows t)).

Definition parse_number (s : string) : option Cell :=
  if String.eqb s "" then Some CNaN else CNum <$> num_parse s.

(** A record of the historical export: the date as text, then numbers. *)
Definition parse_hist_record (fields : list string) : option (list Cell) :=
  match fields with
  | [] => None
  | d :: nums => cells ← option_list (map parse_number nums); Some (CStr d :: cells)
  end.

Definition read_hist_csv (text : string) : option (list string * list (list Cell)) :=
  match read_csv text with
  | [] => None
  | header :: records =>
      rows ← option_list (map parse_hist_record records); Some (header, rows)
  end.
End Csv.

(** ** The session and one run of the script *)

(** [st.session_state]: a key may be missing (outer [None]) or bound to
    Python's [None] (inner [None]). *)
Record SessionState : Type := {
  ss_stock_data : option (option DataFrame);
  ss_stock_info : option (option Info);
  ss_symbol : option (option string)
}.

Definition fresh_session : SessionState :=
  {| ss_stock_data := None; ss_stock_info := None; ss_symbol := None |}.

Inductive Element : Type :=
| EError (msg : string)
| EMetric (m : Metric)
| EChart (fig : Figure)
| EDataframe (t : Table)
| EDownload (label data file_name : string)
| EInfo (msg : string).

(** What a run acts on: the session, the page rendered so far and the
    calls made to the provider so far. *)
Record World : Type := {
  w_state : SessionState;
  w_page : list Element;
  w_calls : list (string * string)
}.

(** A script fragment: it may change the session and the page and may
    stop with an exception; what it did before the exception stays. *)
Definition Script (A : Type) : Type := World -> Result A * World.

#[global] Instance Script_ret : MRet Script := fun A a w => (Ok a, w).
#[global] Instance Script_bind : MBind Script := fun A B k m w =>
  match m w with
  | (Ok a, w') => k a w'
  | (Raise e, w') => (Raise e, w')
  end.

Definition lift {A} (r : Result A) : Script A := fun w => (r, w).

Definition get_state : Script SessionState := fun w => (Ok (w_state w), w).

Definition set_state (ss : SessionState) : Script unit :=
  fun w => (Ok tt, {| w_state := ss; w_page := w_page w; w_calls := w_calls w |}).

Definition emit (e : Element) : Script unit :=
  fun w => (Ok tt, {| w_state := w_state w; w_page := (w_page w ++ [e])%list;
                      w_calls := w_calls w |}).

Fixpoint emit_all (es : list Element) : Script unit :=
  match es with
  | [] => mret tt
  | e :: es' => emit e;; emit_all es'
  end.

(** Reading [st.session_state.key]: a missing key is an AttributeError. *)
Definition read_key {A} (slot : option A) : Script A :=
  match slot with
  | Some v => mret v
  | None => lift (Raise AttributeError)
  end.

(** Lines 38-44. *)
Definition init_session : Script unit :=
  ss ← get_state;
  set_state {| ss_stock_data := Some (default None (ss_stock_data ss));
               ss_stock_info := Some (default None (ss_stock_info ss));
               ss_symbol := Some (default None (ss_symbol ss)) |}.

(** *** The provider and the sidebar inputs *)

Inductive ProviderAnswer : Type :=
| Raises (text : string)
| Returns (hist : DataFrame) (info : Info).

(** [yf.Ticker(symbol)], [.history(period=period)] and [.info]. *)
Abbreviation Provider := (string -> string -> ProviderAnswer).

Inductive Period : Type :=
| OneWeek | OneMonth | ThreeMonths | SixMonths
| OneYear | TwoYears | FiveYears | Max.

Definition period_options (p : Period) : string :=
  match p with
  | OneWeek => "5d"
  | OneMonth => "1mo"
  | ThreeMonths => "3mo"
  | SixMonths => "6mo"
  | OneYear => "1y"
  | TwoYears => "2y"
  | FiveYears => "5y"
  | Max => "max"
  end.

(** The sidebar: the symbol as entered (upper-cased and stripped), the
    selected period and whether the button was clicked in this run. *)
Record Inputs : Type := {
  in_symbol : string;
  in_selected_period : Period;
  in_fetch_button : bool
}.

(** One request to the provider, recorded in the log of calls. *)
Definition call_provider (yf : Provider) (symbol period : string)
  : Script ProviderAnswer :=
  fun w => (Ok (yf symbol period),
            {| w_state := w_state w; w_page := w_page w;
               w_calls := (w_calls w ++ [(symbol, period)])%list |}).

(** Lines 61-69. *)
Definition get_stock_data (yf : Provider) (symbol period : string)
  : Script (option DataFrame * option Info * option string) :=
  answer ← call_provider yf symbol period;
  match answer with
  | Returns hist info => mret (Some hist, Some info, None)
  | Raises e => mret (None, None, Some e)
  end.

Definition nonempty_string (s : string) : bool := negb (String.eqb s "").

Definition is_Some_bool {A} (o : option A) : bool :=
  match o with Some _ => true | None => false end.

Definition not_found_message (symbol : string) : string :=
  "No data found for symbol '" +:+ symbol +:+ "'. Please check the symbol and try again.".

Definition fetch_error_message (error : string) : string :=
  "Error fetching data: " +:+ error.

(** Lines 72-82. *)
Definition fetch_handler (yf : Provider) (inp : Inputs) : Script unit :=
  let symbol := in_symbol inp in
  let period := period_options (in_selected_period inp) in
  ss ← get_state;
  stored ← (if in_fetch_button inp then mret None
            else read_key (ss_stock_data ss));
  if in_fetch_button inp || (negb (is_Some_bool stored) && nonempty_string symbol)
  then
    '(hist, info, error) ← get_stock_data yf symbol period;
    if from_option nonempty_string false error then
      emit (EError (fetch_error_message (default "" error)))
    else
      match hist with
      | None => emit (EError (not_found_message symbol))
      | Some h =>
          if df_empty h then emit (EError (not_found_message symbol))
          else set_state {| ss_stock_data := Some hist;
                            ss_stock_info := Some info;
                            ss_symbol := Some (Some symbol) |}
      end
  else mret tt.

(** *** The display branch (lines 85-326) *)

(** [hist] is the object stored in the session, not a copy: reading and
    assigning its columns goes through the session. *)
Definition get_hist : Script DataFrame :=
  ss ← get_state;
  stored ← read_key (ss_stock_data ss);
  match stored with
  | Some hist => mret hist
  | None => lift (Raise TypeError)
  end.

Definition hist_col (name : string) : Script (list Float) :=
  hist ← get_hist; lift (df_getitem hist name).

Definition hist_set_col (name : string) (series : list Float) : Script unit :=
  hist ← get_hist;
  ss ← get_state;
  set_state {| ss_stock_data := Some (Some (df_setitem hist name series));
               ss_stock_info := ss_stock_info ss;
               ss_symbol := ss_symbol ss |}.

(** Lines 155-166 and 168-179, for a window, its column, its trace name
    and its line colour. *)
Definition add_moving_average (w : nat) (col name color : string) (fig : Figure)
  : Script Figure :=
  hist ← get_hist;
  if (w <=? df_len hist)%nat then
    close ← hist_col "Close";
    hist_set_col col (rolling_mean w close);;
    hist ← get_hist;
    y ← hist_col col;
    mret (fig ++ [(Scatter (index hist) y name color, 1%nat)])%list
  else mret fig.

(** Lines 133-206. *)
Definition build_chart : Script Figure :=
  hist ← get_hist;
  open ← hist_col "Open";
  high ← hist_col "High";
  low ← hist_col "Low";
  close ← hist_col "Close";
  let fig := [(Candlestick (index hist) open high low close "Price", 1%nat)] in
  fig ← add_moving_average 20 "MA20" "20-Day MA" "orange" fig;
  fig ← add_moving_average 50 "MA50" "50-Day MA" "blue" fig;
  hist ← get_hist;
  colors ← lift (colors hist);
  volume ← hist_col "Volume";
  mret (fig ++ [(Bar (index hist) volume "Volume" colors, 2%nat)])%list.

Definition financial_df (info : Info) : Result Table :=
  values ← financial_value_column info;
  Ok [("Metric", map CStr (financial_metric_column info));
      ("Value", map CStr values)].

(** [f"{current_symbol}..."]: [None] prints as the text None. *)
Definition str_of_symbol (current_symbol : option string) : string :=
  default "None" current_symbol.

Section Display.
Variable num_repr : Q -> string.

Definition display_data : Script unit :=
  hist ← get_hist;
  ss ← get_state;
  stored_info ← read_key (ss_stock_info ss);
  current_symbol ← read_key (ss_symbol ss);
  info ← lift (match stored_info with
               | Some info => Ok info
               | None => Raise AttributeError
               end);
  m ← lift (price_tile info); emit (EMetric m);;
  m ← lift (market_cap_tile info); emit (EMetric m);;
  m ← lift (pe_tile info); emit (EMetric m);;
  m ← lift (dividend_tile info); emit (EMetric m);;
  m ← lift (volume_tile info); emit (EMetric m);;
  fig ← build_chart;
  emit (EChart fig);;
  fin ← lift (financial_df info);
  emit (EDataframe fin);;
  hist ← get_hist;
  shown ← lift (display_hist hist);
  emit (EDataframe shown);;
  exported ← lift (csv_hist hist);
  emit (EDownload "Download Historical Data (CSV)"
                  (to_csv num_repr exported)
                  (str_of_symbol current_symbol +:+ "_historical_data.csv"));;
  emit (EDownload "Download Financial Metrics (CSV)"
                  (to_csv num_repr fin)
                  (str_of_symbol current_symbol +:+ "_financial_metrics.csv")).

Definition getting_started : string :=
  "Enter a stock symbol in the sidebar and click 'Fetch Data' to get started.".

(** Line 85 and the two branches. *)
Definition display : Script unit :=
  ss ← get_state;
  stored ← read_key (ss_stock_data ss);
  match stored with
  | Some hist =>
      if negb (df_empty hist) then display_data
      else emit (EInfo getting_started)
  | None => emit (EInfo getting_started)
  end.

(** One run of the script. *)
Definition script (yf : Provider) (inp : Inputs) : Script unit :=
  init_session;;
  fetch_handler yf inp;;
  display.

(** The session after a run that started from [ss], and what the run
    rendered; an uncaught exception ends the run but not the session. *)
Definition run (yf : Provider) (inp : Inputs) (ss : SessionState)
  : Result unit * World :=
  script yf inp {| w_state := ss; w_page := []; w_calls := [] |}.
End Display.

(** ** Shapes of rendered text, used to state the properties *)

Definition is_digit (c : ascii) : bool :=
  (48 <=? nat_of_ascii c)%nat && (nat_of_ascii c <=? 57)%nat.

Fixpoint all_digits (s : string) : bool :=
  match s with
  | "" => true
  | String c s' => is_digit c && all_digits s'
  end.

(** Split at the first decimal point. *)
Fixpoint split_point (s : string) : option (string * string) :=
  match s with
  | "" => None
  | String c s' =>
      if Ascii.eqb c "." then Some ("", s')
      else '(a, b) ← split_point s'; Some (String c a, b)
  end.

(** One or more digits, a point, exactly two digits. *)
Definition two_decimals (s : string) : bool :=
  match split_point s with
  | Some (ip, fp) =>
      (1 <=? String.length ip)%nat && all_digits ip
      && (String.length fp =? 2)%nat && all_digits fp
  | None => false
  end.

(** A minus sign exactly when [neg], then a number with two decimals. *)
Definition signed_two_decimals (neg : bool) (s : string) : bool :=
  if neg
  then match s with
       | String "-" s' => two_decimals s'
       | _ => false
       end
  else two_decimals s.

(** The number written by a string of digits. *)
Fixpoint digits_value (acc : Z) (s : string) : Z :=
  match s with
  | "" => acc
  | String c s' => digits_value (10 * acc + (Z.of_nat (nat_of_ascii c) - 48)) s'
  end.

(** ** Session states and fetch attempts *)

(** After initialisation with nothing fetched: every key is [None]. *)
Definition empty_session : SessionState :=
  {| ss_stock_data := Some None; ss_stock_info := Some None;
     ss_symbol := Some None |}.

Definition populated (hist : DataFrame) (info : Info) (symbol : string)
  : SessionState :=
  {| ss_stock_data := Some (Some hist); ss_stock_info := Some (Some info);
     ss_symbol := Some (Some symbol) |}.

(** Nothing fetched yet: before the first run, or all three keys [None]. *)
Definition unset (ss : SessionState) : Prop :=
  ss = fresh_session \/ ss = empty_session.

(** The session after lines 38-44. *)
Definition initialised (ss : SessionState) : SessionState :=
  {| ss_stock_data := Some (default None (ss_stock_data ss));
     ss_stock_info := Some (default None (ss_stock_info ss));
     ss_symbol := Some (default None (ss_symbol ss)) |}.

(** The condition of line 72, on the session as it stands before the run. *)
Definition attempts_fetch (inp : Inputs) (ss : SessionState) : bool :=
  in_fetch_button inp
  || (match ss_stock_data ss with
      | Some (Some _) => false
      | _ => true
      end && nonempty_string (in_symbol inp)).

(** The answer of the provider when it is a non-empty history. *)
Definition fetched (yf : Provider) (inp : Inputs) : option (DataFrame * Info) :=
  match yf (in_symbol inp) (period_options (in_selected_period inp)) with
  | Returns hist info => if df_empty hist then None else Some (hist, info)
  | Raises _ => None
  end.

(** The same bars, up to the two derived columns. *)
Definition same_bars (hist hist' : DataFrame) : Prop :=
  index hist' = index hist /\
  forall name, name <> "MA20" -> name <> "MA50" ->
    cols_get name (columns hist') = cols_get name (columns hist).

(** The fetch a session comes from: its symbol, history and metadata. *)
Abbreviation Origin := (option (string * DataFrame * Info)).

Definition origin_after (yf : Provider) (inp : Inputs) (ss : SessionState)
    (o : Origin) : Origin :=
  if attempts_fetch inp ss
  then match fetched yf inp with
       | Some (hist, info) => Some (in_symbol inp, hist, info)
       | None => o
       end
  else o.

Definition session_after (num_repr : Q -> string) (yf : Provider) (inp : Inputs)
    (ss : SessionState) : SessionState :=
  w_state (run num_repr yf inp ss).2.

(** The sessions that runs of the script can produce, each with the
    fetch that last succeeded. *)
Inductive reachable (num_repr : Q -> string) : SessionState -> Origin -> Prop :=
| reach_fresh : reachable num_repr fresh_session None
| reach_run ss o yf inp :
    reachable num_repr ss o ->
    reachable num_repr (session_after num_repr yf inp ss) (origin_after yf inp ss o).

(** All three fields unset, or all three set from one fetch. *)
Definition consistent_with (ss : SessionState) (o : Origin) : Prop :=
  match o with
  | None => unset ss
  | Some (symbol, hist, info) =>
      exists hist', ss = populated hist' info symbol /\ same_bars hist hist'
  end.

(** What a script fragment may do to the session: nothing, or replace the
    stored history by one with the same bars. *)
Definition session_kept (ss ss' : SessionState) : Prop :=
  ss_stock_info ss' = ss_stock_info ss /\
  ss_symbol ss' = ss_symbol ss /\
  (ss_stock_data ss' = ss_stock_data ss \/
   exists hist hist', ss_stock_data ss = Some (Some hist) /\
                      ss_stock_data ss' = Some (Some hist') /\
                      same_bars hist hist').

Definition keeps_session {A} (m : Script A) : Prop :=
  forall w, session_kept (w_state w) (w_state (m w).2).

(** [msg] contains [part]. *)
Definition contains (part msg : string) : Prop :=
  exists pre post, msg = pre +:+ part +:+ post.

Definition provider_sample : Provider :=
  fun symbol _ =>
    if String.eqb symbol "AAPL" then Returns
         {| index := [ {| ts_year := 2024; ts_month := 1; ts_day := 2 |} ];
            columns := [ ("Open", [Some 1%Q]); ("High", [Some 2%Q]);
                         ("Low", [Some 1%Q]); ("Close", [Some 2%Q]);
                         ("Volume", [Some 10%Q]) ] |}
         (∅ : Info)
    else if String.eqb symbol "" then Raises ""
    else Raises "HTTP 404".

Definition click (symbol : string) : Inputs :=
  {| in_symbol := symbol; in_selected_period := OneYear; in_fetch_button := true |}.

(** ** What the chart construction leaves in the stored history *)

(** The frame after lines 155-156 (or 168-169) for one window. *)
Definition with_moving_average (w : nat) (col : string) (hist : DataFrame)
  : DataFrame :=
  if (w <=? df_len hist)%nat
  then match df_getitem hist "Close" with
       | Ok close => df_setitem hist col (rolling_mean w close)
       | Raise _ => hist
       end
  else hist.

Definition derive_moving_averages (hist : DataFrame) : DataFrame :=
  with_moving_average 50 "MA50" (with_moving_average 20 "MA20" hist).

Definition store_hist (ss : SessionState) (hist : DataFrame) : SessionState :=
  {| ss_stock_data := Some (Some hist);
     ss_stock_info := ss_stock_info ss;
     ss_symbol := ss_symbol ss |}.

Definition has_trace (name : string) (fig : Figure) : bool :=
  existsb (fun tr => String.eqb (trace_name tr.1) name) fig.

(** The traces of the figure for a history with the given columns. *)
Definition chart_of (hist : DataFrame) (open high low close volume : list Float)
  : Figure :=
  ([(Candlestick (index hist) open high low close "Price", 1%nat)]
   ++ (if (20 <=? df_len hist)%nat
       then [(Scatter (index hist) (rolling_mean 20 close) "20-Day MA" "orange", 1%nat)]
       else [])
   ++ (if (50 <=? df_len hist)%nat
       then [(Scatter (index hist) (rolling_mean 50 close) "50-Day MA" "blue", 1%nat)]
       else [])
   ++ [(Bar (index hist) volume "Volume" (zip_with bar_color close open), 2%nat)])%list.

(** The windows of the two moving averages with their column, trace name
    and line colour. *)
Definition moving_average_windows : list (nat * string * string * string) :=
  [ (20%nat, "MA20", "20-Day MA", "orange"); (50%nat, "MA50", "50-Day MA", "blue") ].

(** What follows the selection in [display_hist]. *)
Definition finish_display (t : Table) : Result Table :=
  t ← round_columns ["Open"; "High"; "Low"; "Close"] t;
  t ← update_column cell_thousands "Volume" t;
  Ok (reverse_rows t).

(** ** The two historical tables, column by column *)

(** A price as shown on screen: rounded to two decimals. *)
Definition shown_price (x : Float) : Cell :=
  match x with
  | Some q => CNum (round2 q)
  | None => CNaN
  end.

(** A volume as shown on screen: text with thousands separators. *)
Definition shown_volume (x : Float) : Cell :=
  match x with
  | Some q => CStr (format_float spec_comma_0f q)
  | None => CStr "nan"
  end.

Definition date_cells (hist : DataFrame) : list Cell :=
  map (fun t => CStr (strftime_ymd t)) (index hist).

(** The exported table: chronological, numbers as fetched. *)
Definition exported_table (hist : DataFrame) (open high low close volume : list Float)
  : Table :=
  [ ("Date", date_cells hist);
    ("Open", map cell_of_float open);
    ("High", map cell_of_float high);
    ("Low", map cell_of_float low);
    ("Close", map cell_of_float close);
    ("Volume", map cell_of_float volume) ].

(** The table on screen: latest bar first, prices rounded, volume as text. *)
Definition shown_table (hist : DataFrame) (open high low close volume : list Float)
  : Table :=
  [ ("Date", rev (date_cells hist));
    ("Open", rev (map shown_price open));
    ("High", rev (map shown_price high));
    ("Low", rev (map shown_price low));
    ("Close", rev (map shown_price close));
    ("Volume", rev (map shown_volume volume)) ].

Fixpoint has_char (c : ascii) (s : string) : bool :=
  match s with
  | "" => false
  | String c' s' => Ascii.eqb c' c || has_char c s'
  end.

(** A number that the writer prints as a plain, non-empty field which the
    reader parses back to the same number. *)
Definition faithful_number (num_repr : Q -> string) (num_parse : string -> option Q)
    (q : Q) : Prop :=
  num_parse (num_repr q) = Some q /\
  needs_quote (num_repr q) = false /\
  num_repr q <> "".

Definition faithful_column (num_repr : Q -> string) (num_parse : string -> option Q)
    (col : list Float) : Prop :=
  forall q, In (Some q) col -> faithful_number num_repr num_parse q.

Definition faithful_cell (num_repr : Q -> string) (num_parse : string -> option Q)
    (c : Cell) : Prop :=
  match c with
  | CNum x => faithful_number num_repr num_parse x
  | CNaN => True
  | CStr _ => False
  end.

(** A record of the historical export: a plain date, then numbers. *)
Definition hist_record_ok (num_repr : Q -> string) (num_parse : string -> option Q)
    (r : list Cell) : Prop :=
  exists d nums,
    r = CStr d :: nums /\ needs_quote d = false /\
    Forall (faithful_cell num_repr num_parse) nums.

(** ** Which metadata field feeds which row of the metrics table *)

(** Rows guarded by the truthiness of a single field. *)
Definition guarded_fields : list (string * string) :=
  [ ("Previous Close", "previousClose");
    ("52 Week High", "fiftyTwoWeekHigh");
    ("52 Week Low", "fiftyTwoWeekLow");
    ("P/E Ratio (Trailing)", "trailingPE");
    ("P/E Ratio (Forward)", "forwardPE");
    ("PEG Ratio", "pegRatio");
    ("Price to Book", "priceToBook");
    ("EPS (TTM)", "trailingEps");
    ("Dividend Yield", "dividendYield");
    ("Dividend Rate", "dividendRate");
    ("Beta", "beta");
    ("Avg Volume", "averageVolume");
    ("Profit Margin", "profitMargins");
    ("Operating Margin", "operatingMargins");
    ("ROE", "returnOnEquity");
    ("ROA", "returnOnAssets") ].

(** Rows with a primary field and a fallback field. *)
Definition fallback_fields : list (string * string * string) :=
  [ ("Current Price", "currentPrice", "regularMarketPrice");
    ("Open", "open", "regularMarketOpen");
    ("Day High", "dayHigh", "regularMarketDayHigh");
    ("Day Low", "dayLow", "regularMarketDayLow");
    ("Volume", "volume", "regularMarketVolume") ].

(** Rows rendered by the magnitude formatter. *)
Definition magnitude_fields : list (string * string) :=
  [ ("Market Cap", "marketCap"); ("Revenue", "totalRevenue") ].

(** ** Dictionaries and histories used as examples *)

Definition info_none_price : Info :=
  {[ "currentPrice" := VNone; "regularMarketPrice" := VNum (inject_Z 100) ]}.

Definition info_zero_cap : Info :=
  {[ "marketCap" := VNum 0 ]}.

Definition info_quote : Info :=
  {[ "currentPrice" := VNum (15025 # 100); "previousClose" := VNum (inject_Z 148);
     "trailingPE" := VNum 0; "volume" := VNum 0 ]}.

Definition hist_sample : DataFrame :=
  {| index := [ {| ts_year := 2024; ts_month := 1; ts_day := 2 |};
                {| ts_year := 2024; ts_month := 1; ts_day := 3 |};
                {| ts_year := 2024; ts_month := 1; ts_day := 4 |} ];
     columns :=
       [ ("Open", [Some (1234 # 1000); Some (inject_Z 2); Some (inject_Z 3)]%Q);
         ("High", [Some (inject_Z 2); Some (inject_Z 3); Some (inject_Z 4)]%Q);
         ("Low", [Some (inject_Z 1); Some (inject_Z 1); Some (inject_Z 2)]%Q);
         ("Close", [Some (15 # 10); Some (19 # 10); Some (inject_Z 3)]%Q);
         ("Volume", [Some (inject_Z 1000); Some (inject_Z 2000000);
                     Some (inject_Z 1500)]%Q);
         ("Dividends", [Some 0; Some 0; Some 0]%Q) ] |}.

(** A history of [n] bars whose prices rise by one each day. *)
Definition hist_ramp (n : nat) : DataFrame :=
  let days := seq 0 n in
  let price (k : Z) := map (fun i => Some (inject_Z (Z.of_nat i + k))) days in
  {| index := map (fun i => {| ts_year := 2024;
                               ts_month := 1 + Z.of_nat (i / 28);
                               ts_day := 1 + Z.of_nat (i mod 28) |}) days;
     columns := [ ("Open", price 10); ("High", price 12); ("Low", price 9);
                  ("Close", price 11); ("Volume", price 1000) ] |}.

(** A writer and a reader of non-negative rationals as [num/den], used
    to exercise the export on [hist_sample]. *)
Definition fraction_repr (q : Q) : string :=
  Z_digits (Qnum q) +:+ "/" +:+ Z_digits (Zpos (Qden q)).

Definition fraction_parse (s : string) : option Q :=
  match split_on "/" s with
  | [a; b] =>
      match digits_value 0 b with
      | Zpos d => Some (digits_value 0 a # d)
      | _ => None
      end
  | _ => None
  end.

(** ** The symbol typed in the sidebar (line 20) *)

(** [str.upper] and [str.strip] on ASCII text. *)
Definition is_lower (c : ascii) : bool :=
  (97 <=? nat_of_ascii c)%nat && (nat_of_ascii c <=? 122)%nat.

Definition upper_char (c : ascii) : ascii :=
  if is_lower c then ascii_of_nat (nat_of_ascii c - 32) else c.

Fixpoint py_upper (s : string) : string :=
  match s with
  | "" => ""
  | String c s' => String (upper_char c) (py_upper s')
  end.

(** The ASCII characters that [str.isspace] accepts. *)
Definition is_space (c : ascii) : bool :=
  let n := nat_of_ascii c in
  ((9 <=? n)%nat && (n <=? 13)%nat) || ((28 <=? n)%nat && (n <=? 32)%nat).

Fixpoint lstrip (s : string) : string :=
  match s with
  | "" => ""
  | String c s' => if is_space c then lstrip s' else s
  end.

Fixpoint rstrip (s : string) : string :=
  match s with
  | "" => ""
  | String c s' =>
      let r := rstrip s' in
      if is_space c && String.eqb r "" then "" else String c r
  end.

Definition py_strip (s : string) : string := rstrip (lstrip s).

(** [st.text_input(...).upper().strip()] *)
Definition sidebar_symbol (text : string) : string := py_strip (py_upper text).

Fixpoint is_ascii (s : string) : bool :=
  match s with
  | "" => true
  | String c s' => (nat_of_ascii c <? 128)%nat && is_ascii s'
  end.

Fixpoint all_space (s : string) : bool :=
  match s with
  | "" => true
  | String c s' => is_space c && all_space s'
  end.

Fixpoint has_lower (s : string) : bool :=
  match s with
  | "" => false
  | String c s' => is_lower c || has_lower s'
  end.

Definition starts_with_space (s : string) : bool :=
  match s with
  | "" => false
  | String c _ => is_space c
  end.

Fixpoint ends_with_space (s : string) : bool :=
  match s with
  | "" => false
  | String c "" => is_space c
  | String _ s' => ends_with_space s'
  end.

(** ** Runs of the script, seen from outside *)

(** A script fragment that only renders: it makes no request to the
    provider, appends to the page, and what it appends, returns and leaves
    in the session depends on the session alone. *)
Definition renders {A} (m : Script A) : Prop :=
  forall ss, exists r ss' out, forall page calls,
    m {| w_state := ss; w_page := page; w_calls := calls |}
    = (r, {| w_state := ss'; w_page := (page ++ out)%list; w_calls := calls |}).

(** The message of a failed fetch attempt (lines 75-78). *)
Definition failure_message (symbol : string) (answer : ProviderAnswer) : string :=
  match answer with
  | Raises e =>
      if nonempty_string e then fetch_error_message e
      else not_found_message symbol
  | Returns _ _ => not_found_message symbol
  end.

(** The world when the display branch starts, in a run from session [ss]. *)
Definition fetch_world (yf : Provider) (inp : Inputs) (ss : SessionState) : World :=
  let symbol := in_symbol inp in
  let period := period_options (in_selected_period inp) in
  if attempts_fetch inp ss
  then match fetched yf inp with
       | Some (hist, info) =>
           {| w_state := populated hist info symbol; w_page := [];
              w_calls := [(symbol, period)] |}
       | None =>
           {| w_state := initialised ss;
              w_page := [EError (failure_message symbol (yf symbol period))];
              w_calls := [(symbol, period)] |}
       end
  else {| w_state := initialised ss; w_page := []; w_calls := [] |}.

(** The same sidebar without the click. *)
Definition without_click (inp : Inputs) : Inputs :=
  {| in_symbol := in_symbol inp;
     in_selected_period := in_selected_period inp;
     in_fetch_button := false |}.

(** ** Conditions on the metadata dictionary *)

Definition is_text (v : PyVal) : bool :=
  match v with VStr _ => true | _ => false end.

Definition is_number (v : PyVal) : bool :=
  match v with VNum _ | VNaN => true | _ => false end.

(** The metadata fields that the tiles and the metrics table read. *)
Definition metric_keys : list string :=
  [ "currentPrice"; "regularMarketPrice"; "previousClose"; "open";
    "regularMarketOpen"; "dayHigh"; "regularMarketDayHigh"; "dayLow";
    "regularMarketDayLow"; "fiftyTwoWeekHigh"; "fiftyTwoWeekLow"; "marketCap";
    "trailingPE"; "forwardPE"; "pegRatio"; "priceToBook"; "trailingEps";
    "dividendYield"; "dividendRate"; "beta"; "volume"; "regularMarketVolume";
    "averageVolume"; "totalRevenue"; "profitMargins"; "operatingMargins";
    "returnOnEquity"; "returnOnAssets" ].

(** Every such field that is bound holds a number, NaN or [None]. *)
Definition no_text (info : Info) : Prop :=
  forall k v, In k metric_keys -> info !! k = Some v -> is_text v = false.

(** The primary field is bound to a falsy value while its fallback is
    truthy. *)
Definition shadowed (info : Info) (key fallback : string) : Prop :=
  is_Some (info !! key) /\
  truthy (dict_get info key) = false /\
  truthy (dict_get info fallback) = true.

(** No primary field bound to [None] hides a truthy fallback. *)
Definition no_shadowing_none (info : Info) : Prop :=
  forall label key fallback,
    In (label, key, fallback) fallback_fields ->
    info !! key = Some VNone -> truthy (dict_get info fallback) = false.

(** The Metric column of the financial table (lines 215-239). *)
Definition metric_labels : list string :=
  [ "Current Price"; "Previous Close"; "Open"; "Day High"; "Day Low";
    "52 Week High"; "52 Week Low"; "Market Cap"; "P/E Ratio (Trailing)";
    "P/E Ratio (Forward)"; "PEG Ratio"; "Price to Book"; "EPS (TTM)";
    "Dividend Yield"; "Dividend Rate"; "Beta"; "Volume"; "Avg Volume";
    "Revenue"; "Profit Margin"; "Operating Margin"; "ROE"; "ROA" ].

Definition info_plain : Info :=
  {[ "longName" := VStr "Example Corp";
     "currentPrice" := VNone; "regularMarketPrice" := VNone;
     "previousClose" := VNum (inject_Z 148); "marketCap" := VNaN;
     "volume" := VNum 0; "regularMarketVolume" := VNum (inject_Z 1200);
     "beta" := VNum (12 # 10) ]}.

(** The Value expression of the row with the given label. *)
Definition table_value (info : Info) (label : string) : option (Result string) :=
  cols_get label (financial_rows info).

(** ** The page of the display branch *)

(** The five columns the display reads, one entry per bar in the two the
    volume bars are coloured by, and no column named [Date]. *)
Definition has_bars (hist : DataFrame) (open high low close volume : list Float)
  : Prop :=
  cols_get "Date" (columns hist) = None /\
  df_getitem hist "Open" = Ok open /\
  df_getitem hist "High" = Ok high /\
  df_getitem hist "Low" = Ok low /\
  df_getitem hist "Close" = Ok close /\
  df_getitem hist "Volume" = Ok volume /\
  length close = df_len hist /\
  length open = df_len hist.

Definition metrics_table (info : Info) (values : list string) : Table :=
  [("Metric", map CStr (financial_metric_column info));
   ("Value", map CStr values)].

(** Everything the display branch renders, top to bottom. *)
Definition data_page (num_repr : Q -> string) (current_symbol : option string)
    (hist : DataFrame) (open high low close volume : list Float)
    (tiles : list Metric) (info : Info) (values : list string) : list Element :=
  (map EMetric tiles
   ++ [ EChart (chart_of hist open high low close volume);
        EDataframe (metrics_table info values);
        EDataframe (shown_table hist open high low close volume);
        EDownload "Download Historical Data (CSV)"
                  (to_csv num_repr (exported_table hist open high low close volume))
                  (str_of_symbol current_symbol +:+ "_historical_data.csv");
        EDownload "Download Financial Metrics (CSV)"
                  (to_csv num_repr (metrics_table info values))
                  (str_of_symbol current_symbol +:+ "_financial_metrics.csv") ])%list.

(** The history [provider_sample] answers with: one bar. *)
Definition hist_one_bar : DataFrame :=
  {| index := [ {| ts_year := 2024; ts_month := 1; ts_day := 2 |} ];
     columns := [ ("Open", [Some 1%Q]); ("High", [Some 2%Q]);
                  ("Low", [Some 1%Q]); ("Close", [Some 2%Q]);
                  ("Volume", [Some 10%Q]) ] |}.

(** The columns of [hist_ramp n]. *)
Definition ramp (n : nat) (k : Z) : list Float :=
  map (fun i => Some (inject_Z (Z.of_nat i + k))) (seq 0 n).

(** ** Text of the metrics download *)

(** Neither a double quote nor a line break. *)
Definition text_char (c : ascii) : bool :=
  negb (Ascii.eqb c dquote || Ascii.eqb c newline || Ascii.eqb c creturn).

Fixpoint plain_text (s : string) : bool :=
  match s with
  | "" => true
  | String c s' => text_char c && plain_text s'
  end.

(** A field between double quotes when it holds a comma, else as it is. *)
Definition quoted_if_comma (v : string) : string :=
  if has_char comma v then String dquote v +:+ String dquote "" else v.

Definition metrics_line (label value : string) : string :=
  csv_line [label; quoted_if_comma value].

Definition info_volume : Info :=
  {[ "volume" := VNum (inject_Z 1234567); "trailingPE" := VNum (285 # 10) ]}.

(** ** When the two historical tables are built *)

Definition price_columns : list string :=
  ["Open"; "High"; "Low"; "Close"; "Volume"].

Definition has_column (hist : DataFrame) (name : string) : bool :=
  is_Some_bool (cols_get name (columns hist)).

(** The exception both tables end with, if any. *)
Definition tables_outcome (hist : DataFrame) : option PyErr :=
  if has_column hist "Date" then Some ValueError
  else if forallb (has_column hist) price_columns then None
  else Some KeyError.

Definition hist_no_volume : DataFrame :=
  {| index := [ {| ts_year := 2024; ts_month := 1; ts_day := 2 |} ];
     columns := [ ("Open", [Some 1%Q]); ("High", [Some 2%Q]);
                  ("Low", [Some 1%Q]); ("Close", [Some 2%Q]) ] |}.

(** ** Exceptions a run can end with *)

(** Every exception but the two that would come from a missing session
    key, from missing metadata or from a division by zero. *)
Definition expected_error (e : PyErr) : bool :=
  match e with
  | AttributeError | ZeroDivisionError => false
  | _ => true
  end.

Definition ok_or_expected {A} (r : Result A) : Prop :=
  match r with
  | Ok _ => True
  | Raise e => expected_error e = true
  end.

(** All three keys hold a value. *)
Definition stored_session (ss : SessionState) : Prop :=
  exists hist info symbol, ss = populated hist info symbol.

(** From a session with all three keys set, the fragment returns a value
    in [Q] or raises an expected exception, and leaves such a session. *)
Definition safe {A} (m : Script A) (Q : A -> Prop) : Prop :=
  forall w, stored_session (w_state w) ->
    match (m w).1 with
    | Ok a => Q a
    | Raise e => expected_error e = true
    end /\ stored_session (w_state (m w).2).

(** ** The number a rendered text denotes *)

(** Digits, a point, digits: the decimal number written. *)
Definition unsigned_value (s : string) : option Q :=
  '(ip, fp) ← split_point s;
  Some (inject_Z (digits_value 0 ip)
        + inject_Z (digits_value 0 fp)
          / inject_Z (10 ^ Z.of_nat (String.length fp)))%Q.

Definition decimal_value (s : string) : option Q :=
  match s with
  | String "-" s' => Qopp <$> unsigned_value s'
  | _ => unsigned_value s
  end.

Fixpoint strip_commas (s : string) : string :=
  match s with
  | "" => ""
  | String c s' =>
      if Ascii.eqb c comma then strip_commas s' else String c (strip_commas s')
  end.

(** The integer written by digits in groups, with an optional minus sign. *)
Definition grouped_value (s : string) : Z :=
  match s with
  | String "-" s' => - digits_value 0 (strip_commas s')
  | _ => digits_value 0 (strip_commas s)
  end.

(** * Properties *)

(** ** Rendering of numbers *)

Lemma digit_char_is_digit n : is_digit (digit_char (n mod 10)) = true.
Proof.
  pose proof (Z.mod_pos_bound n 10 ltac:(lia)) as Hb.
  unfold digit_char, is_digit.
  rewrite nat_ascii_embedding by lia.
  apply andb_true_iff; split; apply Nat.leb_le; lia.
Qed.

Lemma digits_go_all_digits fuel : forall n acc,
  all_digits acc = true -> all_digits (digits_go fuel n acc) = true.
Proof.
  induction fuel as [|fuel IH]; intros n acc Hacc; cbn [digits_go]; [done|].
  assert (all_digits (String (digit_char (n mod 10)) acc) = true) as Hstep.
  { cbn [all_digits]. by rewrite digit_char_is_digit, Hacc. }
  destruct (n <? 10); [done|]. by apply IH.
Qed.

Lemma digits_go_nonempty fuel : forall n acc,
  (0 < fuel)%nat -> digits_go fuel n acc <> "".
Proof.
  induction fuel as [|fuel IH]; intros n acc Hf; [lia|]. cbn [digits_go].
  destruct (n <? 10); [discriminate|].
  destruct fuel as [|fuel']; [discriminate|]. apply IH. lia.
Qed.

Lemma Z_digits_all_digits n : all_digits (Z_digits n) = true.
Proof. by apply digits_go_all_digits. Qed.

Lemma Z_digits_nonempty n : Z_digits n <> "".
Proof. apply digits_go_nonempty. lia. Qed.

Lemma digits_go_value fuel : forall n acc,
  0 <= n < 2 ^ Z.of_nat fuel ->
  digits_value 0 (digits_go fuel n acc) = digits_value n acc.
Proof.
  induction fuel as [|fuel IH]; intros n acc Hn.
  { assert (n = 0) as -> by (cbn in Hn; lia). done. }
  cbn [digits_go].
  pose proof (Z.mod_pos_bound n 10 ltac:(lia)) as Hm.
  assert (digits_value (n / 10) (String (digit_char (n mod 10)) acc)
          = digits_value n acc) as Hstep.
  { cbn [digits_value]. unfold digit_char.
    rewrite nat_ascii_embedding by lia. f_equal.
    pose proof (Z.div_mod n 10 ltac:(lia)). lia. }
  destruct (n <? 10) eqn:Hlt.
  - apply Z.ltb_lt in Hlt. rewrite <- Hstep.
    rewrite Z.div_small by lia. cbn [digits_value]. f_equal.
  - apply Z.ltb_ge in Hlt. rewrite IH; [done|].
    rewrite Nat2Z.inj_succ, Z.pow_succ_r in Hn by lia.
    split; [apply Z.div_pos; lia|].
    apply Z.div_lt_upper_bound; lia.
Qed.

(** The digits written for [n] denote [n]. *)
Lemma Z_digits_value n : 0 <= n -> digits_value 0 (Z_digits n) = n.
Proof.
  intros Hn. unfold Z_digits. rewrite digits_go_value; [done|].
  split; [done|].
  destruct (Z.eq_dec n 0) as [->|Hne]; [done|].
  rewrite Nat2Z.inj_succ, Z2Nat.id by apply Z.log2_nonneg.
  apply Z.log2_spec. lia.
Qed.

Lemma append_nil_l s : "" +:+ s = s.
Proof. reflexivity. Qed.

Lemma append_cons c s t : String c s +:+ t = String c (s +:+ t).
Proof. reflexivity. Qed.

Lemma string_length_append s t :
  String.length (s +:+ t) = (String.length s + String.length t)%nat.
Proof.
  induction s as [|c s IH]; [done|].
  rewrite append_cons. cbn [String.length]. by rewrite IH.
Qed.

Lemma all_digits_append s t :
  all_digits (s +:+ t) = all_digits s && all_digits t.
Proof.
  induction s as [|c s IH]; [done|].
  rewrite append_cons. cbn [all_digits]. by rewrite IH, andb_assoc.
Qed.

Lemma zeros_length k : String.length (zeros k) = k.
Proof. induction k as [|k IH]; cbn [zeros String.length]; [done|]. by rewrite IH. Qed.

Lemma zeros_all_digits k : all_digits (zeros k) = true.
Proof. induction k as [|k IH]; cbn; done. Qed.

Lemma pad_left_all_digits w s : all_digits s = true -> all_digits (pad_left w s) = true.
Proof.
  intros Hs. unfold pad_left. by rewrite all_digits_append, zeros_all_digits, Hs.
Qed.

Lemma pad_left_length w s :
  (String.length s <= w)%nat -> String.length (pad_left w s) = w.
Proof.
  intros Hs. unfold pad_left. rewrite string_length_append, zeros_length. lia.
Qed.

(** A number below one hundred is written with at most two digits. *)
Lemma Z_digits_length_100 k :
  0 <= k < 100 -> (String.length (Z_digits k) <= 2)%nat.
Proof.
  intros Hk. unfold Z_digits. cbn [digits_go].
  destruct (k <? 10) eqn:Hlt; [cbn; lia|].
  apply Z.ltb_ge in Hlt.
  assert (3 <= Z.log2 k) as Hlog by (apply (Z.log2_le_mono 10 k); lia).
  destruct (Z.to_nat (Z.log2 k)) as [|f] eqn:Hf; [lia|].
  cbn [digits_go].
  assert ((k / 10 <? 10) = true) as ->.
  { apply Z.ltb_lt, Z.div_lt_upper_bound; lia. }
  cbn. lia.
Qed.

Lemma is_digit_not_point c : is_digit c = true -> Ascii.eqb c "." = false.
Proof.
  intros Hc. destruct (Ascii.eqb_spec c ".") as [->|]; [|done].
  by vm_compute in Hc.
Qed.

Lemma split_point_digits ip fp :
  all_digits ip = true -> split_point (ip +:+ String "." fp) = Some (ip, fp).
Proof.
  induction ip as [|c ip IH]; intros Hip.
  - done.
  - rewrite append_cons. cbn [split_point all_digits] in *. apply andb_true_iff in Hip as [Hc Hip].
    rewrite (is_digit_not_point c Hc), (IH Hip). done.
Qed.

Lemma fixed_digits_two_decimals x : two_decimals (fixed_digits false 2 x) = true.
Proof.
  unfold fixed_digits. change (10 ^ Z.of_nat 2) with 100.
  set (m := round_half_even _).
  pose proof (Z.mod_pos_bound m 100 ltac:(lia)) as Hm.
  unfold two_decimals.
  change ("." +:+ ?s) with (String "." s).
  rewrite split_point_digits by apply Z_digits_all_digits.
  rewrite pad_left_length by (by apply Z_digits_length_100).
  rewrite pad_left_all_digits, Z_digits_all_digits by apply Z_digits_all_digits.
  pose proof (Z_digits_nonempty (m / 100)) as Hne.
  destruct (Z_digits (m / 100)); [done|]. done.
Qed.

Lemma format_float_2f_shape x :
  signed_two_decimals (Qlt_bool x 0) (format_float spec_2f x) = true.
Proof.
  unfold format_float, sign_string, signed_two_decimals. cbn [fs_plus fs_comma fs_prec spec_2f].
  destruct (Qlt_bool x 0); apply fixed_digits_two_decimals.
Qed.

(** ** The magnitude formatter *)

Lemma Qle_bool_false_lt a b : (b < a)%Q -> Qle_bool a b = false.
Proof.
  intros Hlt. destruct (Qle_bool a b) eqn:Hle; [|done].
  apply Qle_bool_iff in Hle. exfalso. by apply (Qlt_not_le b a).
Qed.

Lemma Qlt_bool_iff a b : Qlt_bool a b = true <-> (a < b)%Q.
Proof.
  unfold Qlt_bool. rewrite negb_true_iff. split.
  - intros Hle. apply Qnot_le_lt. intros H%Qle_bool_iff. congruence.
  - apply Qle_bool_false_lt.
Qed.

(** Dividing by a positive scale keeps the sign. *)
Lemma Qlt_bool_div_pos x scale :
  (0 < scale)%Q -> Qlt_bool (x / scale) 0 = Qlt_bool x 0.
Proof.
  intros Hs. apply eq_true_iff_eq. rewrite !Qlt_bool_iff. split; intros H.
  - destruct (Qlt_le_dec x 0) as [|Hge]; [done|]. exfalso.
    apply (Qlt_not_le _ _ H). apply Qle_shift_div_l; [done|].
    by rewrite Qmult_0_l.
  - apply Qlt_shift_div_r; [done|]. by rewrite Qmult_0_l.
Qed.

Lemma magnitude_thresholds_ordered :
  (Q1e3 < Q1e6)%Q /\ (Q1e6 < Q1e9)%Q /\ (Q1e9 < Q1e12)%Q.
Proof. done. Qed.

Lemma format_large_number_T x :
  (Q1e12 <= Qabs x)%Q ->
  format_large_number (VNum x)
  = Ok ("$" +:+ format_float spec_2f (x / Q1e12) +:+ "T").
Proof.
  unfold format_large_number. cbn [is_None pd_isna orb].
  intros H%Qle_bool_iff. by rewrite H.
Qed.

Lemma format_large_number_B x :
  (Q1e9 <= Qabs x < Q1e12)%Q ->
  format_large_number (VNum x)
  = Ok ("$" +:+ format_float spec_2f (x / Q1e9) +:+ "B").
Proof.
  unfold format_large_number. cbn [is_None pd_isna orb].
  intros [H9%Qle_bool_iff H12%Qle_bool_false_lt]. by rewrite H12, H9.
Qed.

Lemma format_large_number_M x :
  (Q1e6 <= Qabs x < Q1e9)%Q ->
  format_large_number (VNum x)
  = Ok ("$" +:+ format_float spec_2f (x / Q1e6) +:+ "M").
Proof.
  unfold format_large_number. cbn [is_None pd_isna orb].
  destruct magnitude_thresholds_ordered as (H36 & H69 & H912).
  intros [H6%Qle_bool_iff H9].
  rewrite H6, !Qle_bool_false_lt; eauto using Qlt_trans.
Qed.

Lemma format_large_number_K x :
  (Q1e3 <= Qabs x < Q1e6)%Q ->
  format_large_number (VNum x)
  = Ok ("$" +:+ format_float spec_2f (x / Q1e3) +:+ "K").
Proof.
  unfold format_large_number. cbn [is_None pd_isna orb].
  destruct magnitude_thresholds_ordered as (H36 & H69 & H912).
  intros [H3%Qle_bool_iff H6].
  rewrite H3, !Qle_bool_false_lt; eauto using Qlt_trans.
Qed.

Lemma format_large_number_small x :
  (Qabs x < Q1e3)%Q ->
  format_large_number (VNum x) = Ok ("$" +:+ format_float spec_2f x).
Proof.
  unfold format_large_number. cbn [is_None pd_isna orb].
  destruct magnitude_thresholds_ordered as (H36 & H69 & H912).
  intros H3. rewrite !Qle_bool_false_lt; eauto using Qlt_trans.
Qed.



(** ** Price change *)

Lemma truthy_num_false z : truthy (VNum z) = false <-> (z == 0)%Q.
Proof. cbn [truthy]. rewrite negb_false_iff. apply Qeq_bool_iff. Qed.

Lemma truthy_num_true z : truthy (VNum z) = true <-> ~ (z == 0)%Q.
Proof.
  cbn [truthy]. rewrite negb_true_iff. split.
  - apply Qeq_bool_neq.
  - intros Hz. destruct (Qeq_bool z 0) eqn:E; [|done].
    by apply Qeq_bool_iff in E.
Qed.

Lemma py_div_truthy a b :
  truthy b = true -> py_div a b <> Raise ZeroDivisionError.
Proof.
  destruct a, b; cbn [py_div truthy]; try done.
  all: intros ->%negb_true_iff; done.
Qed.

Lemma price_change_no_zero_division info :
  price_change info <> Raise ZeroDivisionError.
Proof.
  unfold price_change.
  destruct (truthy _); [|done].
  by destruct (current_price info), (previous_close info).
Qed.

Lemma price_change_pct_no_zero_division info :
  price_change_pct info <> Raise ZeroDivisionError.
Proof.
  unfold price_change_pct.
  pose proof (price_change_no_zero_division info) as Hc.
  destruct (price_change info) as [change|e]; cbn [mbind Result_bind]; [|done].
  destruct (truthy (previous_close info)) eqn:Hp; [|done].
  pose proof (py_div_truthy change _ Hp) as Hd.
  destruct (py_div change (previous_close info)) as [r|e]; cbn; [|done].
  by destruct r.
Qed.



(** ** The metrics table and the metric tiles *)

Lemma financial_rows_length info : length (financial_rows info) = 23%nat.
Proof. reflexivity. Qed.

Lemma guarded_falsy fs pre k info :
  truthy (dict_get info k) = false -> guarded fs pre k info = Ok "N/A".
Proof. unfold guarded. by intros ->. Qed.

Lemma guarded_pct_falsy k info :
  truthy (dict_get info k) = false -> guarded_pct k info = Ok "N/A".
Proof. unfold guarded_pct. by intros ->. Qed.

Lemma guarded2_falsy fs pre k1 k2 info :
  truthy (dict_get info k1) = false -> truthy (dict_get info k2) = false ->
  guarded2 fs pre k1 k2 info = Ok "N/A".
Proof. unfold guarded2, py_or. by intros -> ->. Qed.

Lemma dict_get_lookup info k v : info !! k = Some v -> dict_get info k = v.
Proof. unfold dict_get. by intros ->. Qed.

Lemma dict_get_missing info k : info !! k = None -> dict_get info k = VNone.
Proof. unfold dict_get. by intros ->. Qed.

(** With every field missing or [None], every row is the sentinel. *)
Lemma financial_value_column_absent (info : Info) :
  (forall k, info !! k = None \/ info !! k = Some VNone) ->
  financial_value_column info = Ok (replicate 23 "N/A").
Proof.
  intros Habs.
  assert (forall k, dict_get info k = VNone) as Hget.
  { intros k. by destruct (Habs k) as [H|H]; unfold dict_get; rewrite H. }
  unfold financial_value_column, financial_rows.
  rewrite !guarded_falsy, !guarded_pct_falsy, !guarded2_falsy, !Hget
    by (by rewrite Hget).
  reflexivity.
Qed.

(** C1: a dictionary that binds [currentPrice] to [None] and has a
    regular market price makes the construction of the Value column raise
    a TypeError, although the price tile renders the same quote. *)
Theorem financial_table_none_price_raises :
  info_none_price !! "currentPrice" = Some VNone /\
  financial_value_column info_none_price = Raise TypeError /\
  financial_df info_none_price = Raise TypeError /\
  price_tile info_none_price
  = Ok {| m_label := "Current Price"; m_value := "$100.00"; m_delta := None |}.
Proof. repeat split; by vm_compute. Qed.

Lemma format_float_2f_zero z : (z == 0)%Q -> format_float spec_2f z = "0.00".
Proof.
  destruct z as [n d]. unfold Qeq. cbn [Qnum Qden]. intros Hn.
  assert (n = 0) as -> by lia. reflexivity.
Qed.

Lemma format_large_number_zero z :
  (z == 0)%Q -> format_large_number (VNum z) = Ok "$0.00".
Proof.
  intros Hz.
  assert (Qabs z < Q1e3)%Q as Hlt.
  { rewrite Hz. done. }
  by rewrite (format_large_number_small z Hlt), format_float_2f_zero.
Qed.

Lemma guarded_zero fs pre k info z :
  info !! k = Some (VNum z) -> (z == 0)%Q -> guarded fs pre k info = Ok "N/A".
Proof.
  intros Hk Hz. apply guarded_falsy.
  rewrite (dict_get_lookup _ _ _ Hk). by apply truthy_num_false.
Qed.

Lemma guarded_pct_zero k info z :
  info !! k = Some (VNum z) -> (z == 0)%Q -> guarded_pct k info = Ok "N/A".
Proof.
  intros Hk Hz. apply guarded_pct_falsy.
  rewrite (dict_get_lookup _ _ _ Hk). by apply truthy_num_false.
Qed.

Lemma guarded2_zero fs pre k1 k2 info z :
  info !! k1 = Some (VNum z) -> (z == 0)%Q ->
  truthy (dict_get info k2) = false ->
  guarded2 fs pre k1 k2 info = Ok "N/A".
Proof.
  intros Hk Hz Hk2. apply guarded2_falsy; [|done].
  rewrite (dict_get_lookup _ _ _ Hk). by apply truthy_num_false.
Qed.

Ltac find_row := cbn [In]; repeat first [by left | right].

(** C9, as stated, fails: a market capitalisation of exactly zero is
    rendered as a formatted zero, in the table and in the tile. *)
Lemma zero_market_cap_is_formatted :
  info_zero_cap !! "marketCap" = Some (VNum 0) /\
  financial_rows info_zero_cap !! 7%nat = Some ("Market Cap", Ok "$0.00") /\
  market_cap_tile info_zero_cap
  = Ok {| m_label := "Market Cap"; m_value := "$0.00"; m_delta := None |} /\
  "$0.00" <> "N/A".
Proof. repeat split; by vm_compute. Qed.

(** C9, amended: a field bound to zero renders the sentinel in every
    row and tile guarded by its truthiness (for a row or tile with a
    fallback field, when the fallback is missing or falsy too), while the
    two rows and the tile rendered by the magnitude formatter show a
    formatted zero. *)
Theorem zero_fields_render (info : Info) (z : Q) :
  (z == 0)%Q ->
  (forall label key, In (label, key) guarded_fields ->
     info !! key = Some (VNum z) ->
     In (label, Ok "N/A") (financial_rows info)) /\
  (forall label key fallback, In (label, key, fallback) fallback_fields ->
     info !! key = Some (VNum z) ->
     truthy (dict_get info fallback) = false ->
     In (label, Ok "N/A") (financial_rows info)) /\
  (forall label key, In (label, key) magnitude_fields ->
     info !! key = Some (VNum z) ->
     In (label, Ok "$0.00") (financial_rows info)) /\
  (info !! "trailingPE" = Some (VNum z) ->
   pe_tile info
   = Ok {| m_label := "P/E Ratio"; m_value := "N/A"; m_delta := None |}) /\
  (info !! "dividendYield" = Some (VNum z) ->
   dividend_tile info
   = Ok {| m_label := "Dividend Yield"; m_value := "N/A"; m_delta := None |}) /\
  (info !! "volume" = Some (VNum z) ->
   truthy (dict_get info "regularMarketVolume") = false ->
   volume_tile info
   = Ok {| m_label := "Volume"; m_value := "N/A"; m_delta := None |}) /\
  (info !! "currentPrice" = Some (VNum z) ->
   truthy (dict_get info "regularMarketPrice") = false ->
   forall m, price_tile info = Ok m -> m_value m = "N/A") /\
  (info !! "marketCap" = Some (VNum z) ->
   market_cap_tile info
   = Ok {| m_label := "Market Cap"; m_value := "$0.00"; m_delta := None |}).
Proof.
  intros Hz.
  assert (truthy (VNum z) = false) as Hfalsy by (by apply truthy_num_false).
  repeat apply conj.
  - intros label key Hin Hkey. unfold financial_rows.
    cbn [In guarded_fields] in Hin.
    repeat (destruct Hin as [[= <- <-]|Hin];
            [rewrite ?(guarded_zero _ _ _ info z Hkey Hz),
                     ?(guarded_pct_zero _ info z Hkey Hz); find_row|]).
    destruct Hin.
  - intros label key fallback Hin Hkey Hfb. unfold financial_rows.
    cbn [In fallback_fields] in Hin.
    repeat (destruct Hin as [[= <- <- <-]|Hin];
            [rewrite (guarded2_zero _ _ _ _ info z Hkey Hz Hfb); find_row|]).
    destruct Hin.
  - intros label key Hin Hkey. unfold financial_rows.
    cbn [In magnitude_fields] in Hin.
    repeat (destruct Hin as [[= <- <-]|Hin];
            [rewrite (dict_get_lookup _ _ _ Hkey), (format_large_number_zero z Hz);
             find_row|]).
    destruct Hin.
  - intros Hkey. unfold pe_tile.
    by rewrite (dict_get_lookup _ _ _ Hkey), Hfalsy.
  - intros Hkey. unfold dividend_tile.
    by rewrite (dict_get_lookup _ _ _ Hkey), Hfalsy.
  - intros Hkey Hfb. unfold volume_tile, py_or.
    by rewrite (dict_get_lookup _ _ _ Hkey), Hfalsy, Hfb.
  - intros Hkey Hfb m.
    assert (truthy (current_price info) = false) as Hcur.
    { unfold current_price, py_or.
      rewrite (dict_get_lookup _ _ _ Hkey), Hfalsy.
      unfold dict_get, dict_get_or in *.
      by destruct (info !! "regularMarketPrice"). }
    unfold price_tile. rewrite Hcur.
    destruct (price_change info); cbn [mbind Result_bind]; [|done].
    destruct (price_change_pct info); cbn [mbind Result_bind]; [|done].
    destruct (truthy a);
      [destruct (py_format spec_plus_2f a), (py_format spec_plus_2f a0)|];
      cbn; intros [= <-]; done.
  - intros Hkey. unfold market_cap_tile.
    by rewrite (dict_get_lookup _ _ _ Hkey), (format_large_number_zero z Hz).
Qed.

Lemma zero_fields_render_witness :
  In ("P/E Ratio (Trailing)", Ok "N/A") (financial_rows info_quote) /\
  In ("Volume", Ok "N/A") (financial_rows info_quote) /\
  In ("Market Cap", Ok "$0.00") (financial_rows info_zero_cap) /\
  pe_tile info_quote
  = Ok {| m_label := "P/E Ratio"; m_value := "N/A"; m_delta := None |}.
Proof.
  assert (0 == 0)%Q as Hz by reflexivity.
  split; [|split; [|split]].
  - apply (proj1 (zero_fields_render info_quote 0 Hz)
             "P/E Ratio (Trailing)" "trailingPE");
      [cbn; tauto | by vm_compute].
  - apply (proj1 (proj2 (zero_fields_render info_quote 0 Hz))
             "Volume" "volume" "regularMarketVolume");
      [cbn; tauto | by vm_compute | by vm_compute].
  - apply (proj1 (proj2 (proj2 (zero_fields_render info_zero_cap 0 Hz)))
             "Market Cap" "marketCap");
      [cbn; tauto | by vm_compute].
  - apply (proj1 (proj2 (proj2 (proj2 (zero_fields_render info_quote 0 Hz))))).
    by vm_compute.
Defined.

(** ** Columns of a frame *)

Lemma cols_get_set_eq {A} name (v : A) cs :
  cols_get name (cols_set name v cs) = Some v.
Proof.
  induction cs as [|[n c] cs IH]; cbn [cols_set cols_get].
  - by rewrite String.eqb_refl.
  - destruct (String.eqb n name) eqn:E; cbn [cols_get]; by rewrite E.
Qed.

Lemma cols_get_set_ne {A} name name' (v : A) cs :
  name <> name' -> cols_get name' (cols_set name v cs) = cols_get name' cs.
Proof.
  intros Hne. induction cs as [|[n c] cs IH]; cbn [cols_set cols_get].
  - by apply String.eqb_neq in Hne as ->.
  - destruct (String.eqb n name) eqn:E; cbn [cols_get]; [|by rewrite IH].
    apply String.eqb_eq in E as ->.
    by apply String.eqb_neq in Hne as ->.
Qed.

Lemma map_fmap {A B} (f : A -> B) l : map f l = f <$> l.
Proof. reflexivity. Qed.

(** ** Volume bar colours *)

Lemma sequence_map_ok {A B} (f : A -> Result B) (g : A -> B) l :
  (forall a, In a l -> f a = Ok (g a)) -> sequence (map f l) = Ok (map g l).
Proof.
  induction l as [|a l IH]; intros Hf; cbn [map sequence]; [done|].
  rewrite (Hf a) by (by left). cbn [mbind Result_bind].
  rewrite IH by (intros b Hb; apply Hf; by right). done.
Qed.

Lemma lookup_nth_lt {A} (l : list A) i d :
  (i < length l)%nat -> l !! i = Some (nth i l d).
Proof. intros Hi. destruct (nth_lookup_or_length l i d); [done|lia]. Qed.

Lemma iloc_lookup {A} (series : list A) i x :
  series !! i = Some x -> iloc series i = Ok x.
Proof. unfold iloc. by intros ->. Qed.

Lemma map_seq_zip_with {A B C} (f : A -> B -> C) (da : A) (db : B) la lb :
  length la = length lb ->
  map (fun i => f (nth i la da) (nth i lb db)) (seq 0 (length la))
  = zip_with f la lb.
Proof.
  revert lb. induction la as [|a la IH]; intros [|b lb] Hlen;
    cbn [length] in *; try done.
  cbn [seq map zip_with nth]. f_equal.
  rewrite <- seq_shift, List.map_map. cbn [nth]. apply IH. lia.
Qed.

Lemma colors_zip_with (hist : DataFrame) (close open : list Float) :
  df_getitem hist "Close" = Ok close ->
  df_getitem hist "Open" = Ok open ->
  length close = df_len hist ->
  length open = df_len hist ->
  colors hist = Ok (zip_with bar_color close open).
Proof.
  intros Hclose Hopen Hlc Hlo.
  unfold colors. rewrite Hclose, Hopen.
  rewrite (sequence_map_ok _
             (fun i => bar_color (nth i close None) (nth i open None))).
  - rewrite <- Hlc. f_equal. apply map_seq_zip_with. congruence.
  - intros i Hi%in_seq. cbn [mbind Result_bind].
    rewrite (iloc_lookup close i (nth i close None))
      by (apply lookup_nth_lt; lia).
    cbn [mbind Result_bind].
    by rewrite (iloc_lookup open i (nth i open None))
      by (apply lookup_nth_lt; lia).
Qed.



(** ** Moving averages and the chart *)

Lemma rolling_mean_length w xs : length (rolling_mean w xs) = length xs.
Proof. unfold rolling_mean. by rewrite length_map, length_seq. Qed.

Lemma rolling_mean_lookup w xs i :
  (i < length xs)%nat ->
  rolling_mean w xs !! i = Some (window_mean w (window_at w xs i)).
Proof.
  intros Hi. unfold rolling_mean.
  by rewrite map_fmap, list_lookup_fmap, lookup_seq_lt.
Qed.

Lemma window_at_length w xs i :
  (i < length xs)%nat -> length (window_at w xs i) = Nat.min (S i) w.
Proof.
  intros Hi. unfold window_at. rewrite length_drop, length_take. lia.
Qed.

(** Before the window is full the rolling mean is NaN. *)
Lemma rolling_mean_warm_up w xs i :
  (i < length xs)%nat -> (S i < w)%nat -> rolling_mean w xs !! i = Some None.
Proof.
  intros Hi Hw. rewrite rolling_mean_lookup by done. unfold window_mean.
  rewrite window_at_length by done.
  by destruct (Nat.eqb_spec (Nat.min (S i) w) w); [lia|].
Qed.

(** From then on it is the sum of the last [w] closes divided by [w]. *)
Lemma rolling_mean_full w xs i :
  (i < length xs)%nat -> (w <= S i)%nat ->
  rolling_mean w xs !! i
  = Some (s ← float_sum (take w (drop (S i - w) xs));
          Some (s / inject_Z (Z.of_nat w))%Q).
Proof.
  intros Hi Hw. rewrite rolling_mean_lookup by done. unfold window_mean.
  rewrite window_at_length by done.
  destruct (Nat.eqb_spec (Nat.min (S i) w) w); [|lia].
  unfold window_at. do 3 f_equal.
  rewrite take_drop_commute. f_equal. f_equal. lia.
Qed.

(** *** Steps of the script on a given world *)

Lemma bind_run {A B} (m : Script A) (k : A -> Script B) w a w' :
  m w = (Ok a, w') -> (m ≫= k) w = k a w'.
Proof. unfold mbind, Script_bind. by intros ->. Qed.

Lemma bind_raise {A B} (m : Script A) (k : A -> Script B) w e w' :
  m w = (Raise e, w') -> (m ≫= k) w = (Raise e, w').
Proof. unfold mbind, Script_bind. by intros ->. Qed.

Lemma get_hist_run w hist :
  ss_stock_data (w_state w) = Some (Some hist) -> get_hist w = (Ok hist, w).
Proof.
  intros Hd. unfold get_hist.
  erewrite bind_run by done.
  rewrite Hd. done.
Qed.

Lemma hist_col_run w hist name col :
  ss_stock_data (w_state w) = Some (Some hist) ->
  df_getitem hist name = Ok col ->
  hist_col name w = (Ok col, w).
Proof.
  intros Hd Hc. unfold hist_col.
  erewrite bind_run by (by eapply get_hist_run).
  unfold lift. by rewrite Hc.
Qed.

Lemma hist_set_col_run ss page calls hist name series :
  ss_stock_data ss = Some (Some hist) ->
  hist_set_col name series {| w_state := ss; w_page := page; w_calls := calls |}
  = (Ok tt, {| w_state := store_hist ss (df_setitem hist name series);
               w_page := page; w_calls := calls |}).
Proof.
  intros Hd. unfold hist_set_col.
  erewrite bind_run by (by eapply get_hist_run).
  done.
Qed.

Lemma df_getitem_setitem_eq hist name series :
  df_getitem (df_setitem hist name series) name = Ok series.
Proof. unfold df_getitem, getitem, df_setitem. cbn. by rewrite cols_get_set_eq. Qed.

Lemma df_getitem_setitem_ne hist name name' series :
  name <> name' ->
  df_getitem (df_setitem hist name series) name' = df_getitem hist name'.
Proof.
  intros Hne. unfold df_getitem, getitem, df_setitem. cbn.
  by rewrite cols_get_set_ne.
Qed.

Lemma add_moving_average_run w col name color fig ss page calls hist close :
  ss_stock_data ss = Some (Some hist) ->
  df_getitem hist "Close" = Ok close ->
  add_moving_average w col name color fig
    {| w_state := ss; w_page := page; w_calls := calls |}
  = (Ok (fig ++ (if (w <=? df_len hist)%nat
                 then [(Scatter (index hist) (rolling_mean w close) name color, 1%nat)]
                 else []))%list,
     {| w_state := store_hist ss (with_moving_average w col hist);
        w_page := page; w_calls := calls |}).
Proof.
  intros Hd Hc. unfold add_moving_average, with_moving_average.
  erewrite bind_run by (by eapply get_hist_run).
  rewrite Hc.
  destruct (w <=? df_len hist)%nat.
  - erewrite bind_run by (by eapply hist_col_run).
    erewrite bind_run by (by eapply hist_set_col_run).
    erewrite bind_run by (by eapply get_hist_run).
    erewrite bind_run; [done|].
    eapply hist_col_run; [done|]. apply df_getitem_setitem_eq.
  - cbn. rewrite app_nil_r. unfold store_hist.
    destruct ss as [d i s]. cbn in *. by rewrite Hd.
Qed.

Lemma with_moving_average_getitem w col hist name :
  col <> name ->
  df_getitem (with_moving_average w col hist) name = df_getitem hist name.
Proof.
  intros Hne. unfold with_moving_average.
  destruct (w <=? df_len hist)%nat; [|done].
  destruct (df_getitem hist "Close"); [|done].
  by apply df_getitem_setitem_ne.
Qed.

Lemma with_moving_average_index w col hist :
  index (with_moving_average w col hist) = index hist.
Proof.
  unfold with_moving_average.
  destruct (w <=? df_len hist)%nat; [|done].
  by destruct (df_getitem hist "Close").
Qed.

Lemma with_moving_average_len w col hist :
  df_len (with_moving_average w col hist) = df_len hist.
Proof. unfold df_len. by rewrite with_moving_average_index. Qed.

Lemma derive_moving_averages_getitem hist name :
  name <> "MA20" -> name <> "MA50" ->
  df_getitem (derive_moving_averages hist) name = df_getitem hist name.
Proof.
  intros H20 H50. unfold derive_moving_averages.
  by rewrite !with_moving_average_getitem.
Qed.

Lemma derive_moving_averages_index hist :
  index (derive_moving_averages hist) = index hist.
Proof.
  unfold derive_moving_averages. by rewrite !with_moving_average_index.
Qed.

(** The chart of a history that has the five price columns, and the
    history it leaves in the session. *)
Lemma build_chart_run ss page calls hist open high low close volume :
  ss_stock_data ss = Some (Some hist) ->
  df_getitem hist "Open" = Ok open ->
  df_getitem hist "High" = Ok high ->
  df_getitem hist "Low" = Ok low ->
  df_getitem hist "Close" = Ok close ->
  df_getitem hist "Volume" = Ok volume ->
  length close = df_len hist ->
  length open = df_len hist ->
  build_chart {| w_state := ss; w_page := page; w_calls := calls |}
  = (Ok (chart_of hist open high low close volume),
     {| w_state := store_hist ss (derive_moving_averages hist);
        w_page := page; w_calls := calls |}).
Proof.
  intros Hd Ho Hh Hl Hc Hv Hlc Hlo. unfold build_chart.
  erewrite bind_run by (by eapply get_hist_run).
  erewrite bind_run by (by eapply hist_col_run).
  erewrite bind_run by (by eapply hist_col_run).
  erewrite bind_run by (by eapply hist_col_run).
  erewrite bind_run by (by eapply hist_col_run).
  erewrite bind_run by (by eapply add_moving_average_run).
  erewrite bind_run.
  2:{ eapply add_moving_average_run; [done|].
      by rewrite with_moving_average_getitem. }
  change (store_hist (store_hist ss ?a) ?b) with (store_hist ss b).
  fold (derive_moving_averages hist).
  erewrite bind_run by (by eapply get_hist_run).
  erewrite bind_run.
  2:{ unfold lift. f_equal.
      apply (colors_zip_with _ close open);
        rewrite ?derive_moving_averages_getitem; try done.
      all: unfold df_len; by rewrite derive_moving_averages_index. }
  erewrite bind_run.
  2:{ eapply hist_col_run; [done|].
      by rewrite derive_moving_averages_getitem. }
  unfold chart_of. rewrite with_moving_average_len, with_moving_average_index.
  rewrite derive_moving_averages_index.
  cbn [mret Script_ret]. by rewrite <- !app_assoc.
Qed.

Lemma with_moving_average_column w col hist close :
  df_getitem hist "Close" = Ok close ->
  df_getitem (with_moving_average w col hist) col
  = if (w <=? df_len hist)%nat then Ok (rolling_mean w close)
    else df_getitem hist col.
Proof.
  intros Hc. unfold with_moving_average. rewrite Hc.
  destruct (w <=? df_len hist)%nat; [|done].
  apply df_getitem_setitem_eq.
Qed.

(** The derived columns in the stored history, window by window. *)
Lemma derive_moving_averages_column hist close w col name color :
  df_getitem hist "Close" = Ok close ->
  In (w, col, name, color) moving_average_windows ->
  df_getitem (derive_moving_averages hist) col
  = if (w <=? df_len hist)%nat then Ok (rolling_mean w close)
    else df_getitem hist col.
Proof.
  intros Hc Hin. unfold derive_moving_averages.
  cbn [In moving_average_windows] in Hin.
  destruct Hin as [[= <- <- <- <-]|[[= <- <- <- <-]|[]]].
  - rewrite with_moving_average_getitem by done.
    by apply with_moving_average_column.
  - rewrite (with_moving_average_column _ _ _ close)
      by (by rewrite with_moving_average_getitem).
    rewrite with_moving_average_len.
    by rewrite with_moving_average_getitem.
Qed.

Lemma chart_of_has_trace hist open high low close volume w col name color :
  In (w, col, name, color) moving_average_windows ->
  has_trace name (chart_of hist open high low close volume)
  = (w <=? df_len hist)%nat.
Proof.
  intros Hin. cbn [In moving_average_windows] in Hin. unfold chart_of.
  destruct Hin as [[= <- <- <- <-]|[[= <- <- <- <-]|[]]];
    by destruct (20 <=? df_len hist)%nat, (50 <=? df_len hist)%nat.
Qed.

Lemma chart_of_scatter hist open high low close volume w col name color :
  In (w, col, name, color) moving_average_windows ->
  (w <= df_len hist)%nat ->
  In (Scatter (index hist) (rolling_mean w close) name color, 1%nat)
     (chart_of hist open high low close volume).
Proof.
  intros Hin Hw. cbn [In moving_average_windows] in Hin. unfold chart_of.
  destruct Hin as [[= <- <- <- <-]|[[= <- <- <- <-]|[]]];
    apply Nat.leb_le in Hw; rewrite Hw;
    rewrite !in_app_iff; cbn [In]; tauto.
Qed.

Lemma has_trace_false name (fig : Figure) :
  has_trace name fig = false ->
  forall tr, In tr fig -> trace_name tr.1 <> name.
Proof.
  unfold has_trace. intros Hex tr Hin Hname.
  assert (existsb (fun tr => String.eqb (trace_name tr.1) name) fig = true)
    as Htrue; [|congruence].
  apply existsb_exists. exists tr. split; [done|].
  by apply String.eqb_eq.
Qed.



(** ** The historical table and the export *)

Lemma with_moving_average_cols_get w col hist name :
  col <> name ->
  cols_get name (columns (with_moving_average w col hist))
  = cols_get name (columns hist).
Proof.
  intros Hne. unfold with_moving_average.
  destruct (w <=? df_len hist)%nat; [|done].
  destruct (df_getitem hist "Close"); [|done].
  cbn [df_setitem columns]. by apply cols_get_set_ne.
Qed.

Lemma derive_moving_averages_cols_get hist name :
  name <> "MA20" -> name <> "MA50" ->
  cols_get name (columns (derive_moving_averages hist))
  = cols_get name (columns hist).
Proof.
  intros H20 H50. unfold derive_moving_averages.
  by rewrite !with_moving_average_cols_get.
Qed.

Lemma cols_get_map {A B} (f : A -> B) name (cs : list (string * A)) :
  cols_get name (map (fun nc => (nc.1, f nc.2)) cs) = f <$> cols_get name cs.
Proof.
  induction cs as [|[n c] cs IH]; cbn [map cols_get fst snd]; [done|].
  by destruct (String.eqb n name).
Qed.

Lemma select_columns_ext names (t t' : Table) :
  (forall n, In n names -> cols_get n t = cols_get n t') ->
  select_columns names t = select_columns names t'.
Proof.
  induction names as [|n names IH]; intros Hext; cbn [select_columns]; [done|].
  unfold getitem. rewrite (Hext n) by (by left).
  rewrite IH by (intros m Hm; apply Hext; by right). done.
Qed.

Lemma select_columns_names names (t t' : Table) :
  select_columns names t = Ok t' -> t'.*1 = names.
Proof.
  revert t'. induction names as [|n names IH]; intros t'; cbn [select_columns].
  - by intros [= <-].
  - destruct (getitem t n) as [c|]; cbn [mbind Result_bind]; [|done].
    destruct (select_columns names t) as [rest|]; cbn [mbind Result_bind];
      [|done].
    intros [= <-]. cbn. f_equal. by apply IH.
Qed.

(** The moving averages do not change what [reset_index] and the column
    selection produce. *)
Lemma reset_select_derive names hist :
  ~ In "MA20" names -> ~ In "MA50" names ->
  (reset_index_strftime (derive_moving_averages hist) ≫= select_columns names)
  = (reset_index_strftime hist ≫= select_columns names).
Proof.
  intros H20 H50. unfold reset_index_strftime.
  rewrite derive_moving_averages_cols_get by done.
  destruct (cols_get "Date" (columns hist)); [done|].
  cbn [mbind Result_bind]. rewrite derive_moving_averages_index.
  apply select_columns_ext. intros n Hn. cbn [cols_get].
  destruct (String.eqb "Date" n); [done|].
  rewrite !cols_get_map, derive_moving_averages_cols_get; [done| |];
    intros ->; done.
Qed.

Lemma display_hist_unfold hist :
  display_hist hist
  = (t ← (reset_index_strftime hist ≫= select_columns display_cols);
     finish_display t).
Proof.
  unfold display_hist, finish_display.
  destruct (reset_index_strftime hist) as [t|]; cbn [mbind Result_bind]; [|done].
  by destruct (select_columns display_cols t).
Qed.

Lemma csv_hist_unfold hist :
  csv_hist hist = (reset_index_strftime hist ≫= select_columns display_cols).
Proof. reflexivity. Qed.

Lemma cols_set_names {A} name (v c : A) (cs : list (string * A)) :
  cols_get name cs = Some c -> (cols_set name v cs).*1 = cs.*1.
Proof.
  induction cs as [|[n c'] cs IH]; cbn [cols_get cols_set]; [done|].
  destruct (String.eqb n name); [done|].
  intros Hc. cbn. by rewrite IH.
Qed.

Lemma update_column_names f col (t t' : Table) :
  update_column f col t = Ok t' -> t'.*1 = t.*1.
Proof.
  unfold update_column, getitem.
  destruct (cols_get col t) as [c|] eqn:Hc; cbn [mbind Result_bind]; [|done].
  destruct (sequence (map f c)); cbn [mbind Result_bind]; [|done].
  intros [= <-]. by eapply cols_set_names.
Qed.

Lemma round_columns_names cols : forall (t t' : Table),
  round_columns cols t = Ok t' -> t'.*1 = t.*1.
Proof.
  induction cols as [|col cols IH]; intros t t'; cbn [round_columns].
  - by intros [= <-].
  - destruct (update_column cell_round2 col t) as [t1|] eqn:H1;
      cbn [mbind Result_bind]; [|done].
    intros H2. rewrite (IH _ _ H2). by eapply update_column_names.
Qed.

Lemma reverse_rows_names (t : Table) : (reverse_rows t).*1 = t.*1.
Proof.
  unfold reverse_rows. induction t as [|[n c] t IH]; cbn; [done|].
  f_equal. apply IH.
Qed.

Lemma csv_hist_names hist t : csv_hist hist = Ok t -> t.*1 = display_cols.
Proof.
  unfold csv_hist.
  destruct (reset_index_strftime hist) as [t0|]; cbn [mbind Result_bind]; [|done].
  apply select_columns_names.
Qed.

Lemma display_hist_names hist t : display_hist hist = Ok t -> t.*1 = display_cols.
Proof.
  rewrite display_hist_unfold.
  destruct (reset_index_strftime hist ≫= select_columns display_cols)
    as [t0|] eqn:Hsel; cbn [mbind Result_bind]; [|done].
  assert (t0.*1 = display_cols) as Hn0.
  { destruct (reset_index_strftime hist) as [t1|]; [|done].
    by eapply select_columns_names. }
  unfold finish_display.
  destruct (round_columns _ t0) as [t1|] eqn:H1; cbn [mbind Result_bind]; [|done].
  destruct (update_column _ _ t1) as [t2|] eqn:H2; cbn [mbind Result_bind]; [|done].
  intros [= <-].
  rewrite reverse_rows_names, (update_column_names _ _ _ _ H2),
    (round_columns_names _ _ _ H1). done.
Qed.

(** C10: building the chart stores the history with its moving-average
    columns back in the session, and these columns change neither the
    exported table nor the table on screen, whose columns are exactly
    Date, Open, High, Low, Close, Volume. *)
Theorem moving_averages_not_exported (hist : DataFrame) :
  csv_hist (derive_moving_averages hist) = csv_hist hist /\
  display_hist (derive_moving_averages hist) = display_hist hist /\
  (forall t, csv_hist (derive_moving_averages hist) = Ok t ->
     t.*1 = ["Date"; "Open"; "High"; "Low"; "Close"; "Volume"]) /\
  (forall t, display_hist (derive_moving_averages hist) = Ok t ->
     t.*1 = ["Date"; "Open"; "High"; "Low"; "Close"; "Volume"]) /\
  (forall ss page calls open high low close volume,
     ss_stock_data ss = Some (Some hist) ->
     df_getitem hist "Open" = Ok open ->
     df_getitem hist "High" = Ok high ->
     df_getitem hist "Low" = Ok low ->
     df_getitem hist "Close" = Ok close ->
     df_getitem hist "Volume" = Ok volume ->
     length close = df_len hist ->
     length open = df_len hist ->
     ss_stock_data
       (w_state (build_chart {| w_state := ss; w_page := page;
                                w_calls := calls |}).2)
     = Some (Some (derive_moving_averages hist)) /\
     ((20 <= df_len hist)%nat ->
      df_getitem (derive_moving_averages hist) "MA20"
      = Ok (rolling_mean 20 close)) /\
     ((50 <= df_len hist)%nat ->
      df_getitem (derive_moving_averages hist) "MA50"
      = Ok (rolling_mean 50 close))).
Proof.
  assert (csv_hist (derive_moving_averages hist) = csv_hist hist) as Hcsv.
  { rewrite !csv_hist_unfold. apply reset_select_derive; cbn; intuition done. }
  assert (display_hist (derive_moving_averages hist) = display_hist hist) as Hdis.
  { rewrite !display_hist_unfold. f_equal.
    apply reset_select_derive; cbn; intuition done. }
  split; [done|]. split; [done|].
  split; [apply csv_hist_names|]. split; [apply display_hist_names|].
  intros ss page calls open high low close volume Hd Ho Hh Hl Hc Hv Hlc Hlo.
  split; [|split].
  - by erewrite build_chart_run.
  - intros Hw%Nat.leb_le.
    rewrite (derive_moving_averages_column hist close 20 "MA20" "20-Day MA" "orange")
      by (done || (cbn; tauto)).
    by rewrite Hw.
  - intros Hw%Nat.leb_le.
    rewrite (derive_moving_averages_column hist close 50 "MA50" "50-Day MA" "blue")
      by (done || (cbn; tauto)).
    by rewrite Hw.
Qed.

Lemma moving_averages_not_exported_witness :
  csv_hist (derive_moving_averages (hist_ramp 25)) = csv_hist (hist_ramp 25) /\
  ss_stock_data
    (w_state (build_chart {| w_state := store_hist fresh_session (hist_ramp 25);
                             w_page := []; w_calls := [] |}).2)
  = Some (Some (derive_moving_averages (hist_ramp 25))) /\
  df_getitem (derive_moving_averages (hist_ramp 25)) "MA20"
  = Ok (rolling_mean 20
          (map (fun i => Some (inject_Z (Z.of_nat i + 11))) (seq 0 25))).
Proof.
  pose proof (moving_averages_not_exported (hist_ramp 25))
    as (Hcsv & _ & _ & _ & Hrun).
  destruct (Hrun (store_hist fresh_session (hist_ramp 25)) [] []
              (map (fun i => Some (inject_Z (Z.of_nat i + 10))) (seq 0 25))
              (map (fun i => Some (inject_Z (Z.of_nat i + 12))) (seq 0 25))
              (map (fun i => Some (inject_Z (Z.of_nat i + 9))) (seq 0 25))
              (map (fun i => Some (inject_Z (Z.of_nat i + 11))) (seq 0 25))
              (map (fun i => Some (inject_Z (Z.of_nat i + 1000))) (seq 0 25))
              eq_refl eq_refl eq_refl eq_refl eq_refl eq_refl eq_refl eq_refl)
    as (Hstore & H20 & _).
  split; [exact Hcsv|]. split; [exact Hstore|].
  apply H20. vm_compute. lia.
Defined.

Lemma df_getitem_cols_get hist name col :
  df_getitem hist name = Ok col -> cols_get name (columns hist) = Some col.
Proof.
  unfold df_getitem, getitem. by destruct (cols_get name (columns hist)); intros [= ->].
Qed.

Lemma reset_index_getitem hist name col :
  cols_get "Date" (columns hist) = None ->
  name <> "Date" ->
  df_getitem hist name = Ok col ->
  (t ← reset_index_strftime hist; getitem t name)
  = Ok (map cell_of_float col).
Proof.
  intros Hdate Hne Hcol%df_getitem_cols_get.
  unfold reset_index_strftime. rewrite Hdate. cbn [mbind Result_bind].
  unfold getitem. cbn [cols_get].
  assert (String.eqb "Date" name = false) as ->.
  { apply String.eqb_neq. congruence. }
  by rewrite cols_get_map, Hcol.
Qed.

(** The export of a history that has the five price columns. *)
Lemma csv_hist_explicit hist open high low close volume :
  cols_get "Date" (columns hist) = None ->
  df_getitem hist "Open" = Ok open ->
  df_getitem hist "High" = Ok high ->
  df_getitem hist "Low" = Ok low ->
  df_getitem hist "Close" = Ok close ->
  df_getitem hist "Volume" = Ok volume ->
  csv_hist hist = Ok (exported_table hist open high low close volume).
Proof.
  intros Hdate Ho Hh Hl Hc Hv.
  pose proof (reset_index_getitem hist "Open" open Hdate ltac:(done) Ho) as Ho'.
  pose proof (reset_index_getitem hist "High" high Hdate ltac:(done) Hh) as Hh'.
  pose proof (reset_index_getitem hist "Low" low Hdate ltac:(done) Hl) as Hl'.
  pose proof (reset_index_getitem hist "Close" close Hdate ltac:(done) Hc) as Hc'.
  pose proof (reset_index_getitem hist "Volume" volume Hdate ltac:(done) Hv) as Hv'.
  unfold csv_hist.
  destruct (reset_index_strftime hist) as [t|] eqn:Ht; [|done].
  cbn [mbind Result_bind] in *. cbn [select_columns].
  rewrite Ho', Hh', Hl', Hc', Hv'.
  unfold reset_index_strftime in Ht. rewrite Hdate in Ht.
  injection Ht as <-. done.
Qed.

Lemma sequence_round2 (xs : list Float) :
  sequence (map cell_round2 (map cell_of_float xs)) = Ok (map shown_price xs).
Proof.
  rewrite List.map_map. apply sequence_map_ok. by intros [q|] _.
Qed.

Lemma sequence_thousands (xs : list Float) :
  sequence (map cell_thousands (map cell_of_float xs)) = Ok (map shown_volume xs).
Proof.
  rewrite List.map_map. apply sequence_map_ok. by intros [q|] _.
Qed.

Lemma finish_display_explicit hist open high low close volume :
  finish_display (exported_table hist open high low close volume)
  = Ok (shown_table hist open high low close volume).
Proof.
  unfold finish_display, exported_table.
  cbn [round_columns update_column getitem cols_get String.eqb Ascii.eqb
       Bool.eqb mbind Result_bind]. 
  rewrite sequence_round2. 
  cbn [round_columns update_column getitem cols_get cols_set String.eqb Ascii.eqb
       Bool.eqb mbind Result_bind].
  rewrite sequence_round2.
  cbn [round_columns update_column getitem cols_get cols_set String.eqb Ascii.eqb
       Bool.eqb mbind Result_bind].
  rewrite sequence_round2.
  cbn [round_columns update_column getitem cols_get cols_set String.eqb Ascii.eqb
       Bool.eqb mbind Result_bind].
  rewrite sequence_round2.
  cbn [round_columns update_column getitem cols_get cols_set String.eqb Ascii.eqb
       Bool.eqb mbind Result_bind].
  rewrite sequence_thousands.
  reflexivity.
Qed.

(** The table on screen for a history that has the five price columns. *)
Lemma display_hist_explicit hist open high low close volume :
  cols_get "Date" (columns hist) = None ->
  df_getitem hist "Open" = Ok open ->
  df_getitem hist "High" = Ok high ->
  df_getitem hist "Low" = Ok low ->
  df_getitem hist "Close" = Ok close ->
  df_getitem hist "Volume" = Ok volume ->
  display_hist hist = Ok (shown_table hist open high low close volume).
Proof.
  intros Hdate Ho Hh Hl Hc Hv.
  rewrite display_hist_unfold, <- csv_hist_unfold.
  rewrite (csv_hist_explicit hist open high low close volume) by done.
  apply finish_display_explicit.
Qed.

(** ** Delimited text *)

Lemma string_app_assoc a b c : (a +:+ b) +:+ c = a +:+ (b +:+ c).
Proof.
  induction a as [|x a IH]; [done|]. rewrite !append_cons. by rewrite IH.
Qed.

Lemma has_char_append c a b :
  has_char c (a +:+ b) = has_char c a || has_char c b.
Proof.
  induction a as [|x a IH]; [done|].
  rewrite append_cons. cbn [has_char]. by rewrite IH, orb_assoc.
Qed.

Lemma needs_quote_append a b :
  needs_quote (a +:+ b) = needs_quote a || needs_quote b.
Proof.
  induction a as [|x a IH]; [done|].
  rewrite append_cons. cbn [needs_quote]. by rewrite IH, orb_assoc.
Qed.

Lemma needs_quote_has_char c s :
  special_char c = true -> needs_quote s = false -> has_char c s = false.
Proof.
  intros Hc. induction s as [|x s IH]; [done|]. cbn [needs_quote has_char].
  intros [Hx Hs]%orb_false_iff. rewrite (IH Hs), orb_false_r.
  destruct (Ascii.eqb_spec x c) as [->|]; [congruence|done].
Qed.

Lemma split_on_no_sep sep s : has_char sep s = false -> split_on sep s = [s].
Proof.
  induction s as [|x s IH]; [done|]. cbn [has_char split_on].
  intros [-> Hs]%orb_false_iff. by rewrite (IH Hs).
Qed.

Lemma split_on_app sep a b :
  has_char sep a = false ->
  split_on sep (a +:+ String sep b) = a :: split_on sep b.
Proof.
  induction a as [|x a IH].
  - intros _. rewrite append_nil_l. cbn [split_on]. by rewrite Ascii.eqb_refl.
  - cbn [has_char]. intros [Hx Ha]%orb_false_iff.
    rewrite append_cons. cbn [split_on]. by rewrite Hx, (IH Ha).
Qed.

Lemma join_cons2 sep f g fields :
  join sep (f :: g :: fields) = f +:+ sep +:+ join sep (g :: fields).
Proof. reflexivity. Qed.

Lemma has_char_join c (fields : list string) :
  Ascii.eqb comma c = false ->
  Forall (fun f => has_char c f = false) fields ->
  has_char c (join (String comma "") fields) = false.
Proof.
  intros Hc. induction fields as [|f [|g fields] IH]; intros Hall.
  - done.
  - by inversion Hall.
  - rewrite join_cons2, !has_char_append. inversion Hall as [|? ? Hf Hrest]; subst.
    rewrite Hf, (IH Hrest). cbn [has_char]. by rewrite Hc.
Qed.

Lemma split_join (fields : list string) :
  fields <> [] ->
  Forall (fun f => has_char comma f = false) fields ->
  split_on comma (join (String comma "") fields) = fields.
Proof.
  induction fields as [|f [|g fields] IH]; intros Hne Hall.
  - done.
  - inversion Hall; subst. by apply split_on_no_sep.
  - inversion Hall as [|? ? Hf Hrest]; subst.
    rewrite join_cons2.
    change (String comma "" +:+ ?s) with (String comma s).
    rewrite split_on_app by done. f_equal. by apply IH.
Qed.

Lemma split_lines (ls : list string) :
  Forall (fun l => has_char newline l = false) ls ->
  split_on newline
    (concat_strings (map (fun l => l +:+ String newline "") ls))
  = (ls ++ [""])%list.
Proof.
  induction ls as [|l ls IH]; intros Hall; [done|].
  inversion Hall as [|? ? Hl Hrest]; subst.
  cbn [map concat_strings]. rewrite string_app_assoc.
  change (String newline "" +:+ ?s) with (String newline s).
  rewrite split_on_app by done. by rewrite (IH Hrest).
Qed.

Lemma drop_last_empty_snoc (ls : list string) :
  drop_last_empty (ls ++ [""]) = ls.
Proof.
  induction ls as [|l ls IH]; [done|].
  cbn [app drop_last_empty]. rewrite IH. by destruct ls.
Qed.

Lemma concat_csv_lines (records : list (list string)) :
  concat_strings (map csv_line records)
  = concat_strings
      (map (fun l => l +:+ String newline "")
           (map (join (String comma "")) records)).
Proof. by rewrite List.map_map. Qed.

(** Reading back the lines written for records of plain fields. *)
Lemma read_csv_lines (records : list (list string)) :
  Forall (fun r => r <> [] /\ Forall (fun f => needs_quote f = false) r) records ->
  read_csv (concat_strings (map csv_line records)) = records.
Proof.
  intros Hall. unfold read_csv.
  rewrite concat_csv_lines, split_lines, drop_last_empty_snoc.
  - rewrite List.map_map. rewrite <- (List.map_id records) at 2.
    apply List.map_ext_in. intros r Hr.
    rewrite List.Forall_forall in Hall. destruct (Hall r Hr) as [Hne Hplain].
    apply split_join; [done|].
    eapply List.Forall_impl; [|exact Hplain]. intros f.
    by apply needs_quote_has_char.
  - rewrite List.Forall_forall. intros l [r [<- Hr]]%in_map_iff.
    rewrite List.Forall_forall in Hall. destruct (Hall r Hr) as [_ Hplain].
    apply has_char_join; [done|].
    eapply List.Forall_impl; [|exact Hplain]. intros f.
    by apply needs_quote_has_char.
Qed.

Lemma csv_field_plain s : needs_quote s = false -> csv_field s = s.
Proof. unfold csv_field. by intros ->. Qed.

Section CsvRoundTrip.
Variable num_repr : Q -> string.
Variable num_parse : string -> option Q.

Lemma parse_number_faithful c :
  faithful_cell num_repr num_parse c ->
  parse_number num_parse (cell_text num_repr c) = Some c /\
  needs_quote (cell_text num_repr c) = false.
Proof.
  destruct c as [x| |s]; cbn [faithful_cell cell_text]; [|done|done].
  intros (Hparse & Hplain & Hne). split; [|done].
  unfold parse_number. apply String.eqb_neq in Hne. by rewrite Hne, Hparse.
Qed.

Lemma parse_numbers_faithful nums :
  Forall (faithful_cell num_repr num_parse) nums ->
  option_list (map (parse_number num_parse) (map (cell_text num_repr) nums))
  = Some nums.
Proof.
  induction 1 as [|c nums Hc _ IH]; [done|]. cbn [map option_list].
  destruct (parse_number_faithful c Hc) as [-> _]. cbn.
  by rewrite IH.
Qed.

Lemma parse_hist_record_faithful r :
  hist_record_ok num_repr num_parse r ->
  parse_hist_record num_parse (map (cell_text num_repr) r) = Some r /\
  map (cell_text num_repr) r <> [] /\
  Forall (fun f => needs_quote f = false) (map (cell_text num_repr) r).
Proof.
  intros (d & nums & -> & Hd & Hnums). split; [|split].
  - cbn [map parse_hist_record cell_text]. rewrite csv_field_plain by done.
    by rewrite parse_numbers_faithful.
  - done.
  - cbn [map cell_text]. rewrite csv_field_plain by done.
    constructor; [done|].
    rewrite List.Forall_forall. intros f [c [<- Hc]]%in_map_iff.
    rewrite List.Forall_forall in Hnums.
    by destruct (parse_number_faithful c (Hnums c Hc)).
Qed.

Lemma parse_hist_records_faithful rows :
  Forall (hist_record_ok num_repr num_parse) rows ->
  option_list (map (parse_hist_record num_parse)
                   (map (map (cell_text num_repr)) rows))
  = Some rows.
Proof.
  induction 1 as [|r rows Hr _ IH]; [done|]. cbn [map option_list].
  destruct (parse_hist_record_faithful r Hr) as [-> _]. cbn.
  by rewrite IH.
Qed.

Lemma to_csv_records (t : Table) :
  to_csv num_repr t
  = concat_strings
      (map csv_line
           (map csv_field t.*1 :: map (map (cell_text num_repr)) (table_rows t))).
Proof.
  unfold to_csv.
  by rewrite <- (List.map_map (map (cell_text num_repr)) csv_line).
Qed.

(** Writing a table of such records and reading the text back gives the
    header and the records. *)
Lemma read_hist_csv_to_csv (t : Table) :
  t.*1 <> [] ->
  Forall (fun n => needs_quote n = false) t.*1 ->
  Forall (hist_record_ok num_repr num_parse) (table_rows t) ->
  read_hist_csv num_parse (to_csv num_repr t) = Some (t.*1, table_rows t).
Proof.
  intros Hne Hnames Hrows. unfold read_hist_csv. rewrite to_csv_records.
  - rewrite read_csv_lines.
    + rewrite parse_hist_records_faithful by done.
      cbn. f_equal. f_equal.
      rewrite <- (List.map_id (t.*1)) at 2. apply List.map_ext_in.
      intros n Hn. apply csv_field_plain.
      rewrite List.Forall_forall in Hnames. by apply Hnames.
    + constructor.
      * split.
        -- by destruct (t.*1).
        -- rewrite List.Forall_forall. intros f [n [<- Hn]]%in_map_iff.
           rewrite List.Forall_forall in Hnames.
           by rewrite csv_field_plain; apply Hnames.
      * rewrite List.Forall_forall. intros f [r [<- Hr]]%in_map_iff.
        rewrite List.Forall_forall in Hrows.
        by destruct (parse_hist_record_faithful r (Hrows r Hr)) as (_ & ? & ?).
Qed.
End CsvRoundTrip.

Lemma is_digit_not_special c : is_digit c = true -> special_char c = false.
Proof.
  intros Hc. unfold special_char.
  destruct (Ascii.eqb_spec c comma) as [->|]; [by vm_compute in Hc|].
  destruct (Ascii.eqb_spec c dquote) as [->|]; [by vm_compute in Hc|].
  destruct (Ascii.eqb_spec c newline) as [->|]; [by vm_compute in Hc|].
  destruct (Ascii.eqb_spec c creturn) as [->|]; [by vm_compute in Hc|].
  done.
Qed.

Lemma all_digits_plain s : all_digits s = true -> needs_quote s = false.
Proof.
  induction s as [|c s IH]; [done|]. cbn [all_digits needs_quote].
  intros [Hc Hs]%andb_true_iff. by rewrite (is_digit_not_special c Hc), (IH Hs).
Qed.

(** A date is written without quotes. *)
Lemma strftime_ymd_plain t : needs_quote (strftime_ymd t) = false.
Proof.
  unfold strftime_ymd. rewrite !needs_quote_append.
  assert (forall w n, needs_quote (pad_left w (Z_digits n)) = false) as Hpad.
  { intros w n. apply all_digits_plain, pad_left_all_digits, Z_digits_all_digits. }
  by rewrite !Hpad.
Qed.

Section ExportedRecords.
Variable num_repr : Q -> string.
Variable num_parse : string -> option Q.

Lemma faithful_column_cell col i :
  faithful_column num_repr num_parse col ->
  faithful_cell num_repr num_parse (default CNaN (map cell_of_float col !! i)).
Proof.
  intros Hcol. rewrite map_fmap, list_lookup_fmap.
  destruct (col !! i) as [[q|]|] eqn:Hi; cbn; [|done|done].
  apply Hcol. apply list_elem_of_In. by eapply list_elem_of_lookup_2.
Qed.

(** The records of the exported table, in the order of the history. *)
Lemma exported_table_row hist open high low close volume i t :
  index hist !! i = Some t ->
  table_rows (exported_table hist open high low close volume) !! i
  = Some [ CStr (strftime_ymd t);
           default CNaN (map cell_of_float open !! i);
           default CNaN (map cell_of_float high !! i);
           default CNaN (map cell_of_float low !! i);
           default CNaN (map cell_of_float close !! i);
           default CNaN (map cell_of_float volume !! i) ].
Proof.
  intros Hi. unfold table_rows, exported_table.
  assert (i < length (date_cells hist))%nat as Hlt.
  { unfold date_cells. rewrite length_map. by eapply lookup_lt_Some. }
  rewrite map_fmap, list_lookup_fmap, lookup_seq_lt by done.
  cbn. unfold date_cells at 1.
  by rewrite map_fmap, list_lookup_fmap, Hi.
Qed.

Lemma exported_table_rows_length hist open high low close volume :
  length (table_rows (exported_table hist open high low close volume))
  = df_len hist.
Proof.
  unfold table_rows, exported_table, date_cells.
  by rewrite !length_map, length_seq.
Qed.

Lemma exported_records_ok hist open high low close volume :
  faithful_column num_repr num_parse open ->
  faithful_column num_repr num_parse high ->
  faithful_column num_repr num_parse low ->
  faithful_column num_repr num_parse close ->
  faithful_column num_repr num_parse volume ->
  Forall (hist_record_ok num_repr num_parse)
         (table_rows (exported_table hist open high low close volume)).
Proof.
  intros Ho Hh Hl Hc Hv. apply Forall_lookup_2. intros i r Hr.
  assert (i < df_len hist)%nat as Hi.
  { rewrite <- (exported_table_rows_length hist open high low close volume).
    by eapply lookup_lt_Some. }
  destruct (lookup_lt_is_Some_2 (index hist) i Hi) as [t Ht].
  rewrite (exported_table_row _ _ _ _ _ _ _ _ Ht) in Hr.
  injection Hr as <-. eexists _, _. split; [done|].
  split; [apply strftime_ymd_plain|].
  repeat constructor; by apply faithful_column_cell.
Qed.
End ExportedRecords.



Ltac faithful_by_computation :=
  let q := fresh "q" in
  let Hin := fresh "Hin" in
  intros q Hin; cbn [In] in Hin;
  repeat (destruct Hin as [[= <-]|Hin]; [by vm_compute|]);
  destruct Hin.


(** ** The session across runs *)

Lemma same_bars_refl hist : same_bars hist hist.
Proof. by split. Qed.

Lemma same_bars_trans h1 h2 h3 :
  same_bars h1 h2 -> same_bars h2 h3 -> same_bars h1 h3.
Proof.
  intros [Hi1 Hc1] [Hi2 Hc2]. split; [congruence|].
  intros name H20 H50. by rewrite Hc2, Hc1.
Qed.

Lemma same_bars_setitem hist col series :
  col = "MA20" \/ col = "MA50" -> same_bars hist (df_setitem hist col series).
Proof.
  intros Hcol. split; [done|]. intros name H20 H50.
  cbn [df_setitem columns]. apply cols_get_set_ne. by destruct Hcol as [->| ->].
Qed.

Lemma session_kept_refl ss : session_kept ss ss.
Proof. repeat split. by left. Qed.

Lemma session_kept_trans s1 s2 s3 :
  session_kept s1 s2 -> session_kept s2 s3 -> session_kept s1 s3.
Proof.
  intros (Hi1 & Hs1 & Hd1) (Hi2 & Hs2 & Hd2).
  split; [congruence|]. split; [congruence|].
  destruct Hd1 as [Hd1|(h1 & h2 & Ha & Hb & Hab)],
           Hd2 as [Hd2|(h2' & h3 & Hc & Hd & Hcd)].
  - left. congruence.
  - right. exists h2', h3. split; [congruence|]. by split.
  - right. exists h1, h2. split; [done|]. split; [congruence|done].
  - right. exists h1, h3. split; [done|]. split; [done|].
    assert (h2 = h2') as <- by congruence. by eapply same_bars_trans.
Qed.

Lemma keeps_ret {A} (a : A) : keeps_session (mret a).
Proof. intros w. apply session_kept_refl. Qed.

Lemma keeps_lift {A} (r : Result A) : keeps_session (lift r).
Proof. intros w. apply session_kept_refl. Qed.

Lemma keeps_get_state : keeps_session get_state.
Proof. intros w. apply session_kept_refl. Qed.

Lemma keeps_emit e : keeps_session (emit e).
Proof. intros w. apply session_kept_refl. Qed.

Lemma keeps_read_key {A} (slot : option A) : keeps_session (read_key slot).
Proof. intros w. destruct slot; apply session_kept_refl. Qed.

Lemma keeps_bind {A B} (m : Script A) (k : A -> Script B) :
  keeps_session m -> (forall a, keeps_session (k a)) -> keeps_session (m ≫= k).
Proof.
  intros Hm Hk w. unfold mbind, Script_bind.
  specialize (Hm w). destruct (m w) as [[a|e] w1]; [|done].
  eapply session_kept_trans; [exact Hm|]. apply Hk.
Qed.

Ltac keeps_step :=
  first
    [ apply keeps_bind; [|intros ?]
    | apply keeps_ret
    | apply keeps_lift
    | apply keeps_get_state
    | apply keeps_emit
    | apply keeps_read_key
    | match goal with
      | |- keeps_session (if ?b then _ else _) => destruct b
      | |- keeps_session (match ?x with _ => _ end) => destruct x
      end ].

Lemma keeps_get_hist : keeps_session get_hist.
Proof. unfold get_hist. repeat keeps_step. Qed.

Lemma keeps_hist_col name : keeps_session (hist_col name).
Proof. unfold hist_col. apply keeps_bind; [apply keeps_get_hist|]. intros. apply keeps_lift. Qed.

Lemma keeps_hist_set_col col series :
  col = "MA20" \/ col = "MA50" -> keeps_session (hist_set_col col series).
Proof.
  intros Hcol w. unfold hist_set_col, get_hist, mbind, Script_bind, get_state,
    read_key, set_state, lift, mret, Script_ret.
  destruct (ss_stock_data (w_state w)) as [[hist|]|] eqn:Hd; cbn;
    try apply session_kept_refl.
  repeat split. right. exists hist, (df_setitem hist col series).
  repeat split; try done; by apply same_bars_setitem.
Qed.

Lemma keeps_add_moving_average w col name color fig :
  col = "MA20" \/ col = "MA50" ->
  keeps_session (add_moving_average w col name color fig).
Proof.
  intros Hcol. unfold add_moving_average.
  apply keeps_bind; [apply keeps_get_hist|]. intros hist.
  destruct (w <=? df_len hist)%nat; [|apply keeps_ret].
  apply keeps_bind; [apply keeps_hist_col|]. intros close.
  apply keeps_bind; [by apply keeps_hist_set_col|]. intros _.
  apply keeps_bind; [apply keeps_get_hist|]. intros hist'.
  apply keeps_bind; [apply keeps_hist_col|]. intros y.
  apply keeps_ret.
Qed.

Lemma keeps_build_chart : keeps_session build_chart.
Proof.
  unfold build_chart.
  apply keeps_bind; [apply keeps_get_hist|]. intros hist.
  do 4 (apply keeps_bind; [apply keeps_hist_col|]; intros ?).
  apply keeps_bind; [apply keeps_add_moving_average; by left|]. intros fig.
  apply keeps_bind; [apply keeps_add_moving_average; by right|]. intros fig'.
  apply keeps_bind; [apply keeps_get_hist|]. intros hist'.
  apply keeps_bind; [apply keeps_lift|]. intros cs.
  apply keeps_bind; [apply keeps_hist_col|]. intros v.
  apply keeps_ret.
Qed.

(** Whatever the display branch renders, and wherever it may stop, it
    leaves the metadata and the symbol alone and keeps the bars of the
    stored history. *)
Lemma keeps_display num_repr : keeps_session (display num_repr).
Proof.
  unfold display.
  apply keeps_bind; [apply keeps_get_state|]. intros ss.
  apply keeps_bind; [apply keeps_read_key|]. intros [hist|]; [|apply keeps_emit].
  destruct (negb (df_empty hist)); [|apply keeps_emit].
  unfold display_data.
  apply keeps_bind; [apply keeps_get_hist|]. intros hist0.
  apply keeps_bind; [apply keeps_get_state|]. intros ss0.
  apply keeps_bind; [apply keeps_read_key|]. intros stored_info.
  apply keeps_bind; [apply keeps_read_key|]. intros current_symbol.
  apply keeps_bind; [apply keeps_lift|]. intros info.
  do 5 (apply keeps_bind; [apply keeps_lift|]; intros ?;
        apply keeps_bind; [apply keeps_emit|]; intros _).
  apply keeps_bind; [apply keeps_build_chart|]. intros fig.
  apply keeps_bind; [apply keeps_emit|]. intros _.
  apply keeps_bind; [apply keeps_lift|]. intros fin.
  apply keeps_bind; [apply keeps_emit|]. intros _.
  apply keeps_bind; [apply keeps_get_hist|]. intros hist1.
  apply keeps_bind; [apply keeps_lift|]. intros shown.
  apply keeps_bind; [apply keeps_emit|]. intros _.
  apply keeps_bind; [apply keeps_lift|]. intros exported.
  apply keeps_bind; [apply keeps_emit|]. intros _.
  apply keeps_emit.
Qed.

Lemma init_session_run ss page calls :
  init_session {| w_state := ss; w_page := page; w_calls := calls |}
  = (Ok tt, {| w_state := initialised ss; w_page := page; w_calls := calls |}).
Proof. reflexivity. Qed.

(** The fetch handler on a session whose keys are present. *)
Lemma fetch_handler_run yf inp ss page calls d :
  ss_stock_data ss = Some d ->
  let symbol := in_symbol inp in
  let period := period_options (in_selected_period inp) in
  let called := (calls ++ [(symbol, period)])%list in
  let not_found :=
    (Ok tt, {| w_state := ss;
               w_page := (page ++ [EError (not_found_message symbol)])%list;
               w_calls := called |}) in
  fetch_handler yf inp {| w_state := ss; w_page := page; w_calls := calls |}
  = if attempts_fetch inp ss
    then match yf symbol period with
         | Raises e =>
             if nonempty_string e
             then (Ok tt, {| w_state := ss;
                             w_page := (page ++ [EError (fetch_error_message e)])%list;
                             w_calls := called |})
             else not_found
         | Returns hist info =>
             if df_empty hist then not_found
             else (Ok tt, {| w_state := populated hist info symbol;
                             w_page := page; w_calls := called |})
         end
    else (Ok tt, {| w_state := ss; w_page := page; w_calls := calls |}).
Proof.
  intros Hd. cbn zeta.
  unfold fetch_handler, attempts_fetch, get_stock_data, call_provider,
    mbind, Script_bind, get_state, read_key, emit, set_state, mret, Script_ret,
    lift, populated.
  cbn [w_state w_page w_calls]. rewrite Hd.
  destruct (in_fetch_button inp); cbn [orb].
  - destruct (yf _ _) as [e|hist info]; cbn [from_option default].
    + by destruct (nonempty_string e).
    + by destruct (df_empty hist).
  - destruct d as [hist0|]; cbn [is_Some_bool negb andb]; [done|].
    destruct (nonempty_string (in_symbol inp)); [|done].
    destruct (yf _ _) as [e|hist info]; cbn [from_option default].
    + by destruct (nonempty_string e).
    + by destruct (df_empty hist).
Qed.

Lemma attempts_fetch_initialised inp ss :
  attempts_fetch inp (initialised ss) = attempts_fetch inp ss.
Proof.
  unfold attempts_fetch, initialised. cbn [ss_stock_data].
  by destruct (ss_stock_data ss) as [[?|]|].
Qed.

Lemma consistent_initialised ss o :
  consistent_with ss o -> consistent_with (initialised ss) o.
Proof.
  destruct o as [[[symbol hist] info]|]; cbn [consistent_with].
  - intros (hist' & -> & Hbars). by exists hist'.
  - intros [-> | ->]; by right.
Qed.

Lemma consistent_kept ss ss' o :
  ss_stock_data ss <> None ->
  consistent_with ss o -> session_kept ss ss' -> consistent_with ss' o.
Proof.
  intros Hpresent Hc (Hinfo & Hsym & Hdata).
  destruct ss' as [d' i' s']. cbn [ss_stock_info ss_symbol ss_stock_data] in *.
  destruct o as [[[symbol hist] info]|]; cbn [consistent_with] in *.
  - destruct Hc as (hist1 & -> & Hbars). cbn in *. subst.
    destruct Hdata as [->|(h & h' & [= <-] & -> & Hb)].
    + by exists hist1.
    + exists h'. split; [done|]. by eapply same_bars_trans.
  - destruct Hc as [-> | ->]; cbn in *; subst; [done|].
    destruct Hdata as [->|(h & h' & [=] & _)]. by right.
Qed.

(** One run of the script keeps the session consistent. *)
Lemma run_consistent num_repr yf inp ss o :
  consistent_with ss o ->
  consistent_with (session_after num_repr yf inp ss) (origin_after yf inp ss o).
Proof.
  intros Hc%consistent_initialised.
  unfold session_after, run, script.
  erewrite bind_run by apply init_session_run.
  pose proof (fetch_handler_run yf inp (initialised ss) [] []
                (default None (ss_stock_data ss)) eq_refl) as Hfetch.
  cbn zeta in Hfetch. rewrite attempts_fetch_initialised in Hfetch.
  unfold origin_after, fetched.
  destruct (attempts_fetch inp ss).
  - destruct (yf _ _) as [e|hist info].
    + destruct (nonempty_string e);
        erewrite bind_run by exact Hfetch;
        (eapply consistent_kept; [| |apply keeps_display]; done).
    + destruct (df_empty hist).
      * erewrite bind_run by exact Hfetch.
        eapply consistent_kept; [| |apply keeps_display]; done.
      * erewrite bind_run by exact Hfetch.
        eapply consistent_kept; [| |apply keeps_display]; [done|].
        exists hist. split; [done|apply same_bars_refl].
  - erewrite bind_run by exact Hfetch.
    eapply consistent_kept; [| |apply keeps_display]; done.
Qed.

(** A fetch attempt leaves the session as it was or overwrites the three
    fields together. *)
Lemma fetch_handler_atomic yf inp ss page calls :
  let w' := (fetch_handler yf inp
               {| w_state := ss; w_page := page; w_calls := calls |}).2 in
  w_state w' = ss \/
  exists hist info,
    yf (in_symbol inp) (period_options (in_selected_period inp))
    = Returns hist info /\
    df_empty hist = false /\
    w_state w' = populated hist info (in_symbol inp).
Proof.
  cbn zeta.
  unfold fetch_handler, get_stock_data, call_provider,
    mbind, Script_bind, get_state, read_key, emit, set_state, mret, Script_ret,
    lift, populated.
  cbn [w_state w_page w_calls].
  destruct (in_fetch_button inp); cbn [orb].
  - destruct (yf _ _) as [e|hist info] eqn:Hyf; cbn [from_option default].
    + destruct (nonempty_string e); by left.
    + destruct (df_empty hist) eqn:He; [by left|].
      right. by exists hist, info.
  - destruct (ss_stock_data ss) as [[hist0|]|]; cbn; try by left.
    destruct (nonempty_string (in_symbol inp)); cbn; [|by left].
    destruct (yf _ _) as [e|hist info] eqn:Hyf; cbn [from_option default].
    + destruct (nonempty_string e); by left.
    + destruct (df_empty hist) eqn:He; [by left|].
      right. by exists hist, info.
Qed.

(** The session after the fetch handler, by the outcome of the attempt. *)
Lemma fetch_handler_state yf inp ss page calls d :
  ss_stock_data ss = Some d ->
  w_state (fetch_handler yf inp
             {| w_state := ss; w_page := page; w_calls := calls |}).2
  = if attempts_fetch inp ss
    then match fetched yf inp with
         | Some (hist, info) => populated hist info (in_symbol inp)
         | None => ss
         end
    else ss.
Proof.
  intros Hd. rewrite (fetch_handler_run yf inp ss page calls d Hd). cbn zeta.
  unfold fetched. destruct (attempts_fetch inp ss); [|done].
  destruct (yf _ _) as [e|hist info].
  - by destruct (nonempty_string e).
  - by destruct (df_empty hist).
Qed.

(** C5: every session that runs of the script can produce has its three
    fields all unset or all set from one successful fetch (the stored
    history being the fetched one up to the derived columns), and each
    fetch attempt either leaves the three fields as they were or
    overwrites them together with the symbol entered and the non-empty
    history and metadata that the provider returned for it: it overwrites
    them exactly when the provider returns a non-empty history. *)
Theorem session_all_or_nothing (num_repr : Q -> string) :
  (forall ss o, reachable num_repr ss o -> consistent_with ss o) /\
  (forall yf inp ss page calls,
     let w' := (fetch_handler yf inp
                  {| w_state := ss; w_page := page; w_calls := calls |}).2 in
     w_state w' = ss \/
     exists hist info,
       yf (in_symbol inp) (period_options (in_selected_period inp))
       = Returns hist info /\
       df_empty hist = false /\
       w_state w' = populated hist info (in_symbol inp)) /\
  (forall yf inp ss page calls d,
     ss_stock_data ss = Some d ->
     w_state (fetch_handler yf inp
                {| w_state := ss; w_page := page; w_calls := calls |}).2
     = if attempts_fetch inp ss
       then match fetched yf inp with
            | Some (hist, info) => populated hist info (in_symbol inp)
            | None => ss
            end
       else ss).
Proof.
  split; [|split].
  - induction 1 as [|ss o yf inp _ IH].
    + by left.
    + by apply run_consistent.
  - apply fetch_handler_atomic.
  - apply fetch_handler_state.
Qed.

Lemma session_all_or_nothing_witness :
  consistent_with
    (session_after fraction_repr provider_sample (click "AAPL") fresh_session)
    (origin_after provider_sample (click "AAPL") fresh_session None) /\
  w_state (fetch_handler provider_sample (click "ZZZZ")
             {| w_state := empty_session; w_page := []; w_calls := [] |}).2
  = empty_session.
Proof.
  split.
  - apply (proj1 (session_all_or_nothing fraction_repr)).
    apply reach_run, reach_fresh.
  - apply (proj2 (proj2 (session_all_or_nothing fraction_repr))
             provider_sample (click "ZZZZ") empty_session [] [] None eq_refl).
Defined.

(** ** Outcomes of a fetch attempt *)

Lemma append_nil_r s : s +:+ "" = s.
Proof. induction s as [|c s IH]; [done|]. by rewrite append_cons, IH. Qed.

Lemma contains_error_text e : contains e (fetch_error_message e).
Proof. exists "Error fetching data: ", "". by rewrite append_nil_r. Qed.

Lemma contains_symbol symbol : contains symbol (not_found_message symbol).
Proof.
  by exists "No data found for symbol '",
            "'. Please check the symbol and try again.".
Qed.

Lemma contains_empty msg : contains "" msg.
Proof. by exists "", msg. Qed.

Lemma messages_distinct e symbol :
  fetch_error_message e <> not_found_message symbol.
Proof. unfold fetch_error_message, not_found_message. intros H. vm_compute in H. discriminate. Qed.

Lemma nonempty_string_true s : nonempty_string s = true <-> s <> "".
Proof. unfold nonempty_string. rewrite negb_true_iff. apply String.eqb_neq. Qed.

(** C6: a fetch attempt calls the provider once and ends in one of three
    ways.  If the provider raises, one error message that contains the
    error text is shown (the provider-failure message, or the not-found
    message when the error text is empty) and the session is unchanged; if
    the provider returns an empty history, the not-found message naming
    the symbol is shown and the session is unchanged; otherwise nothing is
    shown and the history, the metadata and the symbol are stored.  The
    two messages are never equal. *)
Theorem fetch_failure_modes yf inp ss page calls d :
  ss_stock_data ss = Some d ->
  attempts_fetch inp ss = true ->
  let symbol := in_symbol inp in
  let period := period_options (in_selected_period inp) in
  let w := {| w_state := ss; w_page := page; w_calls := calls |} in
  let called := (calls ++ [(symbol, period)])%list in
  (forall e, yf symbol period = Raises e ->
     exists msg,
       fetch_handler yf inp w
       = (Ok tt, {| w_state := ss; w_page := (page ++ [EError msg])%list;
                    w_calls := called |}) /\
       contains e msg /\
       (e <> "" -> msg = fetch_error_message e) /\
       (e = "" -> msg = not_found_message symbol)) /\
  (forall hist info, yf symbol period = Returns hist info ->
     df_empty hist = true ->
     fetch_handler yf inp w
     = (Ok tt, {| w_state := ss;
                  w_page := (page ++ [EError (not_found_message symbol)])%list;
                  w_calls := called |})) /\
  (forall hist info, yf symbol period = Returns hist info ->
     df_empty hist = false ->
     fetch_handler yf inp w
     = (Ok tt, {| w_state := populated hist info symbol; w_page := page;
                  w_calls := called |})) /\
  contains symbol (not_found_message symbol) /\
  (forall e s, fetch_error_message e <> not_found_message s).
Proof.
  intros Hd Hattempt. cbn zeta.
  pose proof (fetch_handler_run yf inp ss page calls d Hd) as Hrun.
  cbn zeta in Hrun. rewrite Hattempt in Hrun. rewrite Hrun. clear Hrun.
  split; [|split; [|split; [|split]]].
  - intros e ->. destruct (nonempty_string e) eqn:He.
    + exists (fetch_error_message e). split; [done|].
      split; [apply contains_error_text|]. split; [done|].
      intros ->. done.
    + assert (e = "") as ->.
      { destruct (String.eqb_spec e ""); [done|].
        by apply nonempty_string_true in n; congruence. }
      exists (not_found_message (in_symbol inp)). split; [done|].
      split; [apply contains_empty|]. by split.
  - by intros hist info -> ->.
  - by intros hist info -> ->.
  - apply contains_symbol.
  - apply messages_distinct.
Qed.

Lemma fetch_failure_modes_witness :
  exists msg,
    fetch_handler provider_sample (click "ZZZZ")
      {| w_state := empty_session; w_page := []; w_calls := [] |}
    = (Ok tt, {| w_state := empty_session; w_page := [EError msg];
                 w_calls := [("ZZZZ", "1y")] |}) /\
    msg = "Error fetching data: HTTP 404".
Proof.
  destruct (proj1 (fetch_failure_modes provider_sample (click "ZZZZ")
                     empty_session [] [] None eq_refl eq_refl)
              "HTTP 404" eq_refl)
    as (msg & Hrun & _ & Hmsg & _).
  exists msg. split; [exact Hrun|]. by apply Hmsg.
Defined.

(** ** The script on sample inputs *)

Example format_float_samples :
  format_float spec_2f (15025 # 100) = "150.25" /\
  format_float spec_2f (-1 # 1000) = "-0.00" /\
  format_float spec_plus_2f (225 # 100) = "+2.25" /\
  format_float spec_comma_0f (12345675 # 10) = "1,234,568" /\
  format_float spec_comma_0f (125 # 10) = "12" /\
  format_float spec_comma_0f (inject_Z (-1234)) = "-1,234".
Proof. repeat split; reflexivity. Qed.

Example strftime_sample :
  strftime_ymd {| ts_year := 2024; ts_month := 1; ts_day := 2 |} = "2024-01-02".
Proof. reflexivity. Qed.

Example rolling_mean_sample :
  rolling_mean 2 [Some (inject_Z 1); Some (inject_Z 2); None; Some (inject_Z 4);
                  Some (inject_Z 6)]
  = [None; Some (3 # 2); None; None; Some (10 # 2)].
Proof. reflexivity. Qed.

(** The layout of the exported text, with a writer that prints two
    decimals. *)
Example to_csv_sample :
  (c ← csv_hist hist_sample; Ok (to_csv (format_float spec_2f) c))
  = Ok (concat_strings
          [ "Date,Open,High,Low,Close,Volume"; String newline "";
            "2024-01-02,1.23,2.00,1.00,1.50,1000.00"; String newline "";
            "2024-01-03,2.00,3.00,1.00,1.90,2000000.00"; String newline "";
            "2024-01-04,3.00,4.00,2.00,3.00,1500.00"; String newline "" ]).
Proof. by vm_compute. Qed.

(** The first run with a known symbol stores the fetch and renders five
    tiles, the chart, two tables and two downloads. *)
Example first_run_sample :
  let '(outcome, w) :=
    run fraction_repr provider_sample
        {| in_symbol := "AAPL"; in_selected_period := OneYear;
           in_fetch_button := false |} fresh_session in
  outcome = Ok tt /\
  ss_symbol (w_state w) = Some (Some "AAPL") /\
  w_calls w = [("AAPL", "1y")] /\
  length (w_page w) = 10%nat.
Proof. by vm_compute. Qed.

(** A run with an unknown symbol shows the provider's error and the
    getting-started text, and stores nothing. *)
Example failed_run_sample :
  run fraction_repr provider_sample (click "ZZZZ") fresh_session
  = (Ok tt, {| w_state := empty_session;
               w_page := [EError "Error fetching data: HTTP 404";
                          EInfo getting_started];
               w_calls := [("ZZZZ", "1y")] |}).
Proof. by vm_compute. Qed.

(** With a current price bound to None the run stops at the metrics table, after the
    tiles and the chart. *)
Example none_price_run_sample :
  let yf : Provider := fun _ _ => Returns hist_sample info_none_price in
  let '(outcome, w) := run fraction_repr yf (click "AAPL") fresh_session in
  outcome = Raise TypeError /\ length (w_page w) = 6%nat.
Proof. by vm_compute. Qed.

(** ** The symbol typed in the sidebar *)

Lemma lstrip_all_space s : all_space s = true -> lstrip s = "".
Proof.
  induction s as [|c s IH]; [done|]. cbn [all_space lstrip].
  intros [-> Hs]%andb_true_iff. by apply IH.
Qed.

Lemma lstrip_app_space ws s : all_space ws = true -> lstrip (ws +:+ s) = lstrip s.
Proof.
  induction ws as [|c ws IH]; [done|]. cbn [all_space].
  intros [Hc Hs]%andb_true_iff. rewrite append_cons. cbn [lstrip].
  rewrite Hc. by apply IH.
Qed.

Lemma rstrip_all_space s : all_space s = true -> rstrip s = "".
Proof.
  induction s as [|c s IH]; [done|]. cbn [all_space rstrip].
  intros [-> Hs]%andb_true_iff. by rewrite (IH Hs).
Qed.

Lemma rstrip_app_space s ws : all_space ws = true -> rstrip (s +:+ ws) = rstrip s.
Proof.
  intros Hws. induction s as [|c s IH].
  - rewrite append_nil_l. by apply rstrip_all_space.
  - rewrite append_cons. cbn [rstrip]. by rewrite IH.
Qed.

Lemma lstrip_no_leading_space s : starts_with_space (lstrip s) = false.
Proof.
  induction s as [|c s IH]; [done|]. cbn [lstrip].
  destruct (is_space c) eqn:Hc; [done|]. by cbn [starts_with_space].
Qed.

Lemma rstrip_no_trailing_space s : ends_with_space (rstrip s) = false.
Proof.
  induction s as [|c s IH]; [done|]. cbn [rstrip].
  destruct (String.eqb_spec (rstrip s) "") as [He|Hne].
  - rewrite andb_true_r. destruct (is_space c) eqn:Hc; [done|].
    rewrite He. cbn [ends_with_space]. done.
  - rewrite andb_false_r. cbn [ends_with_space].
    destruct (rstrip s); [done|]. exact IH.
Qed.

Lemma rstrip_keeps_start s :
  starts_with_space s = false -> starts_with_space (rstrip s) = false.
Proof.
  destruct s as [|c s]; [done|]. cbn [starts_with_space rstrip].
  intros Hc. rewrite Hc. cbn [andb starts_with_space]. exact Hc.
Qed.

Lemma lstrip_no_space_id s : starts_with_space s = false -> lstrip s = s.
Proof. destruct s as [|c s]; [done|]. cbn. by intros ->. Qed.

Lemma rstrip_idempotent s : rstrip (rstrip s) = rstrip s.
Proof.
  induction s as [|c s IH]; [done|]. cbn [rstrip].
  destruct (is_space c && String.eqb (rstrip s) "") eqn:E; [done|].
  cbn [rstrip]. by rewrite IH, E.
Qed.

Lemma py_strip_idempotent s : py_strip (py_strip s) = py_strip s.
Proof.
  unfold py_strip.
  rewrite (lstrip_no_space_id (rstrip (lstrip s))).
  - apply rstrip_idempotent.
  - apply rstrip_keeps_start, lstrip_no_leading_space.
Qed.

Lemma is_lower_upper_char c : is_lower (upper_char c) = false.
Proof.
  unfold upper_char. destruct (is_lower c) eqn:Hc; [|done].
  unfold is_lower in *. apply andb_true_iff in Hc as [H1%Nat.leb_le H2%Nat.leb_le].
  pose proof (nat_ascii_bounded c).
  rewrite nat_ascii_embedding by lia.
  apply andb_false_iff. left. apply Nat.leb_gt. lia.
Qed.

Lemma is_space_upper_char c : is_space (upper_char c) = is_space c.
Proof.
  unfold upper_char. destruct (is_lower c) eqn:Hc; [|done].
  unfold is_lower in Hc. apply andb_true_iff in Hc as [H1%Nat.leb_le H2%Nat.leb_le].
  unfold is_space. cbn zeta. rewrite nat_ascii_embedding by lia.
  transitivity false; [|symmetry]; apply orb_false_iff; split;
    apply andb_false_iff; (left; apply Nat.leb_gt; lia) || (right; apply Nat.leb_gt; lia).
Qed.

Lemma upper_char_idempotent c : upper_char (upper_char c) = upper_char c.
Proof. unfold upper_char at 1. by rewrite is_lower_upper_char. Qed.

Lemma py_upper_idempotent s : py_upper (py_upper s) = py_upper s.
Proof.
  induction s as [|c s IH]; [done|]. cbn [py_upper].
  by rewrite upper_char_idempotent, IH.
Qed.

Lemma has_lower_py_upper s : has_lower (py_upper s) = false.
Proof.
  induction s as [|c s IH]; [done|]. cbn [py_upper has_lower].
  by rewrite is_lower_upper_char, IH.
Qed.

Lemma py_upper_append s t : py_upper (s +:+ t) = py_upper s +:+ py_upper t.
Proof.
  induction s as [|c s IH]; [done|].
  rewrite append_cons. cbn [py_upper]. by rewrite IH, append_cons.
Qed.

Lemma all_space_py_upper s : all_space (py_upper s) = all_space s.
Proof.
  induction s as [|c s IH]; [done|]. cbn [py_upper all_space].
  by rewrite is_space_upper_char, IH.
Qed.

Lemma py_upper_lstrip s : py_upper (lstrip s) = lstrip (py_upper s).
Proof.
  induction s as [|c s IH]; [done|]. cbn [lstrip py_upper].
  rewrite is_space_upper_char. by destruct (is_space c).
Qed.

Lemma py_upper_empty s : String.eqb (py_upper s) "" = String.eqb s "".
Proof. by destruct s. Qed.

Lemma py_upper_rstrip s : py_upper (rstrip s) = rstrip (py_upper s).
Proof.
  induction s as [|c s IH]; [done|]. cbn [rstrip py_upper].
  rewrite is_space_upper_char, <- IH, py_upper_empty.
  by destruct (is_space c && String.eqb (rstrip s) "").
Qed.

Lemma has_lower_lstrip s : has_lower s = false -> has_lower (lstrip s) = false.
Proof.
  induction s as [|c s IH]; [done|]. cbn [has_lower lstrip].
  intros [Hc Hs]%orb_false_iff. destruct (is_space c); [by apply IH|].
  cbn [has_lower]. by rewrite Hc, Hs.
Qed.

Lemma has_lower_rstrip s : has_lower s = false -> has_lower (rstrip s) = false.
Proof.
  induction s as [|c s IH]; [done|]. cbn [has_lower rstrip].
  intros [Hc Hs]%orb_false_iff.
  destruct (is_space c && String.eqb (rstrip s) ""); [done|].
  cbn [has_lower]. by rewrite Hc, (IH Hs).
Qed.

Lemma rstrip_lstrip_app_space s ws :
  all_space ws = true -> rstrip (lstrip (s +:+ ws)) = rstrip (lstrip s).
Proof.
  intros Hws. induction s as [|c s IH].
  - rewrite append_nil_l. by rewrite lstrip_all_space.
  - rewrite append_cons. cbn [lstrip]. destruct (is_space c); [exact IH|].
    rewrite <- append_cons. by apply rstrip_app_space.
Qed.

Lemma py_strip_app_space ws1 s ws2 :
  all_space ws1 = true -> all_space ws2 = true ->
  py_strip (ws1 +:+ s +:+ ws2) = py_strip s.
Proof.
  intros H1 H2. unfold py_strip. rewrite lstrip_app_space by done.
  by apply rstrip_lstrip_app_space.
Qed.

(** X1: the symbol taken from the sidebar has no lower-case letter and no
    surrounding white space; normalising it again changes nothing; text
    that differs only in surrounding white space or in letter case gives
    the same symbol, and blank text gives the empty symbol. *)
Theorem sidebar_symbol_normal (text : string) :
  is_ascii text = true ->
  has_lower (sidebar_symbol text) = false /\
  starts_with_space (sidebar_symbol text) = false /\
  ends_with_space (sidebar_symbol text) = false /\
  sidebar_symbol (sidebar_symbol text) = sidebar_symbol text /\
  (forall ws1 ws2, all_space ws1 = true -> all_space ws2 = true ->
     sidebar_symbol (ws1 +:+ text +:+ ws2) = sidebar_symbol text) /\
  sidebar_symbol (py_upper text) = sidebar_symbol text /\
  (all_space text = true -> sidebar_symbol text = "").
Proof.
  intros _. unfold sidebar_symbol.
  split; [|split; [|split; [|split; [|split; [|split]]]]].
  - unfold py_strip. apply has_lower_rstrip, has_lower_lstrip, has_lower_py_upper.
  - unfold py_strip. apply rstrip_keeps_start, lstrip_no_leading_space.
  - unfold py_strip. apply rstrip_no_trailing_space.
  - unfold py_strip at 2.
    rewrite py_upper_rstrip, py_upper_lstrip, py_upper_idempotent.
    apply py_strip_idempotent.
  - intros ws1 ws2 H1 H2. rewrite !py_upper_append.
    apply py_strip_app_space; by rewrite all_space_py_upper.
  - by rewrite py_upper_idempotent.
  - intros Hall. unfold py_strip.
    rewrite lstrip_all_space by (by rewrite all_space_py_upper). done.
Qed.

Lemma sidebar_symbol_normal_witness :
  sidebar_symbol "  aapl " = "AAPL" /\ sidebar_symbol "   " = "".
Proof.
  pose proof (sidebar_symbol_normal "aapl" eq_refl) as (_ & _ & _ & _ & Hws & _).
  pose proof (sidebar_symbol_normal "   " eq_refl) as (_ & _ & _ & _ & _ & _ & Hblank).
  split.
  - apply (Hws "  " " " eq_refl eq_refl).
  - apply Hblank. reflexivity.
Defined.

(** ** What a run renders and requests *)

Lemma renders_ret {A} (a : A) : renders (mret a).
Proof. intros ss. exists (Ok a), ss, []. intros. by rewrite app_nil_r. Qed.

Lemma renders_lift {A} (r : Result A) : renders (lift r).
Proof. intros ss. exists r, ss, []. intros. by rewrite app_nil_r. Qed.

Lemma renders_get_state : renders get_state.
Proof. intros ss. exists (Ok ss), ss, []. intros. by rewrite app_nil_r. Qed.

Lemma renders_set_state ss' : renders (set_state ss').
Proof. intros ss. exists (Ok tt), ss', []. intros. by rewrite app_nil_r. Qed.

Lemma renders_emit e : renders (emit e).
Proof. intros ss. by exists (Ok tt), ss, [e]. Qed.

Lemma renders_read_key {A} (slot : option A) : renders (read_key slot).
Proof. destruct slot; [apply renders_ret|apply renders_lift]. Qed.

Lemma renders_bind {A B} (m : Script A) (k : A -> Script B) :
  renders m -> (forall a, renders (k a)) -> renders (m ≫= k).
Proof.
  intros Hm Hk ss. destruct (Hm ss) as (r & ss1 & out1 & Hrun).
  destruct r as [a|e].
  - destruct (Hk a ss1) as (r2 & ss2 & out2 & Hrun2).
    exists r2, ss2, (out1 ++ out2)%list. intros page calls.
    rewrite (bind_run _ _ _ _ _ (Hrun page calls)), Hrun2.
    by rewrite app_assoc.
  - exists (Raise e), ss1, out1. intros page calls.
    by rewrite (bind_raise _ _ _ _ _ (Hrun page calls)).
Qed.

Ltac renders_step :=
  first
    [ apply renders_bind; [|intros ?]
    | apply renders_ret
    | apply renders_lift
    | apply renders_get_state
    | apply renders_set_state
    | apply renders_emit
    | apply renders_read_key
    | match goal with
      | |- renders (if ?b then _ else _) => destruct b
      | |- renders (match ?x with _ => _ end) => destruct x
      end ].

Lemma renders_get_hist : renders get_hist.
Proof. unfold get_hist. repeat renders_step. Qed.

Lemma renders_hist_col name : renders (hist_col name).
Proof.
  unfold hist_col. apply renders_bind; [apply renders_get_hist|].
  intros. apply renders_lift.
Qed.

Lemma renders_hist_set_col col series : renders (hist_set_col col series).
Proof.
  unfold hist_set_col. apply renders_bind; [apply renders_get_hist|].
  intros hist. repeat renders_step.
Qed.

Lemma renders_add_moving_average w col name color fig :
  renders (add_moving_average w col name color fig).
Proof.
  unfold add_moving_average.
  apply renders_bind; [apply renders_get_hist|]. intros hist.
  destruct (w <=? df_len hist)%nat; [|apply renders_ret].
  apply renders_bind; [apply renders_hist_col|]. intros close.
  apply renders_bind; [apply renders_hist_set_col|]. intros _.
  apply renders_bind; [apply renders_get_hist|]. intros hist'.
  apply renders_bind; [apply renders_hist_col|]. intros y.
  apply renders_ret.
Qed.

Lemma renders_build_chart : renders build_chart.
Proof.
  unfold build_chart.
  apply renders_bind; [apply renders_get_hist|]. intros hist.
  do 4 (apply renders_bind; [apply renders_hist_col|]; intros ?).
  do 2 (apply renders_bind; [apply renders_add_moving_average|]; intros ?).
  apply renders_bind; [apply renders_get_hist|]. intros hist'.
  apply renders_bind; [apply renders_lift|]. intros cs.
  apply renders_bind; [apply renders_hist_col|]. intros v.
  apply renders_ret.
Qed.

Lemma renders_display_data num_repr : renders (display_data num_repr).
Proof.
  unfold display_data.
  apply renders_bind; [apply renders_get_hist|]. intros hist0.
  apply renders_bind; [apply renders_get_state|]. intros ss0.
  apply renders_bind; [apply renders_read_key|]. intros stored_info.
  apply renders_bind; [apply renders_read_key|]. intros current_symbol.
  apply renders_bind; [apply renders_lift|]. intros info.
  do 5 (apply renders_bind; [apply renders_lift|]; intros ?;
        apply renders_bind; [apply renders_emit|]; intros _).
  apply renders_bind; [apply renders_build_chart|]. intros fig.
  apply renders_bind; [apply renders_emit|]. intros _.
  apply renders_bind; [apply renders_lift|]. intros fin.
  apply renders_bind; [apply renders_emit|]. intros _.
  apply renders_bind; [apply renders_get_hist|]. intros hist1.
  apply renders_bind; [apply renders_lift|]. intros shown.
  apply renders_bind; [apply renders_emit|]. intros _.
  apply renders_bind; [apply renders_lift|]. intros exported.
  apply renders_bind; [apply renders_emit|]. intros _.
  apply renders_emit.
Qed.

(** The display branch makes no request and only appends to the page. *)
Lemma renders_display num_repr : renders (display num_repr).
Proof.
  unfold display.
  apply renders_bind; [apply renders_get_state|]. intros ss.
  apply renders_bind; [apply renders_read_key|].
  intros [hist|]; [|apply renders_emit].
  destruct (negb (df_empty hist)); [apply renders_display_data|apply renders_emit].
Qed.

Lemma initialised_data ss :
  ss_stock_data (initialised ss) = Some (default None (ss_stock_data ss)).
Proof. reflexivity. Qed.

(** A run is the display branch on the world left by the fetch handler. *)
Lemma run_display num_repr yf inp ss :
  run num_repr yf inp ss = display num_repr (fetch_world yf inp ss).
Proof.
  unfold run, script.
  erewrite bind_run by apply init_session_run.
  pose proof (fetch_handler_run yf inp (initialised ss) [] []
                _ (initialised_data ss)) as Hfetch.
  cbn zeta in Hfetch. rewrite attempts_fetch_initialised in Hfetch.
  unfold fetch_world, fetched, failure_message.
  destruct (attempts_fetch inp ss).
  - destruct (yf _ _) as [e|hist info].
    + destruct (nonempty_string e); by erewrite bind_run by exact Hfetch.
    + destruct (df_empty hist); by erewrite bind_run by exact Hfetch.
  - by erewrite bind_run by exact Hfetch.
Qed.

(** X2: a run asks the provider at most once: exactly once, for the
    symbol and the code of the selected period, when the button was
    clicked or no history is stored and the symbol is not empty, and not
    at all otherwise. *)
Theorem provider_called_at_most_once num_repr yf inp ss :
  w_calls (run num_repr yf inp ss).2
  = if in_fetch_button inp
       || (match ss_stock_data ss with
           | Some (Some _) => false
           | _ => true
           end && negb (String.eqb (in_symbol inp) ""))
    then [(in_symbol inp, period_options (in_selected_period inp))]
    else [].
Proof.
  rewrite run_display.
  destruct (renders_display num_repr (w_state (fetch_world yf inp ss)))
    as (r & ss' & out & Hrun).
  specialize (Hrun (w_page (fetch_world yf inp ss))
                   (w_calls (fetch_world yf inp ss))).
  destruct (fetch_world yf inp ss) as [s p c] eqn:Hw. cbn in Hrun.
  rewrite Hrun. cbn [snd w_calls].
  change c with (w_calls {| w_state := s; w_page := p; w_calls := c |}).
  rewrite <- Hw. unfold fetch_world, attempts_fetch, nonempty_string.
  destruct (in_fetch_button inp || _); [|done].
  by destruct (fetched yf inp) as [[hist info]|].
Qed.

Lemma initialised_unset ss : unset ss -> initialised ss = empty_session.
Proof. by intros [-> | ->]. Qed.

Lemma attempts_fetch_stored inp ss hist :
  ss_stock_data ss = Some (Some hist) ->
  attempts_fetch inp ss = in_fetch_button inp.
Proof. unfold attempts_fetch. intros ->. by rewrite orb_false_r. Qed.

(** X3: when nothing is stored and the run stores nothing (no fetch is
    attempted, or the attempt fails), the page is the error message of the
    attempt, if any, followed by the getting-started text: no tile, chart,
    table or download is rendered, and the session stays unset. *)
Theorem nothing_stored_nothing_shown num_repr yf inp ss :
  unset ss ->
  attempts_fetch inp ss = false \/ fetched yf inp = None ->
  let symbol := in_symbol inp in
  let period := period_options (in_selected_period inp) in
  run num_repr yf inp ss
  = (Ok tt,
     {| w_state := empty_session;
        w_page :=
          (if attempts_fetch inp ss
           then [EError (failure_message symbol (yf symbol period));
                 EInfo getting_started]
           else [EInfo getting_started]);
        w_calls := if attempts_fetch inp ss then [(symbol, period)] else [] |}).
Proof.
  intros Hunset Hnone. cbn zeta. rewrite run_display. unfold fetch_world.
  rewrite (initialised_unset ss Hunset).
  destruct (attempts_fetch inp ss); [|done].
  destruct Hnone as [Hno| ->]; done.
Qed.

Lemma nothing_stored_nothing_shown_witness :
  run fraction_repr provider_sample (click "") fresh_session
  = (Ok tt,
     {| w_state := empty_session;
        w_page := [EError "No data found for symbol ''. Please check the symbol and try again.";
                   EInfo getting_started];
        w_calls := [("", "1y")] |}).
Proof.
  apply (nothing_stored_nothing_shown fraction_repr provider_sample (click "")
           fresh_session).
  - by left.
  - by right.
Defined.

(** X4: after a failed fetch attempt the stored data stays on display:
    the run renders the error message followed by exactly what a run
    without the click renders, returns what that run returns and leaves
    the session that run leaves. *)
Theorem failed_fetch_keeps_display num_repr yf inp ss hist :
  ss_stock_data ss = Some (Some hist) ->
  in_fetch_button inp = true ->
  fetched yf inp = None ->
  let symbol := in_symbol inp in
  let period := period_options (in_selected_period inp) in
  let quiet := run num_repr yf (without_click inp) ss in
  run num_repr yf inp ss
  = (quiet.1,
     {| w_state := w_state quiet.2;
        w_page := EError (failure_message symbol (yf symbol period))
                  :: w_page quiet.2;
        w_calls := [(symbol, period)] |}).
Proof.
  intros Hd Hclick Hnone. cbn zeta. rewrite !run_display. unfold fetch_world.
  rewrite !(attempts_fetch_stored _ ss hist Hd), Hclick, Hnone.
  cbn [without_click in_fetch_button].
  destruct (renders_display num_repr (initialised ss)) as (r & ss' & out & Hrun).
  by rewrite !Hrun.
Qed.

Lemma failed_fetch_keeps_display_witness :
  let ss := session_after fraction_repr provider_sample (click "AAPL") fresh_session in
  let quiet := run fraction_repr provider_sample (without_click (click "ZZZZ")) ss in
  run fraction_repr provider_sample (click "ZZZZ") ss
  = (quiet.1,
     {| w_state := w_state quiet.2;
        w_page := EError "Error fetching data: HTTP 404" :: w_page quiet.2;
        w_calls := [("ZZZZ", "1y")] |}).
Proof.
  cbn zeta.
  eapply (failed_fetch_keeps_display fraction_repr provider_sample (click "ZZZZ")).
  - by vm_compute.
  - done.
  - done.
Defined.

(** X5: once a history is stored, a run without a click does not depend
    on the symbol typed, the period selected or the provider: it renders
    the stored data, downloads included, under the stored symbol. *)
Theorem rerun_ignores_sidebar num_repr yf yf' inp inp' ss hist :
  ss_stock_data ss = Some (Some hist) ->
  in_fetch_button inp = false ->
  in_fetch_button inp' = false ->
  run num_repr yf inp ss = run num_repr yf' inp' ss.
Proof.
  intros Hd Hinp Hinp'. rewrite !run_display. unfold fetch_world.
  by rewrite !(attempts_fetch_stored _ ss hist Hd), Hinp, Hinp'.
Qed.

Lemma rerun_ignores_sidebar_witness :
  let ss := session_after fraction_repr provider_sample (click "AAPL") fresh_session in
  run fraction_repr provider_sample (without_click (click "MSFT")) ss
  = run fraction_repr (fun _ _ => Raises "offline") (without_click (click "")) ss.
Proof.
  cbn zeta.
  eapply (rerun_ignores_sidebar fraction_repr); [by vm_compute|done|done].
Defined.

(** ** When the tiles and the metrics table build *)

Ltac metric_key := cbn [In metric_keys]; repeat first [by left | right].

Lemma dict_get_no_text info k :
  no_text info -> In k metric_keys -> is_text (dict_get info k) = false.
Proof.
  intros Hno Hin. unfold dict_get. destruct (info !! k) as [v|] eqn:Hk; [|done].
  by apply (Hno k).
Qed.

Lemma py_format_no_text fs v :
  is_text v = false -> truthy v = true -> exists s, py_format fs v = Ok s.
Proof. destruct v; cbn; try done; eauto. Qed.

Lemma py_format_number fs v :
  is_text v = false -> is_None v = false -> exists s, py_format fs v = Ok s.
Proof. destruct v; cbn; try done; eauto. Qed.

Lemma dict_get_or_truthy info k d :
  truthy (dict_get info k) = true -> dict_get_or info k d = dict_get info k.
Proof. unfold dict_get, dict_get_or. by destruct (info !! k). Qed.

Lemma guarded_no_text fs pre k info :
  no_text info -> In k metric_keys -> exists s, guarded fs pre k info = Ok s.
Proof.
  intros Hno Hin. unfold guarded.
  destruct (truthy (dict_get info k)) eqn:Ht; [|by eexists].
  rewrite dict_get_or_truthy by done.
  destruct (py_format_no_text fs _ (dict_get_no_text info k Hno Hin) Ht) as [s ->].
  by eexists.
Qed.

Lemma guarded_pct_no_text k info :
  no_text info -> In k metric_keys -> exists s, guarded_pct k info = Ok s.
Proof.
  intros Hno Hin. unfold guarded_pct.
  destruct (truthy (dict_get info k)) eqn:Ht; [|by eexists].
  rewrite dict_get_or_truthy by done.
  pose proof (dict_get_no_text info k Hno Hin) as Hk.
  destruct (dict_get info k); try done; cbn; by eexists.
Qed.

Lemma guarded2_no_text fs pre label k1 k2 info :
  no_text info -> no_shadowing_none info ->
  In (label, k1, k2) fallback_fields ->
  In k1 metric_keys -> In k2 metric_keys ->
  exists s, guarded2 fs pre k1 k2 info = Ok s.
Proof.
  intros Hno Hsh Hin Hin1 Hin2. unfold guarded2.
  destruct (truthy (py_or (dict_get info k1) (dict_get info k2))) eqn:Ht;
    [|by eexists].
  assert (is_text (dict_get_or info k1 (dict_get_or info k2 (VStr "N/A"))) = false
          /\ is_None (dict_get_or info k1 (dict_get_or info k2 (VStr "N/A"))) = false)
    as [Htext Hnone].
  { unfold py_or in Ht. unfold dict_get_or, dict_get in *.
    destruct (info !! k1) as [v1|] eqn:H1; cbn [default from_option id] in *.
    - split; [by apply (Hno k1)|].
      destruct v1; try done.
      specialize (Hsh label k1 k2 Hin H1). unfold dict_get in Hsh.
      cbn [truthy] in Ht. congruence.
    - cbn [truthy] in Ht.
      destruct (info !! k2) as [v2|] eqn:H2; cbn [default from_option id] in *; [|done].
      split; [by apply (Hno k2)|]. by destruct v2. }
  destruct (py_format_number fs _ Htext Hnone) as [s ->]. by eexists.
Qed.

Lemma format_large_number_no_text v :
  is_text v = false -> exists s, format_large_number v = Ok s.
Proof.
  destruct v as [|x| |s]; try done; try by eexists.
  intros _. unfold format_large_number. cbn [is_None pd_isna orb].
  repeat match goal with |- context [if ?b then _ else _] => destruct b end;
    by eexists.
Qed.

Lemma sequence_all_ok {A} (rs : list (Result A)) :
  Forall (fun r => exists a, r = Ok a) rs ->
  exists l, sequence rs = Ok l /\ length l = length rs.
Proof.
  induction 1 as [|r rs [a ->] _ (l & Hl & Hlen)].
  - by exists [].
  - exists (a :: l). cbn [sequence mbind Result_bind]. rewrite Hl.
    split; [done|]. cbn. by rewrite Hlen.
Qed.

Lemma current_price_no_text info :
  no_text info -> is_text (current_price info) = false.
Proof.
  intros Hno. unfold current_price, py_or, dict_get_or.
  pose proof (dict_get_no_text info "currentPrice" Hno ltac:(metric_key)).
  destruct (truthy _); [done|].
  destruct (info !! "regularMarketPrice") as [v|] eqn:Hk; [|done].
  apply (Hno "regularMarketPrice"); [metric_key|done].
Qed.

Lemma previous_close_no_text info :
  no_text info -> is_text (previous_close info) = false.
Proof.
  intros Hno. unfold previous_close, dict_get_or.
  destruct (info !! "previousClose") as [v|] eqn:Hk; [|done].
  apply (Hno "previousClose"); [metric_key|done].
Qed.

Lemma price_change_number info :
  no_text info -> exists v, price_change info = Ok v /\ is_number v = true.
Proof.
  intros Hno. unfold price_change, py_and.
  pose proof (current_price_no_text info Hno) as Hc.
  pose proof (previous_close_no_text info Hno) as Hp.
  destruct (truthy (current_price info)) eqn:Htc.
  - destruct (truthy (previous_close info)) eqn:Htp; [|by eexists].
    destruct (current_price info), (previous_close info); try done;
      cbn; by eexists.
  - rewrite Htc. by eexists.
Qed.

Lemma price_change_pct_number info :
  no_text info ->
  exists pct, price_change_pct info = Ok pct /\ is_number pct = true.
Proof.
  intros Hno. unfold price_change_pct.
  destruct (price_change_number info Hno) as (change & -> & Hchange).
  cbn [mbind Result_bind].
  pose proof (previous_close_no_text info Hno) as Hp.
  destruct (truthy (previous_close info)) eqn:Htp; [|by eexists].
  destruct change, (previous_close info) as [|y| |]; try done;
    cbn [py_div truthy] in *.
  all: try (apply negb_true_iff in Htp; rewrite Htp).
  all: cbn; by eexists.
Qed.

Lemma py_format_is_number fs v :
  is_number v = true -> exists s, py_format fs v = Ok s.
Proof. destruct v; cbn; try done; eauto. Qed.

Lemma price_tile_no_text info :
  no_text info -> exists m, price_tile info = Ok m.
Proof.
  intros Hno. unfold price_tile.
  destruct (price_change_number info Hno) as (change & -> & Hchange).
  destruct (price_change_pct_number info Hno) as (pct & -> & Hpct).
  cbn [mbind Result_bind].
  pose proof (current_price_no_text info Hno) as Hc.
  destruct (truthy (current_price info)) eqn:Htc.
  - destruct (py_format_no_text spec_2f _ Hc Htc) as [s ->].
    cbn [mbind Result_bind].
    destruct (truthy change); [|by eexists].
    destruct (py_format_is_number spec_plus_2f _ Hchange) as [a ->].
    destruct (py_format_is_number spec_plus_2f _ Hpct) as [b ->].
    by eexists.
  - cbn [mbind Result_bind].
    destruct (truthy change); [|by eexists].
    destruct (py_format_is_number spec_plus_2f _ Hchange) as [a ->].
    destruct (py_format_is_number spec_plus_2f _ Hpct) as [b ->].
    by eexists.
Qed.

Lemma market_cap_tile_no_text info :
  no_text info -> exists m, market_cap_tile info = Ok m.
Proof.
  intros Hno. unfold market_cap_tile.
  destruct (format_large_number_no_text _
              (dict_get_no_text info "marketCap" Hno ltac:(metric_key)))
    as [s ->].
  by eexists.
Qed.

Lemma pe_tile_no_text info :
  no_text info -> exists m, pe_tile info = Ok m.
Proof.
  intros Hno. unfold pe_tile. cbv zeta.
  destruct (truthy (dict_get info "trailingPE")) eqn:Ht; [|by eexists].
  destruct (py_format_no_text spec_2f _
              (dict_get_no_text info "trailingPE" Hno ltac:(metric_key)) Ht)
    as [s ->].
  by eexists.
Qed.

Lemma dividend_tile_no_text info :
  no_text info -> exists m, dividend_tile info = Ok m.
Proof.
  intros Hno. unfold dividend_tile. cbv zeta.
  destruct (truthy (dict_get info "dividendYield")) eqn:Ht; [|by eexists].
  pose proof (dict_get_no_text info "dividendYield" Hno ltac:(metric_key)) as Hk.
  destruct (dict_get info "dividendYield"); try done; cbn; by eexists.
Qed.

Lemma volume_tile_no_text info :
  no_text info -> exists m, volume_tile info = Ok m.
Proof.
  intros Hno. unfold volume_tile. cbv zeta.
  destruct (truthy (py_or (dict_get info "volume")
                          (dict_get info "regularMarketVolume"))) eqn:Ht;
    [|by eexists].
  assert (is_text (py_or (dict_get info "volume")
                         (dict_get info "regularMarketVolume")) = false) as Hv.
  { unfold py_or.
    destruct (truthy (dict_get info "volume"));
      apply dict_get_no_text; (done || metric_key). }
  destruct (py_format_no_text spec_comma_0f _ Hv Ht) as [s ->].
  by eexists.
Qed.


Lemma no_text_info_plain : no_text info_plain.
Proof.
  intros k v Hin Hk. unfold info_plain in Hk.
  apply lookup_insert_Some in Hk as [[<- _]|[_ Hk]].
  { exfalso. cbn [In metric_keys] in Hin. intuition discriminate. }
  repeat (apply lookup_insert_Some in Hk as [[_ <-]|[_ Hk]]; [done|]).
  by apply lookup_singleton_Some in Hk as [_ <-].
Defined.

Lemma no_shadowing_none_info_plain : no_shadowing_none info_plain.
Proof.
  intros label key fallback Hin Hkey.
  unfold fallback_fields in Hin. cbn [In] in Hin.
  repeat (destruct Hin as [[= <- <- <-]|Hin]; [by vm_compute in Hkey |- *|]).
  done.
Defined.


(** ** The shape of the metrics table *)

Lemma nonblank_length s : s <> "" <-> (0 < String.length s)%nat.
Proof. destruct s; cbn; split; (done || lia). Qed.

Lemma append_nonblank_l s t : s <> "" -> s +:+ t <> "".
Proof. rewrite !nonblank_length, string_length_append. lia. Qed.

Lemma append_nonblank_r s t : t <> "" -> s +:+ t <> "".
Proof. rewrite !nonblank_length, string_length_append. lia. Qed.

Lemma rev_string_onto_length s acc :
  String.length (rev_string_onto s acc) = (String.length s + String.length acc)%nat.
Proof.
  revert acc. induction s as [|c s IH]; intros acc; [done|].
  cbn [rev_string_onto]. rewrite IH. cbn [String.length]. lia.
Qed.

Lemma rev_string_nonblank s : s <> "" -> rev_string s <> "".
Proof.
  rewrite !nonblank_length. unfold rev_string.
  rewrite rev_string_onto_length. cbn [String.length]. lia.
Qed.

Lemma group3_nonblank s : s <> "" -> group3 s <> "".
Proof. by destruct s as [|a [|b [|c [|d r]]]]. Qed.

Lemma thousands_nonblank s : s <> "" -> thousands s <> "".
Proof.
  intros Hs. unfold thousands.
  by apply rev_string_nonblank, group3_nonblank, rev_string_nonblank.
Qed.

Lemma fixed_digits_nonblank comma prec x : fixed_digits comma prec x <> "".
Proof.
  unfold fixed_digits. cbv zeta.
  assert (forall n, (if comma then thousands (Z_digits n) else Z_digits n) <> "")
    as Hip.
  { intros n. destruct comma; [apply thousands_nonblank|]; apply Z_digits_nonempty. }
  destruct prec; [apply Hip|]. apply append_nonblank_l, Hip.
Qed.

Lemma py_format_nonblank fs v s : py_format fs v = Ok s -> s <> "".
Proof.
  destruct v; cbn [py_format]; intros [= <-].
  - apply append_nonblank_r, fixed_digits_nonblank.
  - by apply append_nonblank_r.
Qed.

Lemma guarded_nonblank fs pre k info s : guarded fs pre k info = Ok s -> s <> "".
Proof.
  unfold guarded. destruct (truthy _); [|by intros [= <-]].
  destruct (py_format _ _) as [t|] eqn:Ht; [|done].
  intros [= <-]. by eapply append_nonblank_r, py_format_nonblank.
Qed.

Lemma guarded2_nonblank fs pre k1 k2 info s :
  guarded2 fs pre k1 k2 info = Ok s -> s <> "".
Proof.
  unfold guarded2. destruct (truthy _); [|by intros [= <-]].
  destruct (py_format _ _) as [t|] eqn:Ht; [|done].
  intros [= <-]. by eapply append_nonblank_r, py_format_nonblank.
Qed.

Lemma guarded_pct_nonblank k info s : guarded_pct k info = Ok s -> s <> "".
Proof.
  unfold guarded_pct. destruct (truthy _); [|by intros [= <-]].
  destruct (py_mul_int _ _) as [v|]; [|done]. cbn [mbind Result_bind].
  destruct (py_format _ _) as [t|]; [|done].
  intros [= <-]. by apply append_nonblank_r.
Qed.

Lemma format_large_number_nonblank v s : format_large_number v = Ok s -> s <> "".
Proof.
  unfold format_large_number.
  destruct (is_None v || pd_isna v); [by intros [= <-]|].
  destruct v; try done.
  repeat match goal with |- context [if ?b then _ else _] => destruct b end;
    by intros [= <-].
Qed.

Lemma sequence_ok_Forall {A} (P : A -> Prop) (rs : list (Result A)) l :
  Forall (fun r => forall a, r = Ok a -> P a) rs ->
  sequence rs = Ok l -> Forall P l.
Proof.
  intros Hrs. revert l. induction Hrs as [|r rs Hr _ IH]; intros l.
  - by intros [= <-].
  - cbn [sequence mbind Result_bind]. destruct r as [a|]; [|done].
    destruct (sequence rs) as [l'|]; [|done]. intros [= <-].
    constructor; [by apply Hr | by apply IH].
Qed.

Lemma sequence_ok_length {A} (rs : list (Result A)) l :
  sequence rs = Ok l -> length l = length rs.
Proof.
  revert l. induction rs as [|r rs IH]; intros l.
  - by intros [= <-].
  - cbn [sequence mbind Result_bind]. destruct r as [a|]; [|done].
    destruct (sequence rs) as [l'|]; [|done]. intros [= <-].
    cbn. by rewrite (IH l').
Qed.

(** X7: whenever the metrics table is built, its Metric column is the same
    23 distinct labels whatever the metadata, and its Value column has 23
    entries none of which is blank. *)
Theorem metrics_table_shape (info : Info) (values : list string) :
  financial_value_column info = Ok values ->
  financial_metric_column info = metric_labels /\
  NoDup metric_labels /\
  length values = 23%nat /\
  Forall (fun s => s <> "") values.
Proof.
  intros Hvalues. split; [done|]. split; [|split].
  - apply (bool_decide_unpack _). by vm_compute.
  - unfold financial_value_column in Hvalues.
    by rewrite (sequence_ok_length _ _ Hvalues).
  - unfold financial_value_column in Hvalues.
    eapply sequence_ok_Forall; [|exact Hvalues].
    cbn [financial_rows fmap list_fmap snd].
    repeat apply List.Forall_cons; try apply List.Forall_nil; intros s.
    all: first [ apply guarded_nonblank | apply guarded2_nonblank
               | apply guarded_pct_nonblank | apply format_large_number_nonblank ].
Qed.

Lemma metrics_table_shape_witness :
  exists values,
    financial_value_column info_plain = Ok values /\
    financial_metric_column info_plain = metric_labels /\
    NoDup metric_labels /\
    length values = 23%nat /\
    Forall (fun s => s <> "") values.
Proof.
  eexists. split; [|apply metrics_table_shape]; vm_compute; reflexivity.
Defined.

(** ** The tiles and the table show the same figures *)

Lemma guarded2_py_or fs pre k1 k2 info :
  ~ shadowed info k1 k2 ->
  guarded2 fs pre k1 k2 info
  = if truthy (py_or (dict_get info k1) (dict_get info k2))
    then s ← py_format fs (py_or (dict_get info k1) (dict_get info k2));
         Ok (pre +:+ s)
    else Ok "N/A".
Proof.
  intros Hsh. unfold guarded2.
  destruct (truthy (py_or (dict_get info k1) (dict_get info k2))) eqn:Ht; [|done].
  f_equal. f_equal. unfold py_or in *.
  destruct (truthy (dict_get info k1)) eqn:H1.
  - by apply dict_get_or_truthy.
  - unfold dict_get_or, dict_get in *.
    destruct (info !! k1) as [v1|] eqn:Hk1.
    + destruct Hsh. split; [by rewrite Hk1|]. unfold dict_get. by rewrite Hk1.
    + cbn [default from_option id] in *.
      by destruct (info !! k2).
Qed.

Lemma current_price_py_or info :
  truthy (current_price info)
  = truthy (py_or (dict_get info "currentPrice") (dict_get info "regularMarketPrice")) /\
  (truthy (current_price info) = true ->
   current_price info
   = py_or (dict_get info "currentPrice") (dict_get info "regularMarketPrice")).
Proof.
  unfold current_price, py_or, dict_get_or, dict_get.
  destruct (truthy (default VNone (info !! "currentPrice"))); [done|].
  by destruct (info !! "regularMarketPrice").
Qed.

Lemma market_cap_tile_value info m :
  market_cap_tile info = Ok m ->
  format_large_number (dict_get info "marketCap") = Ok (m_value m).
Proof.
  unfold market_cap_tile. destruct (format_large_number _); [|done].
  by intros [= <-].
Qed.

Lemma pe_tile_value info m :
  pe_tile info = Ok m -> guarded spec_2f "" "trailingPE" info = Ok (m_value m).
Proof.
  unfold pe_tile, guarded. cbv zeta.
  destruct (truthy (dict_get info "trailingPE")) eqn:Ht.
  - rewrite dict_get_or_truthy by done.
    destruct (py_format _ _) as [s|]; [|done]. by intros [= <-].
  - by intros [= <-].
Qed.

Lemma dividend_tile_value info m :
  dividend_tile info = Ok m -> guarded_pct "dividendYield" info = Ok (m_value m).
Proof.
  unfold dividend_tile, guarded_pct. cbv zeta.
  destruct (truthy (dict_get info "dividendYield")) eqn:Ht.
  - rewrite dict_get_or_truthy by done.
    destruct (py_mul_int _ _) as [v|]; [|done]. cbn [mbind Result_bind].
    destruct (py_format _ _) as [s|]; [|done]. by intros [= <-].
  - by intros [= <-].
Qed.

Lemma volume_tile_value info m :
  ~ shadowed info "volume" "regularMarketVolume" ->
  volume_tile info = Ok m ->
  guarded2 spec_comma_0f "" "volume" "regularMarketVolume" info = Ok (m_value m).
Proof.
  intros Hsh. rewrite guarded2_py_or by done.
  unfold volume_tile. cbv zeta.
  destruct (truthy _).
  - destruct (py_format _ _) as [s|]; [|done]. by intros [= <-].
  - by intros [= <-].
Qed.

Lemma price_tile_value info m :
  ~ shadowed info "currentPrice" "regularMarketPrice" ->
  price_tile info = Ok m ->
  guarded2 spec_2f "$" "currentPrice" "regularMarketPrice" info = Ok (m_value m).
Proof.
  intros Hsh. rewrite guarded2_py_or by done.
  destruct (current_price_py_or info) as [<- Hcur].
  unfold price_tile.
  destruct (price_change info) as [change|]; [|done].
  destruct (price_change_pct info) as [pct|]; [|done].
  cbn [mbind Result_bind].
  destruct (truthy (current_price info)) eqn:Ht.
  - rewrite <- Hcur by done.
    destruct (py_format spec_2f (current_price info)) as [s|]; [|done].
    cbn [mbind Result_bind].
    destruct (if truthy change then _ else _) as [delta|]; [|done].
    by intros [= <-].
  - cbn [mbind Result_bind].
    destruct (if truthy change then _ else _) as [delta|]; [|done].
    by intros [= <-].
Qed.

(** X8: when the five tiles are built, each shows the text of its row of
    the metrics table: market capitalisation, P/E ratio and dividend yield
    always; price and volume unless the primary field is bound to a falsy
    value while the fallback field is truthy. *)
Theorem tiles_agree_with_table (info : Info) (tiles : list Metric) :
  metric_tiles info = Ok tiles ->
  exists price cap pe dividend volume,
    tiles = [price; cap; pe; dividend; volume] /\
    table_value info "Market Cap" = Some (Ok (m_value cap)) /\
    table_value info "P/E Ratio (Trailing)" = Some (Ok (m_value pe)) /\
    table_value info "Dividend Yield" = Some (Ok (m_value dividend)) /\
    (~ shadowed info "volume" "regularMarketVolume" ->
     table_value info "Volume" = Some (Ok (m_value volume))) /\
    (~ shadowed info "currentPrice" "regularMarketPrice" ->
     table_value info "Current Price" = Some (Ok (m_value price))).
Proof.
  unfold metric_tiles. cbn [sequence mbind Result_bind].
  destruct (price_tile info) as [price|] eqn:Hprice; [|done].
  destruct (market_cap_tile info) as [cap|] eqn:Hcap; [|done].
  destruct (pe_tile info) as [pe|] eqn:Hpe; [|done].
  destruct (dividend_tile info) as [dividend|] eqn:Hdividend; [|done].
  destruct (volume_tile info) as [volume|] eqn:Hvolume; [|done].
  intros [= <-]. exists price, cap, pe, dividend, volume.
  split; [done|].
  split; [exact (f_equal Some (market_cap_tile_value _ _ Hcap))|].
  split; [exact (f_equal Some (pe_tile_value _ _ Hpe))|].
  split; [exact (f_equal Some (dividend_tile_value _ _ Hdividend))|].
  split; intros Hsh.
  - exact (f_equal Some (volume_tile_value _ _ Hsh Hvolume)).
  - exact (f_equal Some (price_tile_value _ _ Hsh Hprice)).
Qed.

Lemma tiles_agree_with_table_witness :
  exists price cap pe dividend volume,
    metric_tiles info_quote = Ok [price; cap; pe; dividend; volume] /\
    table_value info_quote "Market Cap" = Some (Ok (m_value cap)) /\
    table_value info_quote "P/E Ratio (Trailing)" = Some (Ok (m_value pe)) /\
    table_value info_quote "Dividend Yield" = Some (Ok (m_value dividend)) /\
    table_value info_quote "Volume" = Some (Ok (m_value volume)) /\
    table_value info_quote "Current Price" = Some (Ok (m_value price)).
Proof.
  assert (exists tiles, metric_tiles info_quote = Ok tiles) as [tiles Htiles].
  { eexists. vm_compute. reflexivity. }
  destruct (tiles_agree_with_table info_quote tiles Htiles)
    as (price & cap & pe & dividend & volume & -> & Hcap & Hpe & Hdiv & Hvol & Hprice).
  exists price, cap, pe, dividend, volume.
  repeat (split; [done|]).
  split; [apply Hvol | apply Hprice]; intros (_ & _ & H); by vm_compute in H.
Defined.

(** ** The page of a run that displays data *)

Lemma emit_run e ss page calls :
  emit e {| w_state := ss; w_page := page; w_calls := calls |}
  = (Ok tt, {| w_state := ss; w_page := (page ++ [e])%list; w_calls := calls |}).
Proof. reflexivity. Qed.

Lemma lift_run {A} (a : A) r w : r = Ok a -> lift r w = (Ok a, w).
Proof. by intros ->. Qed.

Lemma metric_tiles_inv info tiles :
  metric_tiles info = Ok tiles ->
  exists price cap pe dividend volume,
    tiles = [price; cap; pe; dividend; volume] /\
    price_tile info = Ok price /\ market_cap_tile info = Ok cap /\
    pe_tile info = Ok pe /\ dividend_tile info = Ok dividend /\
    volume_tile info = Ok volume.
Proof.
  unfold metric_tiles. cbn [sequence mbind Result_bind].
  destruct (price_tile info) as [price|]; [|done].
  destruct (market_cap_tile info) as [cap|]; [|done].
  destruct (pe_tile info) as [pe|]; [|done].
  destruct (dividend_tile info) as [dividend|]; [|done].
  destruct (volume_tile info) as [volume|]; [|done].
  intros [= <-]. by exists price, cap, pe, dividend, volume.
Qed.

Lemma has_bars_derive hist open high low close volume :
  has_bars hist open high low close volume ->
  has_bars (derive_moving_averages hist) open high low close volume.
Proof.
  intros (Hdate & Ho & Hh & Hl & Hc & Hv & Hlc & Hlo).
  unfold has_bars, df_len.
  rewrite derive_moving_averages_cols_get, derive_moving_averages_index by done.
  by rewrite !derive_moving_averages_getitem by done.
Qed.

Lemma display_data_run num_repr ss page calls hist info current_symbol
    open high low close volume tiles values :
  ss_stock_data ss = Some (Some hist) ->
  ss_stock_info ss = Some (Some info) ->
  ss_symbol ss = Some current_symbol ->
  has_bars hist open high low close volume ->
  metric_tiles info = Ok tiles ->
  financial_value_column info = Ok values ->
  display_data num_repr {| w_state := ss; w_page := page; w_calls := calls |}
  = (Ok tt,
     {| w_state := store_hist ss (derive_moving_averages hist);
        w_page := (page ++ data_page num_repr current_symbol hist
                             open high low close volume tiles info values)%list;
        w_calls := calls |}).
Proof.
  intros Hd Hi Hs Hbars Htiles Hvalues.
  pose proof (has_bars_derive _ _ _ _ _ _ Hbars)
    as (Hdate' & Ho' & Hh' & Hl' & Hc' & Hv' & _ & _).
  destruct Hbars as (Hdate & Ho & Hh & Hl & Hc & Hv & Hlc & Hlo).
  destruct (metric_tiles_inv _ _ Htiles)
    as (pr & cap & pe & dv & vol & -> & Hpr & Hcap & Hpe & Hdv & Hvol).
  unfold display_data.
  erewrite bind_run by (by eapply get_hist_run).
  erewrite bind_run by reflexivity.
  cbn [w_state]. rewrite Hi, Hs.
  erewrite bind_run by reflexivity.
  erewrite bind_run by reflexivity.
  erewrite bind_run by reflexivity.
  erewrite bind_run by (by eapply lift_run). erewrite bind_run by apply emit_run.
  erewrite bind_run by (by eapply lift_run). erewrite bind_run by apply emit_run.
  erewrite bind_run by (by eapply lift_run). erewrite bind_run by apply emit_run.
  erewrite bind_run by (by eapply lift_run). erewrite bind_run by apply emit_run.
  erewrite bind_run by (by eapply lift_run). erewrite bind_run by apply emit_run.
  erewrite bind_run by (by eapply build_chart_run).
  erewrite bind_run by apply emit_run.
  erewrite bind_run.
  2:{ eapply lift_run. unfold financial_df. rewrite Hvalues. reflexivity. }
  erewrite bind_run by apply emit_run.
  erewrite bind_run by (by eapply get_hist_run).
  erewrite bind_run.
  2:{ eapply lift_run.
      by apply (display_hist_explicit _ open high low close volume). }
  erewrite bind_run by apply emit_run.
  erewrite bind_run.
  2:{ eapply lift_run.
      by apply (csv_hist_explicit _ open high low close volume). }
  erewrite bind_run by apply emit_run.
  rewrite emit_run. unfold data_page, metrics_table, shown_table, exported_table,
    date_cells.
  rewrite derive_moving_averages_index.
  cbn [map]. by rewrite <- !app_assoc.
Qed.

Lemma cols_set_same {A} name (v : A) cs :
  cols_get name cs = Some v -> cols_set name v cs = cs.
Proof.
  induction cs as [|[n c] cs IH]; [done|]. cbn [cols_get cols_set].
  destruct (String.eqb n name); [by intros [= ->]|].
  intros H. by rewrite IH.
Qed.

Lemma with_moving_average_same w col hist close :
  df_getitem hist "Close" = Ok close ->
  cols_get col (columns hist) = Some (rolling_mean w close) ->
  with_moving_average w col hist = hist.
Proof.
  intros Hc Hcol. unfold with_moving_average. rewrite Hc.
  destruct (w <=? df_len hist)%nat; [|done].
  unfold df_setitem. rewrite cols_set_same by done. by destruct hist.
Qed.

Lemma with_moving_average_no_close w col hist e :
  df_getitem hist "Close" = Raise e -> with_moving_average w col hist = hist.
Proof.
  intros Hc. unfold with_moving_average. rewrite Hc.
  by destruct (w <=? df_len hist)%nat.
Qed.

Lemma with_moving_average_below w col hist :
  (w <=? df_len hist)%nat = false -> with_moving_average w col hist = hist.
Proof. unfold with_moving_average. by intros ->. Qed.

(** Deriving the moving averages a second time changes nothing. *)
Lemma derive_moving_averages_idempotent hist :
  derive_moving_averages (derive_moving_averages hist)
  = derive_moving_averages hist.
Proof.
  set (d := derive_moving_averages hist).
  assert (df_len d = df_len hist) as Hlen.
  { unfold d, df_len. by rewrite derive_moving_averages_index. }
  assert (df_getitem d "Close" = df_getitem hist "Close") as Hclose.
  { by apply derive_moving_averages_getitem. }
  destruct (df_getitem hist "Close") as [close|e] eqn:Hc.
  - assert (forall w col name color,
              In (w, col, name, color) moving_average_windows ->
              with_moving_average w col d = d) as Hsame.
    { intros w col name color Hin.
      destruct (w <=? df_len hist)%nat eqn:Hw.
      - apply (with_moving_average_same _ _ _ close); [done|].
        apply df_getitem_cols_get. unfold d.
        rewrite (derive_moving_averages_column hist close w col name color)
          by done.
        by rewrite Hw.
      - apply with_moving_average_below. by rewrite Hlen. }
    unfold derive_moving_averages at 1.
    rewrite (Hsame 20%nat "MA20" "20-Day MA" "orange") by (cbn; tauto).
    by rewrite (Hsame 50%nat "MA50" "50-Day MA" "blue") by (cbn; tauto).
  - unfold derive_moving_averages at 1.
    rewrite (with_moving_average_no_close 20 "MA20" d e) by done.
    by rewrite (with_moving_average_no_close 50 "MA50" d e).
Qed.

Lemma cols_set_length {A} name (v : A) cs : length (cols_set name v cs) <> 0%nat.
Proof.
  destruct cs as [|[n c] cs]; [done|]. cbn [cols_set].
  by destruct (String.eqb n name).
Qed.

Lemma with_moving_average_empty w col hist :
  df_empty (with_moving_average w col hist) = df_empty hist.
Proof.
  unfold with_moving_average.
  destruct (w <=? df_len hist)%nat; [|done].
  destruct (df_getitem hist "Close") as [close|] eqn:Hc; [|done].
  unfold df_empty, df_setitem. cbn [index columns]. f_equal.
  apply df_getitem_cols_get in Hc.
  destruct (columns hist) as [|nc cs] eqn:Hcs; [done|].
  rewrite <- Hcs.
  pose proof (cols_set_length col (rolling_mean w close) (columns hist)) as Hne.
  rewrite Hcs at 2. cbn [length].
  by destruct (length (cols_set _ _ _)).
Qed.

Lemma derive_moving_averages_empty hist :
  df_empty (derive_moving_averages hist) = df_empty hist.
Proof.
  unfold derive_moving_averages. by rewrite !with_moving_average_empty.
Qed.

Lemma data_page_derive num_repr current_symbol hist open high low close volume
    tiles info values :
  data_page num_repr current_symbol (derive_moving_averages hist)
            open high low close volume tiles info values
  = data_page num_repr current_symbol hist
              open high low close volume tiles info values.
Proof.
  unfold data_page, chart_of, shown_table, exported_table, date_cells, df_len.
  by rewrite !derive_moving_averages_index.
Qed.

Lemma display_populated_run num_repr page calls hist info symbol
    open high low close volume tiles values :
  df_empty hist = false ->
  has_bars hist open high low close volume ->
  metric_tiles info = Ok tiles ->
  financial_value_column info = Ok values ->
  display num_repr {| w_state := populated hist info symbol;
                      w_page := page; w_calls := calls |}
  = (Ok tt,
     {| w_state := populated (derive_moving_averages hist) info symbol;
        w_page := (page ++ data_page num_repr (Some symbol) hist
                             open high low close volume tiles info values)%list;
        w_calls := calls |}).
Proof.
  intros Hne Hbars Htiles Hvalues. unfold display.
  erewrite bind_run by reflexivity.
  cbn [w_state populated ss_stock_data].
  erewrite bind_run by reflexivity.
  cbv beta iota. rewrite Hne. cbn [negb].
  by erewrite display_data_run.
Qed.



Lemma has_bars_one_bar :
  has_bars hist_one_bar [Some 1%Q] [Some 2%Q] [Some 1%Q] [Some 2%Q] [Some 10%Q].
Proof. unfold has_bars. repeat (split; [reflexivity|]). reflexivity. Defined.

Lemma has_bars_ramp :
  has_bars (hist_ramp 25) (ramp 25 10) (ramp 25 12) (ramp 25 9) (ramp 25 11)
           (ramp 25 1000).
Proof.
  unfold has_bars. repeat (split; [vm_compute; reflexivity|]).
  vm_compute; reflexivity.
Defined.



(** ** The text of the metrics download *)

Lemma plain_text_append a b : plain_text (a +:+ b) = plain_text a && plain_text b.
Proof.
  induction a as [|c a IH]; [done|].
  rewrite append_cons. cbn [plain_text]. by rewrite IH, andb_assoc.
Qed.

Lemma is_digit_text_char c : is_digit c = true -> text_char c = true.
Proof.
  intros Hc%is_digit_not_special. unfold special_char, text_char in *.
  destruct (Ascii.eqb c comma); [done|]. cbn [orb] in Hc. by rewrite Hc.
Qed.

Lemma all_digits_plain_text s : all_digits s = true -> plain_text s = true.
Proof.
  induction s as [|c s IH]; [done|]. cbn [all_digits plain_text].
  intros [Hc Hs]%andb_true_iff. by rewrite is_digit_text_char, IH.
Qed.

Lemma plain_text_rev_string_onto s acc :
  plain_text (rev_string_onto s acc) = plain_text s && plain_text acc.
Proof.
  revert acc. induction s as [|c s IH]; intros acc; [done|].
  cbn [rev_string_onto plain_text]. rewrite IH. cbn [plain_text].
  by destruct (text_char c), (plain_text s).
Qed.

Lemma plain_text_rev_string s : plain_text (rev_string s) = plain_text s.
Proof.
  unfold rev_string. rewrite plain_text_rev_string_onto. cbn [plain_text].
  by rewrite andb_true_r.
Qed.

Lemma plain_text_group3 s : plain_text (group3 s) = plain_text s.
Proof.
  remember (String.length s) as n eqn:Hn.
  revert s Hn. induction n as [n IH] using lt_wf_ind. intros s ->.
  destruct s as [|a [|b [|c [|d r]]]]; try done.
  change (group3 (String a (String b (String c (String d r)))))
    with (String a (String b (String c (String "," (group3 (String d r)))))).
  assert (plain_text (group3 (String d r)) = plain_text (String d r)) as Hrest.
  { apply (IH (String.length (String d r))); [cbn; lia|done]. }
  change (plain_text (String a (String b (String c (String "," ?t)))))
    with (text_char a && (text_char b && (text_char c && plain_text t))).
  rewrite Hrest. reflexivity.
Qed.

Lemma plain_text_thousands s : plain_text (thousands s) = plain_text s.
Proof.
  unfold thousands.
  by rewrite plain_text_rev_string, plain_text_group3, plain_text_rev_string.
Qed.

Lemma plain_text_pad_left w s : plain_text s = true -> plain_text (pad_left w s) = true.
Proof.
  intros Hs. unfold pad_left. rewrite plain_text_append, Hs, andb_true_r.
  induction (w - String.length s)%nat as [|k IH]; [done|]. done.
Qed.

Lemma plain_text_fixed_digits comma prec x :
  plain_text (fixed_digits comma prec x) = true.
Proof.
  unfold fixed_digits. cbv zeta.
  assert (forall n, plain_text (if comma then thousands (Z_digits n)
                                else Z_digits n) = true) as Hip.
  { intros n. destruct comma; rewrite ?plain_text_thousands;
      apply all_digits_plain_text, Z_digits_all_digits. }
  destruct prec; [apply Hip|].
  rewrite !plain_text_append, Hip.
  rewrite plain_text_pad_left
    by apply all_digits_plain_text, Z_digits_all_digits.
  done.
Qed.

Lemma plain_text_format_float fs x : plain_text (format_float fs x) = true.
Proof.
  unfold format_float. rewrite plain_text_append, plain_text_fixed_digits.
  unfold sign_string. by destruct (Qlt_bool x 0), (fs_plus fs).
Qed.

Lemma plain_text_py_format fs v s : py_format fs v = Ok s -> plain_text s = true.
Proof.
  destruct v; cbn [py_format]; intros [= <-].
  - apply plain_text_format_float.
  - by destruct (fs_plus fs).
Qed.

Lemma plain_text_guarded fs pre k info s :
  plain_text pre = true -> guarded fs pre k info = Ok s -> plain_text s = true.
Proof.
  intros Hpre. unfold guarded. destruct (truthy _); [|by intros [= <-]].
  destruct (py_format _ _) as [t|] eqn:Ht; [|done].
  intros [= <-]. rewrite plain_text_append, Hpre.
  by eapply plain_text_py_format.
Qed.

Lemma plain_text_guarded2 fs pre k1 k2 info s :
  plain_text pre = true -> guarded2 fs pre k1 k2 info = Ok s -> plain_text s = true.
Proof.
  intros Hpre. unfold guarded2. destruct (truthy _); [|by intros [= <-]].
  destruct (py_format _ _) as [t|] eqn:Ht; [|done].
  intros [= <-]. rewrite plain_text_append, Hpre.
  by eapply plain_text_py_format.
Qed.

Lemma plain_text_guarded_pct k info s :
  guarded_pct k info = Ok s -> plain_text s = true.
Proof.
  unfold guarded_pct. destruct (truthy _); [|by intros [= <-]].
  destruct (py_mul_int _ _) as [v|]; [|done]. cbn [mbind Result_bind].
  destruct (py_format _ _) as [t|] eqn:Ht; [|done].
  intros [= <-]. rewrite plain_text_append.
  by rewrite (plain_text_py_format _ _ _ Ht).
Qed.

Lemma plain_text_format_large_number v s :
  format_large_number v = Ok s -> plain_text s = true.
Proof.
  unfold format_large_number.
  destruct (is_None v || pd_isna v); [by intros [= <-]|].
  destruct v; try done.
  repeat match goal with |- context [if ?b then _ else _] => destruct b end;
    intros [= <-]; rewrite ?plain_text_append, ?plain_text_format_float; done.
Qed.

Lemma plain_text_values info values :
  financial_value_column info = Ok values ->
  Forall (fun s => plain_text s = true) values.
Proof.
  intros Hvalues. unfold financial_value_column in Hvalues.
  eapply sequence_ok_Forall; [|exact Hvalues].
  cbn [financial_rows fmap list_fmap snd].
  repeat apply List.Forall_cons; try apply List.Forall_nil; intros s.
  all: first [ by apply plain_text_guarded | by apply plain_text_guarded2
             | apply plain_text_guarded_pct
             | apply plain_text_format_large_number ].
Qed.

Lemma plain_text_double_quotes s : plain_text s = true -> double_quotes s = s.
Proof.
  induction s as [|c s IH]; [done|]. cbn [plain_text double_quotes].
  intros [Hc Hs]%andb_true_iff. rewrite IH by done.
  unfold text_char in Hc. by destruct (Ascii.eqb c dquote).
Qed.

Lemma plain_text_needs_quote s :
  plain_text s = true -> needs_quote s = has_char comma s.
Proof.
  induction s as [|c s IH]; [done|]. cbn [plain_text needs_quote has_char].
  intros [Hc Hs]%andb_true_iff. rewrite IH by done.
  unfold text_char, special_char in *.
  destruct (Ascii.eqb c comma); [done|].
  apply negb_true_iff in Hc. cbn [orb]. by rewrite Hc.
Qed.

Lemma csv_field_quoted_if_comma s :
  plain_text s = true -> csv_field s = quoted_if_comma s.
Proof.
  intros Hs. unfold csv_field, quoted_if_comma.
  by rewrite plain_text_needs_quote, plain_text_double_quotes.
Qed.

Lemma zip_with_ext_Forall {A B C} (P : B -> Prop) (f g : A -> B -> C) ls vs :
  Forall P vs -> (forall l v, P v -> f l v = g l v) ->
  zip_with f ls vs = zip_with g ls vs.
Proof.
  intros Hvs Hfg. revert ls. induction Hvs as [|v vs Hv _ IH]; intros [|l ls];
    try done.
  cbn [zip_with]. by rewrite Hfg, IH.
Qed.

Lemma metrics_csv_fields num_repr info values :
  length values = 23%nat ->
  to_csv num_repr (metrics_table info values)
  = csv_line ["Metric"; "Value"]
    +:+ concat_strings
          (zip_with (fun label v => csv_line [label; csv_field v])
                    metric_labels values).
Proof.
  intros Hlen. unfold metrics_table.
  change (financial_metric_column info) with metric_labels.
  do 23 (destruct values as [|? values]; [done|]).
  destruct values; [|done]. reflexivity.
Qed.

(** X11: the metrics download is a header line followed by one line per
    row of the table, in table order: the label, a comma and the value,
    which stands between double quotes exactly when it holds a thousands
    separator; no value holds a double quote or a line break. *)
Theorem metrics_csv_lines num_repr (info : Info) (values : list string) :
  financial_value_column info = Ok values ->
  to_csv num_repr (metrics_table info values)
  = csv_line ["Metric"; "Value"]
    +:+ concat_strings (zip_with metrics_line metric_labels values) /\
  length (zip_with metrics_line metric_labels values) = 23%nat /\
  Forall (fun v => plain_text v = true) values.
Proof.
  intros Hvalues.
  pose proof (plain_text_values info values Hvalues) as Hplain.
  assert (length values = 23%nat) as Hlen.
  { unfold financial_value_column in Hvalues.
    by rewrite (sequence_ok_length _ _ Hvalues). }
  split; [|split; [|done]].
  - rewrite metrics_csv_fields by done. f_equal. f_equal.
    apply (zip_with_ext_Forall (fun v => plain_text v = true)); [done|].
    intros l v Hv. unfold metrics_line. by rewrite csv_field_quoted_if_comma.
  - rewrite length_zip_with. rewrite Hlen. reflexivity.
Qed.

Lemma metrics_csv_lines_witness :
  exists values,
    financial_value_column info_volume = Ok values /\
    to_csv fraction_repr (metrics_table info_volume values)
    = csv_line ["Metric"; "Value"]
      +:+ concat_strings (zip_with metrics_line metric_labels values) /\
    zip_with metrics_line metric_labels values !! 8%nat
    = Some ("P/E Ratio (Trailing),28.50" +:+ String newline "") /\
    zip_with metrics_line metric_labels values !! 16%nat
    = Some ("Volume," +:+ String dquote "1,234,567"
            +:+ String dquote (String newline "")).
Proof.
  assert (exists values, financial_value_column info_volume = Ok values)
    as [values Hvalues].
  { eexists. vm_compute. reflexivity. }
  exists values. split; [exact Hvalues|].
  split; [exact (proj1 (metrics_csv_lines fraction_repr _ _ Hvalues))|].
  vm_compute in Hvalues. injection Hvalues as <-.
  split; vm_compute; reflexivity.
Defined.

(** ** When the two historical tables are built *)

Lemma select_columns_raise names (t : Table) :
  (exists n, In n names /\ cols_get n t = None) ->
  select_columns names t = Raise KeyError.
Proof.
  induction names as [|n names IH]; intros (m & Hin & Hm); [done|].
  cbn [select_columns]. unfold getitem at 1.
  destruct (cols_get n t) as [c|] eqn:Hn; [|done].
  cbn [mbind Result_bind].
  destruct Hin as [-> | Hin]; [congruence|].
  rewrite IH by eauto. done.
Qed.

Lemma forallb_has_column_false hist names :
  forallb (has_column hist) names = false ->
  exists n, In n names /\ cols_get n (columns hist) = None.
Proof.
  induction names as [|n names IH]; [done|]. cbn [forallb].
  intros [Hn|Hrest]%andb_false_iff.
  - exists n. split; [by left|]. unfold has_column in Hn.
    by destruct (cols_get n (columns hist)).
  - destruct (IH Hrest) as (m & Hin & Hm). exists m. split; [by right|done].
Qed.

Lemma has_column_getitem hist name :
  has_column hist name = true -> exists col, df_getitem hist name = Ok col.
Proof.
  unfold has_column, df_getitem, getitem.
  destruct (cols_get name (columns hist)) as [c|]; [by exists c|done].
Qed.

(** X12: the table on screen and the exported table are built together or
    fail together, with the same exception: a ValueError when the history
    has a column named Date, else a KeyError when one of Open, High, Low,
    Close, Volume is missing, else both are built from these five columns,
    whatever numbers or NaN they hold. *)
Theorem historical_tables_outcome (hist : DataFrame) :
  match tables_outcome hist with
  | Some e => csv_hist hist = Raise e /\ display_hist hist = Raise e
  | None =>
      exists open high low close volume,
        csv_hist hist = Ok (exported_table hist open high low close volume) /\
        display_hist hist = Ok (shown_table hist open high low close volume)
  end.
Proof.
  unfold tables_outcome, has_column at 1.
  destruct (cols_get "Date" (columns hist)) as [d|] eqn:Hdate; cbn [is_Some_bool].
  - rewrite display_hist_unfold, csv_hist_unfold.
    unfold reset_index_strftime. by rewrite Hdate.
  - destruct (forallb (has_column hist) price_columns) eqn:Hall.
    + cbn [forallb price_columns] in Hall.
      apply andb_true_iff in Hall as [[open Ho]%has_column_getitem Hall].
      apply andb_true_iff in Hall as [[high Hh]%has_column_getitem Hall].
      apply andb_true_iff in Hall as [[low Hl]%has_column_getitem Hall].
      apply andb_true_iff in Hall as [[close Hc]%has_column_getitem Hall].
      apply andb_true_iff in Hall as [[volume Hv]%has_column_getitem _].
      exists open, high, low, close, volume.
      split; [by apply csv_hist_explicit | by apply display_hist_explicit].
    + apply forallb_has_column_false in Hall as (n & Hin & Hn).
      assert (n <> "Date") as Hne.
      { intros ->. cbn in Hin. intuition discriminate. }
      assert ((reset_index_strftime hist ≫= select_columns display_cols)
              = Raise KeyError) as Hsel.
      { unfold reset_index_strftime. rewrite Hdate. cbn [mbind Result_bind].
        apply select_columns_raise. exists n. split.
        - right. exact Hin.
        - cbn [cols_get].
          destruct (String.eqb "Date" n) eqn:Heq;
            [by apply String.eqb_eq in Heq|].
          by rewrite cols_get_map, Hn. }
      rewrite display_hist_unfold, csv_hist_unfold, Hsel. done.
Qed.

Lemma historical_tables_outcome_witness :
  (csv_hist hist_no_volume = Raise KeyError /\
   display_hist hist_no_volume = Raise KeyError) /\
  (csv_hist (df_setitem hist_sample "Date" []) = Raise ValueError /\
   display_hist (df_setitem hist_sample "Date" []) = Raise ValueError) /\
  (exists open high low close volume,
     csv_hist hist_sample
     = Ok (exported_table hist_sample open high low close volume) /\
     display_hist hist_sample
     = Ok (shown_table hist_sample open high low close volume)).
Proof.
  split; [|split].
  - exact (historical_tables_outcome hist_no_volume).
  - exact (historical_tables_outcome (df_setitem hist_sample "Date" [])).
  - exact (historical_tables_outcome hist_sample).
Defined.

(** ** Exceptions a run can end with *)

Lemma expected_bind {A B} (r : Result A) (k : A -> Result B) :
  ok_or_expected r -> (forall a, ok_or_expected (k a)) ->
  ok_or_expected (r ≫= k).
Proof. destruct r as [a|e]; [intros _ Hk; apply Hk | by intros He _]. Qed.

Lemma expected_sequence {A} (rs : list (Result A)) :
  Forall ok_or_expected rs -> ok_or_expected (sequence rs).
Proof.
  induction 1 as [|r rs Hr _ IH]; [done|].
  cbn [sequence]. apply expected_bind; [done|]. intros a.
  apply expected_bind; [done|]. by intros l.
Qed.

Lemma expected_py_format fs v : ok_or_expected (py_format fs v).
Proof. by destruct v. Qed.

Lemma expected_py_sub a b : ok_or_expected (py_sub a b).
Proof. by destruct a, b. Qed.

Lemma expected_py_mul_int v n : ok_or_expected (py_mul_int v n).
Proof. by destruct v. Qed.

Lemma expected_py_div a b : truthy b = true -> ok_or_expected (py_div a b).
Proof.
  destruct a, b; cbn [py_div truthy]; try done.
  all: by intros ->%negb_true_iff.
Qed.

Lemma expected_format_large_number v : ok_or_expected (format_large_number v).
Proof.
  unfold format_large_number. destruct (is_None v || pd_isna v); [done|].
  destruct v; try done.
  by repeat match goal with |- context [if ?b then _ else _] => destruct b end.
Qed.

Lemma expected_price_change info : ok_or_expected (price_change info).
Proof.
  unfold price_change. destruct (truthy _); [apply expected_py_sub|done].
Qed.

Lemma expected_price_change_pct info : ok_or_expected (price_change_pct info).
Proof.
  unfold price_change_pct. apply expected_bind; [apply expected_price_change|].
  intros change. destruct (truthy (previous_close info)) eqn:Hp; [|done].
  apply expected_bind; [by apply expected_py_div|].
  intros r. apply expected_py_mul_int.
Qed.

Ltac expected_step :=
  first [ apply expected_py_format | apply expected_py_mul_int
        | apply expected_format_large_number
        | apply expected_price_change | apply expected_price_change_pct
        | apply expected_bind; [|intros ?]
        | match goal with
          | |- ok_or_expected (if ?b then _ else _) => destruct b
          end
        | exact I | reflexivity ].

Lemma expected_price_tile info : ok_or_expected (price_tile info).
Proof. unfold price_tile. repeat expected_step. Qed.

Lemma expected_market_cap_tile info : ok_or_expected (market_cap_tile info).
Proof. unfold market_cap_tile. repeat expected_step. Qed.

Lemma expected_pe_tile info : ok_or_expected (pe_tile info).
Proof. unfold pe_tile. cbv zeta. repeat expected_step. Qed.

Lemma expected_dividend_tile info : ok_or_expected (dividend_tile info).
Proof. unfold dividend_tile. cbv zeta. repeat expected_step. Qed.

Lemma expected_volume_tile info : ok_or_expected (volume_tile info).
Proof. unfold volume_tile. cbv zeta. repeat expected_step. Qed.

Lemma expected_guarded fs pre k info : ok_or_expected (guarded fs pre k info).
Proof. unfold guarded. repeat expected_step. Qed.

Lemma expected_guarded2 fs pre k1 k2 info :
  ok_or_expected (guarded2 fs pre k1 k2 info).
Proof. unfold guarded2. repeat expected_step. Qed.

Lemma expected_guarded_pct k info : ok_or_expected (guarded_pct k info).
Proof. unfold guarded_pct. repeat expected_step. Qed.

Lemma expected_financial_df info : ok_or_expected (financial_df info).
Proof.
  unfold financial_df. apply expected_bind; [|done].
  unfold financial_value_column. apply expected_sequence.
  cbn [financial_rows fmap list_fmap snd].
  repeat apply List.Forall_cons; try apply List.Forall_nil.
  all: first [ apply expected_guarded | apply expected_guarded2
             | apply expected_guarded_pct | apply expected_format_large_number ].
Qed.

Lemma expected_getitem {A} (cs : list (string * A)) name :
  ok_or_expected (getitem cs name).
Proof. unfold getitem. by destruct (cols_get name cs). Qed.

Lemma expected_iloc {A} (series : list A) i : ok_or_expected (iloc series i).
Proof. unfold iloc. by destruct (series !! i). Qed.

Lemma expected_colors hist : ok_or_expected (colors hist).
Proof.
  unfold colors. apply expected_sequence, List.Forall_forall.
  intros r (i & <- & _)%in_map_iff.
  apply expected_bind; [apply expected_getitem|]. intros close.
  apply expected_bind; [apply expected_iloc|]. intros c.
  apply expected_bind; [apply expected_getitem|]. intros open.
  apply expected_bind; [apply expected_iloc|]. by intros o.
Qed.

Lemma expected_reset_index_strftime hist :
  ok_or_expected (reset_index_strftime hist).
Proof. unfold reset_index_strftime. by destruct (cols_get "Date" _). Qed.

Lemma expected_select_columns names t : ok_or_expected (select_columns names t).
Proof.
  induction names as [|n names IH]; [done|]. cbn [select_columns].
  apply expected_bind; [apply expected_getitem|]. intros c.
  apply expected_bind; [done|]. by intros rest.
Qed.

Lemma expected_update_column f col t :
  (forall c, ok_or_expected (f c)) -> ok_or_expected (update_column f col t).
Proof.
  intros Hf. unfold update_column.
  apply expected_bind; [apply expected_getitem|]. intros c.
  apply expected_bind; [|done].
  apply expected_sequence, List.Forall_forall.
  by intros r (x & <- & _)%in_map_iff.
Qed.

Lemma expected_round_columns cols t : ok_or_expected (round_columns cols t).
Proof.
  revert t. induction cols as [|col cols IH]; intros t; [done|].
  cbn [round_columns]. apply expected_bind; [|done].
  apply expected_update_column. by intros [].
Qed.

Lemma expected_display_hist hist : ok_or_expected (display_hist hist).
Proof.
  unfold display_hist.
  apply expected_bind; [apply expected_reset_index_strftime|]. intros t.
  apply expected_bind; [apply expected_select_columns|]. intros t1.
  apply expected_bind; [apply expected_round_columns|]. intros t2.
  apply expected_bind; [|done].
  apply expected_update_column. by intros [].
Qed.

Lemma expected_csv_hist hist : ok_or_expected (csv_hist hist).
Proof.
  unfold csv_hist.
  apply expected_bind; [apply expected_reset_index_strftime|]. intros t.
  apply expected_select_columns.
Qed.

(** *** Script fragments from a session with all keys set *)

Lemma safe_weaken {A} (m : Script A) (Q R : A -> Prop) :
  safe m Q -> (forall a, Q a -> R a) -> safe m R.
Proof.
  intros Hm HQR w Hw. destruct (Hm w Hw) as [Hr Hs]. split; [|done].
  destruct ((m w).1); [by apply HQR|done].
Qed.

Lemma safe_bind {A B} (m : Script A) (k : A -> Script B) Q R :
  safe m Q -> (forall a, Q a -> safe (k a) R) -> safe (m ≫= k) R.
Proof.
  intros Hm Hk w Hw. specialize (Hm w Hw).
  unfold mbind, Script_bind. destruct (m w) as [[a|e] w']; cbn [fst snd] in *.
  - destruct Hm as [Ha Hw']. by apply Hk.
  - done.
Qed.

Lemma safe_ret {A} (a : A) (Q : A -> Prop) : Q a -> safe (mret a) Q.
Proof. by intros Ha w Hw. Qed.

Lemma safe_lift {A} (r : Result A) :
  ok_or_expected r -> safe (lift r) (fun _ => True).
Proof. intros Hr w Hw. split; [|done]. by destruct r. Qed.

Lemma safe_emit e : safe (emit e) (fun _ => True).
Proof. by intros w Hw. Qed.

Lemma safe_get_state : safe get_state stored_session.
Proof. by intros w Hw. Qed.

Lemma safe_set_state ss : stored_session ss -> safe (set_state ss) (fun _ => True).
Proof. by intros Hss w Hw. Qed.

Lemma safe_get_hist : safe get_hist (fun _ => True).
Proof.
  unfold get_hist. eapply safe_bind; [apply safe_get_state|].
  intros ss (hist & info & symbol & ->). cbn [populated ss_stock_data read_key].
  eapply safe_bind; [by apply (safe_ret _ (fun d => d = Some hist))|].
  intros d ->. by apply safe_ret.
Qed.

Lemma safe_hist_col name : safe (hist_col name) (fun _ => True).
Proof.
  unfold hist_col. eapply safe_bind; [apply safe_get_hist|].
  intros hist _. apply safe_lift, expected_getitem.
Qed.

Lemma safe_hist_set_col name series :
  safe (hist_set_col name series) (fun _ => True).
Proof.
  unfold hist_set_col. eapply safe_bind; [apply safe_get_hist|].
  intros hist _. eapply safe_bind; [apply safe_get_state|].
  intros ss (hist' & info & symbol & ->). apply safe_set_state.
  by exists (df_setitem hist name series), info, symbol.
Qed.

Lemma safe_add_moving_average w col name color fig :
  safe (add_moving_average w col name color fig) (fun _ => True).
Proof.
  unfold add_moving_average. eapply safe_bind; [apply safe_get_hist|].
  intros hist _. destruct (w <=? df_len hist)%nat; [|by apply safe_ret].
  eapply safe_bind; [apply safe_hist_col|]. intros close _.
  eapply safe_bind; [apply safe_hist_set_col|]. intros [] _.
  eapply safe_bind; [apply safe_get_hist|]. intros hist' _.
  eapply safe_bind; [apply safe_hist_col|]. intros y _.
  by apply safe_ret.
Qed.

Lemma safe_build_chart : safe build_chart (fun _ => True).
Proof.
  unfold build_chart. eapply safe_bind; [apply safe_get_hist|].
  intros hist _.
  do 4 (eapply safe_bind; [apply safe_hist_col|]; intros ? _).
  do 2 (eapply safe_bind; [apply safe_add_moving_average|]; intros ? _).
  eapply safe_bind; [apply safe_get_hist|]. intros hist' _.
  eapply safe_bind; [apply safe_lift, expected_colors|]. intros cs _.
  eapply safe_bind; [apply safe_hist_col|]. intros volume _.
  by apply safe_ret.
Qed.

Lemma safe_display_data num_repr : safe (display_data num_repr) (fun _ => True).
Proof.
  unfold display_data. eapply safe_bind; [apply safe_get_hist|].
  intros hist _. eapply safe_bind; [apply safe_get_state|].
  intros ss (hist' & info & symbol & ->).
  cbn [populated ss_stock_info ss_symbol read_key].
  eapply safe_bind; [by apply (safe_ret _ (fun i => i = Some info))|].
  intros stored_info ->.
  eapply safe_bind; [by apply (safe_ret _ (fun _ => True))|].
  intros current_symbol _.
  eapply safe_bind; [by apply safe_lift|]. intros info' _.
  eapply safe_bind; [apply safe_lift, expected_price_tile|]. intros ? _.
  eapply safe_bind; [apply safe_emit|]. intros ? _.
  eapply safe_bind; [apply safe_lift, expected_market_cap_tile|]. intros ? _.
  eapply safe_bind; [apply safe_emit|]. intros ? _.
  eapply safe_bind; [apply safe_lift, expected_pe_tile|]. intros ? _.
  eapply safe_bind; [apply safe_emit|]. intros ? _.
  eapply safe_bind; [apply safe_lift, expected_dividend_tile|]. intros ? _.
  eapply safe_bind; [apply safe_emit|]. intros ? _.
  eapply safe_bind; [apply safe_lift, expected_volume_tile|]. intros ? _.
  eapply safe_bind; [apply safe_emit|]. intros ? _.
  eapply safe_bind; [apply safe_build_chart|]. intros fig _.
  eapply safe_bind; [apply safe_emit|]. intros ? _.
  eapply safe_bind; [apply safe_lift, expected_financial_df|]. intros fin _.
  eapply safe_bind; [apply safe_emit|]. intros ? _.
  eapply safe_bind; [apply safe_get_hist|]. intros hist2 _.
  eapply safe_bind; [apply safe_lift, expected_display_hist|]. intros shown _.
  eapply safe_bind; [apply safe_emit|]. intros ? _.
  eapply safe_bind; [apply safe_lift, expected_csv_hist|]. intros exported _.
  eapply safe_bind; [apply safe_emit|]. intros ? _.
  apply safe_emit.
Qed.

Lemma safe_display num_repr : safe (display num_repr) (fun _ => True).
Proof.
  unfold display. eapply safe_bind; [apply safe_get_state|].
  intros ss (hist & info & symbol & ->). cbn [populated ss_stock_data read_key].
  eapply safe_bind; [by apply (safe_ret _ (fun d => d = Some hist))|].
  intros d ->.
  destruct (negb (df_empty hist)); [apply safe_display_data|apply safe_emit].
Qed.

Lemma reachable_consistent num_repr ss o :
  reachable num_repr ss o -> consistent_with ss o.
Proof.
  induction 1 as [|ss o yf inp _ IH]; [by left|by apply run_consistent].
Qed.

Lemma consistent_stored_or_unset ss o :
  consistent_with ss o -> unset ss \/ stored_session ss.
Proof.
  destruct o as [[[symbol hist] info]|]; cbn [consistent_with].
  - intros (hist' & -> & _). right. by exists hist', info, symbol.
  - by left.
Qed.



(** ** The number a rendered text denotes *)

Lemma round_half_even_near q :
  (Qabs (inject_Z (round_half_even q) - q) <= 1 # 2)%Q.
Proof.
  destruct q as [n d]. unfold round_half_even, Qfloor. cbn [Qnum Qden].
  pose proof (Z.div_mod n (Zpos d) ltac:(lia)) as Hdiv.
  pose proof (Z.mod_pos_bound n (Zpos d) ltac:(lia)) as Hmod.
  set (fl := n / Zpos d) in *. set (r := n mod Zpos d) in *.
  apply Qabs_Qle_condition.
  destruct (Z.compare_spec (2 * r) (Zpos d)) as [Heq|Hlt|Hgt];
    [destruct (Z.even fl)| |].
  all: split; unfold Qle, Qminus, Qplus, Qopp, inject_Z; cbn [Qnum Qden].
  all: rewrite ?Pos2Z.inj_mul; nia.
Qed.

Lemma round_half_even_nonneg q : (0 <= q)%Q -> 0 <= round_half_even q.
Proof.
  destruct q as [n d]. unfold Qle. cbn [Qnum Qden]. intros Hn.
  assert (0 <= n) as Hn' by lia.
  unfold round_half_even, Qfloor. cbn [Qnum Qden].
  pose proof (Z.div_pos n (Zpos d) Hn' ltac:(lia)) as Hfl.
  destruct (_ ?= _); [destruct (Z.even _)| |]; lia.
Qed.

Lemma digits_value_zeros k s :
  digits_value 0 (zeros k +:+ s) = digits_value 0 s.
Proof.
  induction k as [|k IH]; [done|].
  cbn [zeros]. rewrite append_cons. cbn [digits_value]. exact IH.
Qed.

Lemma digits_value_pad_left w n :
  0 <= n -> digits_value 0 (pad_left w (Z_digits n)) = n.
Proof.
  intros Hn. unfold pad_left. by rewrite digits_value_zeros, Z_digits_value.
Qed.

Lemma unsigned_value_fixed_digits x :
  let m := round_half_even (Qabs x * inject_Z 100) in
  exists y, unsigned_value (fixed_digits false 2 x) = Some y /\
            (y * inject_Z 100 == inject_Z m)%Q.
Proof.
  cbv zeta. unfold fixed_digits. change (10 ^ Z.of_nat 2) with 100.
  set (m := round_half_even _).
  assert (0 <= m) as Hm.
  { apply round_half_even_nonneg. apply Qmult_le_0_compat; [apply Qabs_nonneg|done]. }
  pose proof (Z.mod_pos_bound m 100 ltac:(lia)) as Hmod.
  pose proof (Z.div_mod m 100 ltac:(lia)) as Hdiv.
  pose proof (Z.div_pos m 100 Hm ltac:(lia)) as Hq.
  unfold unsigned_value.
  change ("." +:+ ?s) with (String "." s).
  rewrite split_point_digits by apply Z_digits_all_digits.
  cbn [mbind option_bind].
  eexists. split; [reflexivity|].
  rewrite pad_left_length by (by apply Z_digits_length_100).
  rewrite digits_value_pad_left by lia.
  rewrite Z_digits_value by done.
  change (10 ^ Z.of_nat 2) with 100.
  rewrite Hdiv at 3. rewrite inject_Z_plus, inject_Z_mult. field.
Qed.

Lemma round_half_even_opp n d :
  round_half_even (- n # d) = - round_half_even (n # d).
Proof.
  unfold round_half_even, Qfloor. cbn [Qnum Qden].
  pose proof (Z.mod_pos_bound n (Zpos d) ltac:(lia)) as Hmod.
  destruct (Z.eq_dec (n mod Zpos d) 0) as [Hz|Hnz].
  - rewrite Z.mod_opp_l_z, Z.div_opp_l_z, Hz by lia.
    assert ((2 * 0 ?= Zpos d) = Lt) as -> by (apply Z.compare_lt_iff; lia).
    done.
  - rewrite Z.mod_opp_l_nz, Z.div_opp_l_nz by lia.
    set (fl := n / Zpos d). set (r := n mod Zpos d) in *.
    destruct (Z.compare_spec (2 * r) (Zpos d)) as [Heq|Hlt|Hgt].
    + assert ((2 * (Zpos d - r) ?= Zpos d) = Eq) as ->
        by (apply Z.compare_eq_iff; lia).
      assert (Z.even (- fl - 1) = negb (Z.even fl)) as ->.
      { rewrite Z.even_sub, Z.even_opp. cbn [Z.even]. by destruct (Z.even fl). }
      destruct (Z.even fl); cbn [negb]; lia.
    + assert ((2 * (Zpos d - r) ?= Zpos d) = Gt) as ->
        by (apply Z.compare_gt_iff; lia).
      lia.
    + assert ((2 * (Zpos d - r) ?= Zpos d) = Lt) as ->
        by (apply Z.compare_lt_iff; lia).
      lia.
Qed.

(** Rounding the absolute value and restoring the sign is rounding. *)
Lemma round_half_even_abs x k :
  round_half_even (x * inject_Z k)
  = (if Qlt_bool x 0 then -1 else 1) * round_half_even (Qabs x * inject_Z k).
Proof.
  destruct x as [n d]. unfold Qabs, Qmult, inject_Z. cbn [Qnum Qden].
  assert (Qlt_bool (n # d) 0 = (n <? 0)) as ->.
  { unfold Qlt_bool, Qle_bool. cbn [Qnum Qden].
    rewrite Z.mul_1_r. destruct (Z.ltb_spec n 0), (Z.leb_spec 0 (n * 1));
      (done || lia). }
  destruct (Z.ltb_spec n 0) as [Hneg|Hpos].
  - rewrite Z.abs_neq by lia.
    rewrite Z.mul_opp_l, round_half_even_opp. lia.
  - rewrite Z.abs_eq by lia. lia.
Qed.

Lemma decimal_value_digits ip t :
  all_digits ip = true -> ip <> "" ->
  decimal_value (ip +:+ t) = unsigned_value (ip +:+ t).
Proof.
  destruct ip as [|c ip]; [done|]. cbn [all_digits].
  intros [Hc _]%andb_true_iff _. rewrite append_cons.
  unfold decimal_value.
  destruct c as [[] [] [] [] [] [] [] []]; try reflexivity.
  by vm_compute in Hc.
Qed.


(** *** Numbers rendered with thousands separators *)

Lemma rev_string_onto_involutive s a b :
  rev_string_onto (rev_string_onto s a) b = rev_string_onto a (s +:+ b).
Proof.
  revert a b. induction s as [|c s IH]; intros a b; [done|].
  cbn [rev_string_onto]. rewrite IH. cbn [rev_string_onto].
  by rewrite append_cons.
Qed.

Lemma rev_string_involutive s : rev_string (rev_string s) = s.
Proof.
  unfold rev_string. rewrite rev_string_onto_involutive.
  cbn [rev_string_onto]. apply append_nil_r.
Qed.

Lemma strip_commas_rev_string_onto s acc :
  strip_commas (rev_string_onto s acc)
  = rev_string_onto (strip_commas s) (strip_commas acc).
Proof.
  revert acc. induction s as [|c s IH]; intros acc; [done|].
  cbn [rev_string_onto strip_commas]. rewrite IH. cbn [strip_commas].
  by destruct (Ascii.eqb c comma).
Qed.

Lemma strip_commas_rev_string s :
  strip_commas (rev_string s) = rev_string (strip_commas s).
Proof. unfold rev_string. by rewrite strip_commas_rev_string_onto. Qed.

Lemma strip_commas_group3 s : strip_commas (group3 s) = strip_commas s.
Proof.
  remember (String.length s) as n eqn:Hn.
  revert s Hn. induction n as [n IH] using lt_wf_ind. intros s ->.
  destruct s as [|a [|b [|c [|d r]]]]; try done.
  change (group3 (String a (String b (String c (String d r)))))
    with (String a (String b (String c (String "," (group3 (String d r)))))).
  assert (strip_commas (group3 (String d r)) = strip_commas (String d r))
    as Hrest.
  { apply (IH (String.length (String d r))); [cbn; lia|done]. }
  cbn [strip_commas] in *.
  change (Ascii.eqb "," comma) with true. cbv iota.
  by rewrite Hrest.
Qed.

Lemma strip_commas_digits s : all_digits s = true -> strip_commas s = s.
Proof.
  induction s as [|c s IH]; [done|]. cbn [all_digits strip_commas].
  intros [Hc Hs]%andb_true_iff. rewrite IH by done.
  apply is_digit_not_special in Hc. unfold special_char in Hc.
  by destruct (Ascii.eqb c comma).
Qed.

Lemma all_digits_rev_string_onto s acc :
  all_digits (rev_string_onto s acc) = all_digits s && all_digits acc.
Proof.
  revert acc. induction s as [|c s IH]; intros acc; [done|].
  cbn [rev_string_onto all_digits]. rewrite IH. cbn [all_digits].
  by destruct (is_digit c), (all_digits s).
Qed.

Lemma strip_commas_thousands s :
  all_digits s = true -> strip_commas (thousands s) = s.
Proof.
  intros Hs. unfold thousands.
  rewrite strip_commas_rev_string, strip_commas_group3.
  rewrite strip_commas_digits.
  - apply rev_string_involutive.
  - unfold rev_string. rewrite all_digits_rev_string_onto, Hs. done.
Qed.

Lemma thousands_starts_with_digit s :
  all_digits s = true -> s <> "" ->
  exists c t, thousands s = String c t /\ is_digit c = true.
Proof.
  intros Hs Hne.
  assert (strip_commas (thousands s) = s) as Hstrip
    by by apply strip_commas_thousands.
  unfold thousands, rev_string in *.
  destruct (rev_string_onto s "") as [|a t] eqn:Hrev.
  { apply (f_equal String.length) in Hrev.
    rewrite rev_string_onto_length in Hrev. destruct s; [done|cbn in Hrev; lia]. }
  assert (all_digits (String a t) = true) as Hat.
  { rewrite <- Hrev, all_digits_rev_string_onto, Hs. done. }
  clear Hrev Hstrip.
  (* the last character of the grouped text is the first of [a t] reversed *)
  assert (forall u acc, u <> "" -> all_digits u = true ->
            exists c v, rev_string_onto (group3 u) acc = String c v /\
                        (is_digit c = true)) as Hlast.
  { intros u. remember (String.length u) as n eqn:Hn.
    revert u Hn. induction n as [n IH] using lt_wf_ind. intros u -> acc Hu Hd.
    destruct u as [|x [|y [|z [|w r]]]]; try done.
    - cbn in *. apply andb_true_iff in Hd as [Hx _]. by eexists _, _.
    - cbn in *. apply andb_true_iff in Hd as [_ Hd].
      apply andb_true_iff in Hd as [Hy _]. by eexists _, _.
    - cbn in *. apply andb_true_iff in Hd as [_ Hd].
      apply andb_true_iff in Hd as [_ Hd].
      apply andb_true_iff in Hd as [Hz _]. by eexists _, _.
    - change (group3 (String x (String y (String z (String w r)))))
        with (String x (String y (String z (String "," (group3 (String w r)))))).
      cbn [rev_string_onto].
      apply (IH (String.length (String w r))); [cbn; lia|done|done|].
      cbn [all_digits] in Hd.
      apply andb_true_iff in Hd as [_ Hd].
      apply andb_true_iff in Hd as [_ Hd].
      by apply andb_true_iff in Hd as [_ Hd]. }
  destruct (Hlast (String a t) "" ltac:(done) Hat) as (c & v & Heq & Hc).
  by exists c, v.
Qed.

Lemma round_half_even_scale_one x :
  round_half_even (x * inject_Z 1) = round_half_even x.
Proof.
  destruct x as [n d]. unfold Qmult, inject_Z, round_half_even, Qfloor.
  cbn [Qnum Qden]. by rewrite Z.mul_1_r, Pos.mul_1_r.
Qed.

(** X15: the text of a number rendered with thousands separators and no
    decimals is, once the separators are dropped, the number rounded to
    the nearest integer, ties to the even one, with a minus sign for a
    negative number. *)
Theorem thousands_text_accurate (x : Q) :
  exists s,
    py_format spec_comma_0f (VNum x) = Ok s /\
    grouped_value s = round_half_even x /\
    (Qabs (inject_Z (grouped_value s) - x) <= 1 # 2)%Q.
Proof.
  exists (format_float spec_comma_0f x). split; [done|].
  assert (grouped_value (format_float spec_comma_0f x) = round_half_even x)
    as Hvalue.
  { unfold format_float, sign_string, fixed_digits.
    cbn [spec_comma_0f fs_plus fs_comma fs_prec].
    change (10 ^ Z.of_nat 0) with 1. rewrite Z.div_1_r.
    pose proof (round_half_even_abs x 1) as Habs.
    rewrite !round_half_even_scale_one in Habs.
    rewrite round_half_even_scale_one.
    set (m := round_half_even (Qabs x)) in *.
    assert (0 <= m) as Hm by apply round_half_even_nonneg, Qabs_nonneg.
    destruct (Qlt_bool x 0).
    - change ("-" +:+ ?s) with (String "-" s). cbn [grouped_value].
      rewrite strip_commas_thousands by apply Z_digits_all_digits.
      rewrite Z_digits_value by done. lia.
    - rewrite append_nil_l.
      destruct (thousands_starts_with_digit (Z_digits m)
                  (Z_digits_all_digits m) (Z_digits_nonempty m))
        as (c & t & Heq & Hc).
      assert (grouped_value (thousands (Z_digits m))
              = digits_value 0 (strip_commas (thousands (Z_digits m)))) as ->.
      { rewrite Heq. unfold grouped_value.
        destruct c as [[] [] [] [] [] [] [] []]; try reflexivity.
        by vm_compute in Hc. }
      rewrite strip_commas_thousands by apply Z_digits_all_digits.
      rewrite Z_digits_value by done. lia. }
  split; [done|]. rewrite Hvalue. apply round_half_even_near.
Qed.
